(** * RAG chatbot: retrieval chain, prompt formatting and vector-store factory

  A shallow embedding of the retrieval-and-grounding pipeline of the
  repository:

  - [config/config.py]                 -> [Settings]
  - [src/llm/llm_handler.py]           -> [Module LLMHandler]
  - [src/vector_store/pinecone_store.py],
    [src/vector_store/chroma_store.py] -> [Module PineconeVectorStore],
                                          [Module ChromaVectorStore]
  - [src/vector_store/factory.py]      -> [Module VectorStoreFactory]
  - [src/rag/rag_chain.py]             -> [Module RAGChain]

  Python strings are modelled as [string]; one [ascii] stands for one
  character (code points below 256).  Python floats are IEEE binary64
  numbers, modelled by the primitive [float].  Calls into the external
  libraries (langchain, pinecone, transformers) and to the logger are
  effects: they are recorded in a trace of events, and what an external
  call answers is given by an oracle that may depend on everything that
  happened before. *)

From Stdlib Require Import PrimFloat SpecFloat FloatOps ZArith Ascii String.
From stdpp Require Import gmap strings list pretty.

Local Open Scope Z_scope.
Local Open Scope string_scope.

(** ** Python strings *)

Module PyStr.

(** The newline character, [\n]. *)
Definition nl : string := String "010" "".

(** [len(s)] *)
Definition len (s : string) : nat := String.length s.

(** [c.isspace()] for a one-character string: the whitespace characters
    below code point 256 are TAB..CR, FS..US, SPACE, NEL and NBSP. *)
Definition isspace (c : ascii) : bool :=
  let n := nat_of_ascii c in
  (Nat.leb 9 n && Nat.leb n 13) || (Nat.leb 28 n && Nat.leb n 32)
  || Nat.eqb n 133 || Nat.eqb n 160.

(** [s.lstrip()] *)
Fixpoint lstrip (s : string) : string :=
  match s with
  | String c s' => if isspace c then lstrip s' else s
  | EmptyString => EmptyString
  end.

(** [s.rstrip()] *)
Fixpoint rstrip (s : string) : string :=
  match s with
  | String c s' =>
      match rstrip s' with
      | EmptyString => if isspace c then EmptyString else String c EmptyString
      | r => String c r
      end
  | EmptyString => EmptyString
  end.

(** [s.strip()]: leading and trailing whitespace removed. *)
Definition strip (s : string) : string := rstrip (lstrip s).

(** [c.lower()] for a one-character string below code point 256: the
    letters A..Z and the accented capitals 192..222 (without 215, the
    multiplication sign) move up by 32. *)
Definition lower_char (c : ascii) : ascii :=
  let n := nat_of_ascii c in
  if (Nat.leb 65 n && Nat.leb n 90)
     || (Nat.leb 192 n && Nat.leb n 222 && negb (Nat.eqb n 215))
  then ascii_of_nat (n + 32) else c.

(** [s.lower()] *)
Fixpoint lower (s : string) : string :=
  match s with
  | String c s' => String (lower_char c) (lower s')
  | EmptyString => EmptyString
  end.

(** [s[:n]] for [n >= 0] *)
Fixpoint take (n : nat) (s : string) : string :=
  match n, s with
  | S n', String c s' => String c (take n' s')
  | _, _ => EmptyString
  end.

(** [s[n:]] for [n >= 0] *)
Fixpoint drop (n : nat) (s : string) : string :=
  match n, s with
  | S n', String _ s' => drop n' s'
  | _, _ => s
  end.

(** [s.startswith(p)] *)
Fixpoint startswith (s p : string) : bool :=
  match p, s with
  | EmptyString, _ => true
  | String a p', String b s' => Ascii.eqb a b && startswith s' p'
  | String _ _, EmptyString => false
  end.

(** [sep.join(parts)] *)
Fixpoint join (sep : string) (parts : list string) : string :=
  match parts with
  | [] => ""
  | [x] => x
  | x :: rest => x +:+ sep +:+ join sep rest
  end.

(** Truth value of a string: [bool(s)]. *)
Definition truthy (s : string) : bool :=
  match s with EmptyString => false | String _ _ => true end.

(** First and last character, when there is one. *)
Definition first_char (s : string) : option ascii :=
  match s with String c _ => Some c | EmptyString => None end.

Fixpoint last_char (s : string) : option ascii :=
  match s with
  | String c EmptyString => Some c
  | String _ s' => last_char s'
  | EmptyString => None
  end.

End PyStr.

(** ** Python numbers: truth values, [or], comparison *)

Module PyNum.

(** [x or d] for [x : Optional[int]]: [None] and [0] are false. *)
Definition or_int (x : option Z) (d : Z) : Z :=
  match x with
  | Some n => if Z.eqb n 0 then d else n
  | None => d
  end.

(** Truth value of a float: only [0.0] and [-0.0] are false (a NaN is true). *)
Definition float_truthy (x : float) : bool := negb (PrimFloat.eqb x 0%float).

(** [x or d] for [x : Optional[float]]. *)
Definition or_float (x : option float) (d : float) : float :=
  match x with
  | Some v => if float_truthy v then v else d
  | None => d
  end.

(** [x or d] for [x : Optional[str]]. *)
Definition or_str (x : option string) (d : string) : string :=
  match x with
  | Some s => if PyStr.truthy s then s else d
  | None => d
  end.

(** [x >= y] on floats (false as soon as one side is a NaN). *)
Definition float_ge (x y : float) : bool := PrimFloat.leb y x.

End PyNum.

(** ** Configuration ([config/config.py]) *)

(** The fields of [Settings] that the modelled code reads.  Every field can
    be overridden from the environment, so the development is stated for an
    arbitrary [settings]; [default_settings] holds the class defaults. *)
Record Settings := {
  VECTOR_STORE : string;
  PINECONE_API_KEY : option string;
  PINECONE_ENVIRONMENT : option string;
  PINECONE_INDEX_NAME : string;
  CHROMA_PERSIST_DIRECTORY : string;
  LLM_MODEL : string;
  LLM_TEMPERATURE : float;
  LLM_MAX_TOKENS : Z;
  LLM_TOP_P : float;
  EMBEDDING_MODEL : string;
  EMBEDDING_DIMENSION : Z;
  RETRIEVAL_TOP_K : Z;
  SIMILARITY_THRESHOLD : float
}.

#[local] Set Warnings "-inexact-float".

Definition default_settings : Settings := {|
  VECTOR_STORE := "pinecone";
  PINECONE_API_KEY := None;
  PINECONE_ENVIRONMENT := None;
  PINECONE_INDEX_NAME := "course-chatbot";
  CHROMA_PERSIST_DIRECTORY := "./data/chroma_db";
  LLM_MODEL := "meta-llama/Llama-3-8B-Instruct";
  LLM_TEMPERATURE := 0.7%float;
  LLM_MAX_TOKENS := 512;
  LLM_TOP_P := 0.9%float;
  EMBEDDING_MODEL := "sentence-transformers/all-MiniLM-L6-v2";
  EMBEDDING_DIMENSION := 384;
  RETRIEVAL_TOP_K := 5;
  SIMILARITY_THRESHOLD := 0.7%float
|}.

(** ** Documents ([langchain.schema.Document]) *)

(** Metadata values: the ingestion code of the repository stores strings
    ([source], [file_type]) and integers ([chunk_id], [chunk_size]). *)
Inductive MetaVal :=
| MStr (s : string)
| MInt (n : Z).

(** [str(v)], as an f-string field formats it. *)
Definition py_str (v : MetaVal) : string :=
  match v with
  | MStr s => s
  | MInt n => pretty n
  end.

Record Document := {
  page_content : string;
  metadata : gmap string MetaVal
}.

(** The optional [filter] dictionary handed through to the backend. *)
Definition Filter : Type := gmap string MetaVal.

(** ** Effects: exceptions, events, oracles *)

Record Exception := {
  exc_type : string;
  exc_str : string   (* [str(e)] *)
}.

Definition ValueError (msg : string) : Exception :=
  {| exc_type := "ValueError"; exc_str := msg |}.

(** The keyword arguments given to the text-generation pipeline. *)
Module Kwargs.
Record t := {
  max_new_tokens : Z;
  temperature : float;
  top_p : float;
  do_sample : bool
}.
End Kwargs.

(** The langchain store object behind a wrapper ([self.vectorstore]). *)
Inductive LangchainStore :=
| LangchainPinecone (index_name : string)
| LangchainChroma (persist_directory collection_name : string).

Inductive LogLevel := INFO | ERROR.

(** What the process does to the outside world.  [Log] is a call of
    [log.info] / [log.error] (the logger of [src.utils]); the other
    constructors are calls into pinecone, langchain and transformers. *)
Inductive Event :=
| Log (level : LogLevel) (message : string)
| PineconeClient (api_key : string)
| PineconeListIndexes
| PineconeCreateIndex (name : string) (dimension : Z)
    (metric cloud region : string)
| PineconeFromExistingIndex (index_name : string)
| ChromaClient (persist_directory collection_name : string)
| SimilaritySearchWithScore (vs : LangchainStore) (query : string) (k : Z)
    (filter : option Filter)
| PipeCall (prompt : string) (kwargs : Kwargs.t).

(** What the external calls answer: a value or a raised exception.  Each
    oracle sees the events so far, so an answer may differ from call to
    call (a sampling language model, a store that is being written to). *)
Record Externals := {
  ext_pinecone_client : list Event → string → Exception + unit;
  ext_list_indexes : list Event → Exception + list string;
  ext_create_index :
    list Event → string → Z → string → string → string → Exception + unit;
  ext_from_existing_index : list Event → string → Exception + unit;
  ext_chroma : list Event → string → string → Exception + unit;
  ext_search_with_score :
    list Event → LangchainStore → string → Z → option Filter →
    Exception + list (Document * float);
  (** [self.pipe(prompt, **kwargs)[0]["generated_text"]] *)
  ext_pipe : list Event → string → Kwargs.t → Exception + string
}.

(** The attributes of the [LLMHandler] instance of the process. *)
Module Handler.
Record t := {
  model_name : string;
  temperature : float;
  max_tokens : Z;
  top_p : float;
  device : string
}.
End Handler.

(** The mutable part of the process: the handler object and the events
    performed so far, oldest first. *)
Record World := {
  llm : Handler.t;
  trace : list Event
}.

Definition record (ev : Event) (w : World) : World :=
  {| llm := llm w; trace := trace w ++ [ev] |}.

(** Computations that may raise and that act on the world.  A raised
    exception keeps the effects performed before it. *)
Definition M (A : Type) : Type := World → (Exception + A) * World.

#[global] Instance M_ret : MRet M := λ A a w, (inr a, w).

#[global] Instance M_bind : MBind M := λ A B f m w,
  match m w with
  | (inr a, w') => f a w'
  | (inl e, w') => (inl e, w')
  end.

Definition raise {A} (e : Exception) : M A := λ w, (inl e, w).

(** [try: m  except Exception as e: h e] *)
Definition try_except {A} (m : M A) (h : Exception → M A) : M A := λ w,
  match m w with
  | (inl e, w') => h e w'
  | (inr a, w') => (inr a, w')
  end.

Definition emit (ev : Event) : M unit := λ w, (inr tt, record ev w).

(** An external call: the oracle answers from the events so far, and the
    call itself is recorded whether it returns or raises. *)
Definition call {A} (ev : Event) (oracle : list Event → Exception + A) : M A :=
  λ w, (oracle (trace w), record ev w).

(** The logger [log] of [src.utils] is an opaque sink: a call appends a
    [Log] event and has no other effect. *)
Definition log_info (msg : string) : M unit := emit (Log INFO msg).
Definition log_error (msg : string) : M unit := emit (Log ERROR msg).

(** The handler pattern used throughout the repository:
    [except Exception as e: log.error(f"<prefix>{str(e)}"); raise]. *)
Definition logged {A} (prefix : string) (m : M A) : M A :=
  try_except m (λ e, log_error (prefix +:+ exc_str e) ;; raise e).

(** Reading the handler object. *)
Definition get_llm : M Handler.t := λ w, (inr (llm w), w).

(** ** [src/llm/llm_handler.py] *)

Module LLMHandler.
Import PyStr.

(** [LLMHandler.format_prompt]: the two f-string templates. *)
Definition format_prompt (system_prompt user_message context : string) : string :=
  if truthy context then
    "<|begin_of_text|><|start_header_id|>system<|end_header_id|>" +:+ nl
    +:+ nl
    +:+ system_prompt +:+ nl
    +:+ nl
    +:+ "Context:" +:+ nl
    +:+ context +:+ "<|eot_id|><|start_header_id|>user<|end_header_id|>" +:+ nl
    +:+ nl
    +:+ user_message +:+ "<|eot_id|><|start_header_id|>assistant<|end_header_id|>" +:+ nl
    +:+ nl
  else
    "<|begin_of_text|><|start_header_id|>system<|end_header_id|>" +:+ nl
    +:+ nl
    +:+ system_prompt +:+ "<|eot_id|><|start_header_id|>user<|end_header_id|>" +:+ nl
    +:+ nl
    +:+ user_message +:+ "<|eot_id|><|start_header_id|>assistant<|end_header_id|>" +:+ nl
    +:+ nl.

Section WithExternals.
Context (ext : Externals).

(** The dictionary [generation_kwargs] built by [generate_response]. *)
Definition generation_kwargs (self : Handler.t)
    (max_tokens : option Z) (temperature : option float) : Kwargs.t :=
  {| Kwargs.max_new_tokens := PyNum.or_int max_tokens (Handler.max_tokens self);
     Kwargs.temperature := PyNum.or_float temperature (Handler.temperature self);
     Kwargs.top_p := Handler.top_p self;
     Kwargs.do_sample := true |}.

(** [LLMHandler.generate_response] *)
Definition generate_response (prompt : string)
    (max_tokens : option Z) (temperature : option float) : M string :=
  logged "Error generating response: " (
    self ← get_llm;
    let generation_kwargs := generation_kwargs self max_tokens temperature in
    generated_text ← call (PipeCall prompt generation_kwargs)
                          (λ h, ext_pipe ext h prompt generation_kwargs);
    let generated_text :=
      if startswith generated_text prompt
      then strip (drop (len prompt) generated_text)
      else generated_text in
    mret generated_text).

End WithExternals.
End LLMHandler.

(** ** [src/embeddings/embedder.py]: the embedding generator handed to the
    stores (only its identity matters here). *)
Record EmbeddingGenerator := {
  embedding_model_name : string
}.

(** ** [src/vector_store/pinecone_store.py] *)

Module PineconeVectorStore.

Record t := {
  embedding_generator : EmbeddingGenerator;
  index_name : string;
  vectorstore : LangchainStore
}.

Section WithConfig.
Context (settings : Settings) (ext : Externals).

(** [PineconeVectorStore._initialize_index] *)
Definition _initialize_index (index_name : string) : M unit :=
  logged "Error initializing index: " (
    existing_indexes ← call PineconeListIndexes (ext_list_indexes ext);
    if negb (bool_decide (index_name ∈ existing_indexes)) then
      log_info ("Creating new Pinecone index: " +:+ index_name) ;;
      (let region := PyNum.or_str (PINECONE_ENVIRONMENT settings) "us-east-1" in
       call (PineconeCreateIndex index_name (EMBEDDING_DIMENSION settings)
               "cosine" "aws" region)
            (λ h, ext_create_index ext h index_name
                    (EMBEDDING_DIMENSION settings) "cosine" "aws" region)) ;;
      log_info ("Created Pinecone index: " +:+ index_name)
    else
      log_info ("Using existing Pinecone index: " +:+ index_name)).

(** [PineconeVectorStore.__init__] *)
Definition __init__ (embedding_generator : EmbeddingGenerator) : M t :=
  match PINECONE_API_KEY settings with
  | Some (String c key as api_key) =>
      logged "Error initializing Pinecone: " (
        call (PineconeClient api_key) (λ h, ext_pinecone_client ext h api_key) ;;
        let index_name := PINECONE_INDEX_NAME settings in
        _initialize_index index_name ;;
        call (PineconeFromExistingIndex index_name)
             (λ h, ext_from_existing_index ext h index_name) ;;
        log_info ("Initialized Pinecone vector store with index: " +:+ index_name) ;;
        mret {| embedding_generator := embedding_generator;
                index_name := index_name;
                vectorstore := LangchainPinecone index_name |})
  | _ => raise (ValueError "PINECONE_API_KEY is required")
  end.

(** [PineconeVectorStore.similarity_search_with_score] *)
Definition similarity_search_with_score (self : t) (query : string)
    (k : option Z) (filter : option Filter) : M (list (Document * float)) :=
  let k := PyNum.or_int k (RETRIEVAL_TOP_K settings) in
  logged "Error searching Pinecone: " (
    results ← call (SimilaritySearchWithScore (vectorstore self) query k filter)
                   (λ h, ext_search_with_score ext h (vectorstore self) query k filter);
    log_info ("Retrieved " +:+ pretty (length results) +:+ " documents with scores") ;;
    mret results).

End WithConfig.
End PineconeVectorStore.

(** ** [src/vector_store/chroma_store.py] *)

Module ChromaVectorStore.

Record t := {
  embedding_generator : EmbeddingGenerator;
  persist_directory : string;
  vectorstore : LangchainStore
}.

Section WithConfig.
Context (settings : Settings) (ext : Externals).

(** [ChromaVectorStore.__init__] *)
Definition __init__ (embedding_generator : EmbeddingGenerator) : M t :=
  let persist_directory := CHROMA_PERSIST_DIRECTORY settings in
  logged "Error initializing Chroma: " (
    call (ChromaClient persist_directory "course_documents")
         (λ h, ext_chroma ext h persist_directory "course_documents") ;;
    log_info ("Initialized Chroma vector store at: " +:+ persist_directory) ;;
    mret {| embedding_generator := embedding_generator;
            persist_directory := persist_directory;
            vectorstore := LangchainChroma persist_directory "course_documents" |}).

(** [ChromaVectorStore.similarity_search_with_score] *)
Definition similarity_search_with_score (self : t) (query : string)
    (k : option Z) (filter : option Filter) : M (list (Document * float)) :=
  let k := PyNum.or_int k (RETRIEVAL_TOP_K settings) in
  logged "Error searching Chroma: " (
    results ← call (SimilaritySearchWithScore (vectorstore self) query k filter)
                   (λ h, ext_search_with_score ext h (vectorstore self) query k filter);
    log_info ("Retrieved " +:+ pretty (length results) +:+ " documents with scores") ;;
    mret results).

End WithConfig.
End ChromaVectorStore.

(** [Union[PineconeVectorStore, ChromaVectorStore]] *)
Inductive VectorStore :=
| Pinecone (store : PineconeVectorStore.t)
| Chroma (store : ChromaVectorStore.t).

(** A method call [vector_store.similarity_search_with_score(...)] on a
    store of either class runs the method of that class. *)
Module AnyVectorStore.
Section WithConfig.
Context (settings : Settings) (ext : Externals).

Definition similarity_search_with_score (vs : VectorStore) (query : string)
    (k : option Z) (filter : option Filter) : M (list (Document * float)) :=
  match vs with
  | Pinecone store =>
      PineconeVectorStore.similarity_search_with_score settings ext store query k filter
  | Chroma store =>
      ChromaVectorStore.similarity_search_with_score settings ext store query k filter
  end.

End WithConfig.
End AnyVectorStore.

(** ** [src/vector_store/factory.py] *)

Module VectorStoreFactory.
Section WithConfig.
Context (settings : Settings) (ext : Externals).

(** [VectorStoreFactory.create_vector_store] *)
Definition create_vector_store (embedding_generator : EmbeddingGenerator)
    : M VectorStore :=
  let vector_store_type := PyStr.lower (VECTOR_STORE settings) in
  if String.eqb vector_store_type "pinecone" then
    log_info "Creating Pinecone vector store" ;;
    store ← PineconeVectorStore.__init__ settings ext embedding_generator;
    mret (Pinecone store)
  else if String.eqb vector_store_type "chroma" then
    log_info "Creating Chroma vector store" ;;
    store ← ChromaVectorStore.__init__ settings ext embedding_generator;
    mret (Chroma store)
  else
    raise (ValueError ("Unsupported vector store type: " +:+ vector_store_type
                       +:+ ". " +:+ "Supported types: pinecone, chroma")).

End WithConfig.
End VectorStoreFactory.

(** ** [src/rag/rag_chain.py] *)

Module RAGChain.
Import PyStr.

(** The attributes of a [RAGChain] that its methods read; the handler
    [self.llm_handler] is the handler object of the [World]. *)
Record t := {
  embedding_generator : EmbeddingGenerator;
  vector_store : VectorStore;
  system_prompt : string
}.

(** The text assigned to [self.system_prompt] by [RAGChain.__init__]. *)
Definition default_system_prompt : string :=
  "You are a helpful AI assistant that answers questions based on course notes and exam papers. " +:+ nl
  +:+ "Your role is to provide accurate, detailed answers using only the information from the provided context." +:+ nl
  +:+ nl
  +:+ "Guidelines:" +:+ nl
  +:+ "- Answer questions based solely on the provided context" +:+ nl
  +:+ "- If the context doesn't contain enough information, say so clearly" +:+ nl
  +:+ "- Provide specific references to course materials when possible" +:+ nl
  +:+ "- Be concise but thorough in your explanations" +:+ nl
  +:+ "- If asked about topics not in the context, politely indicate that you don't have that information" +:+ nl
  +:+ "- Format your answers clearly with proper structure".

(** One entry of the [sources] list of a query result. *)
Record SourceEntry := {
  source : MetaVal;
  content : string
}.

(** The dictionary returned by [RAGChain.query]. *)
Record QueryResult := {
  answer : string;
  context : string;
  sources : list SourceEntry;
  num_sources : nat
}.

(** The loop of [format_context]: [enumerate(documents, i)] appending one
    labelled block per document to [context_parts]. *)
Fixpoint context_parts (i : nat) (documents : list Document) : list string :=
  match documents with
  | [] => []
  | doc :: rest =>
      let source := default (MStr "Unknown") (metadata doc !! "source") in
      let content := strip (page_content doc) in
      ("[Source " +:+ pretty i +:+ ": " +:+ py_str source +:+ "]" +:+ nl +:+ content)
        :: context_parts (S i) rest
  end.

(** [RAGChain.format_context] *)
Definition format_context (documents : list Document) : string :=
  match documents with
  | [] => "No relevant information found in the course materials."
  | _ :: _ => join (nl +:+ nl) (context_parts 1 documents)
  end.

(** The dictionary built for one document in the [sources] comprehension of
    [query]. *)
Definition source_entry (doc : Document) : SourceEntry :=
  {| source := default (MStr "Unknown") (metadata doc !! "source");
     content := if Nat.ltb 200 (len (page_content doc))
                then take 200 (page_content doc) +:+ "..."
                else page_content doc |}.

Section WithConfig.
Context (settings : Settings) (ext : Externals).

(** The comprehension
    [[doc for doc, score in results if score >= settings.SIMILARITY_THRESHOLD]]. *)
Fixpoint filtered_results (results : list (Document * float)) : list Document :=
  match results with
  | [] => []
  | (doc, score) :: rest =>
      if PyNum.float_ge score (SIMILARITY_THRESHOLD settings)
      then doc :: filtered_results rest
      else filtered_results rest
  end.

(** [RAGChain.retrieve_context] *)
Definition retrieve_context (self : t) (query : string)
    (k : option Z) (filter : option Filter) : M (list Document) :=
  let k := PyNum.or_int k (RETRIEVAL_TOP_K settings) in
  logged "Error retrieving context: " (
    results ← AnyVectorStore.similarity_search_with_score settings ext
                (vector_store self) query (Some k) filter;
    let filtered_results := filtered_results results in
    log_info ("Retrieved " +:+ pretty (length filtered_results) +:+ " documents "
              +:+ "(filtered from " +:+ pretty (length results)
              +:+ " by similarity threshold)") ;;
    mret filtered_results).

(** [RAGChain.generate_answer] *)
Definition generate_answer (self : t) (query context : string)
    (max_tokens : option Z) (temperature : option float) : M string :=
  logged "Error generating answer: " (
    let prompt := LLMHandler.format_prompt (system_prompt self) query context in
    answer ← LLMHandler.generate_response ext prompt max_tokens temperature;
    mret answer).

(** [RAGChain.query] *)
Definition query (self : t) (question : string) (k : option Z)
    (filter : option Filter) (max_tokens : option Z)
    (temperature : option float) : M QueryResult :=
  logged "Error processing query: " (
    log_info ("Processing query: " +:+ question) ;;
    retrieved_docs ← retrieve_context self question k filter;
    let context := format_context retrieved_docs in
    answer ← generate_answer self question context max_tokens temperature;
    let sources := source_entry <$> retrieved_docs in
    let result := {| answer := answer;
                     context := context;
                     sources := sources;
                     num_sources := length sources |} in
    log_info ("Successfully generated answer with " +:+ pretty (length sources)
              +:+ " sources") ;;
    mret result).

End WithConfig.
End RAGChain.

(** ** Definitions used to state the properties *)

Module Spec.
Import PyStr.

(** The label line of the block with number [i]. *)
Definition block_label (i : nat) (doc : Document) : string :=
  "[Source " +:+ pretty i +:+ ": "
  +:+ py_str (default (MStr "Unknown") (metadata doc !! "source")) +:+ "]".

(** The context as the specification words it: one block per document,
    [[Source {1-based-index}: {source}]], a newline and the document's
    content as it is stored, blocks separated by a blank line. *)
Definition format_context_spec (documents : list Document) : string :=
  match documents with
  | [] => "No relevant information found in the course materials."
  | _ :: _ =>
      join (nl +:+ nl)
        (imap (λ i doc, block_label (S i) doc +:+ nl +:+ page_content doc) documents)
  end.

(** The string starts or ends with a whitespace character. *)
Definition surrounding_whitespace (s : string) : bool :=
  from_option isspace false (first_char s)
  || from_option isspace false (last_char s).

(** The context section of a prompt that holds [context]. *)
Definition context_section (context : string) : string :=
  nl +:+ nl +:+ "Context:" +:+ nl +:+ context.

Definition system_header : string :=
  "<|begin_of_text|><|start_header_id|>system<|end_header_id|>" +:+ nl +:+ nl.
Definition user_header : string :=
  "<|eot_id|><|start_header_id|>user<|end_header_id|>" +:+ nl +:+ nl.
Definition assistant_header : string :=
  "<|eot_id|><|start_header_id|>assistant<|end_header_id|>" +:+ nl +:+ nl.

(** The langchain store a wrapper searches, and the prefix of the error
    line its handler logs. *)
Definition store_handle (vs : VectorStore) : LangchainStore :=
  match vs with
  | Pinecone store => PineconeVectorStore.vectorstore store
  | Chroma store => ChromaVectorStore.vectorstore store
  end.

Definition search_error_prefix (vs : VectorStore) : string :=
  match vs with
  | Pinecone _ => "Error searching Pinecone: "
  | Chroma _ => "Error searching Chroma: "
  end.

(** The matches of a result list whose score reaches the threshold [t]. *)
Definition passing (t : float) (results : list (Document * float))
    : list (Document * float) :=
  filter (λ m : Document * float, PyNum.float_ge m.2 t = true) results.

End Spec.

(** ** Concrete inputs *)

Module Examples.
Import PyStr.

(** [s * n] *)
Fixpoint times (s : string) (n : nat) : string :=
  match n with
  | O => ""
  | S n' => s +:+ times s n'
  end.

Definition doc_alpha : Document :=
  {| page_content := "  alpha " +:+ nl;
     metadata := {[ "source" := MStr "a.txt"; "chunk_id" := MInt 0 ]} |}.

Definition doc_beta : Document :=
  {| page_content := "beta"; metadata := ∅ |}.

Definition doc_gamma : Document :=
  {| page_content := "gamma"; metadata := {[ "source" := MStr "c.md" ]} |}.

(** A document of 205 characters. *)
Definition doc_long : Document :=
  {| page_content := times "0123456789" 20 +:+ "tail.";
     metadata := {[ "source" := MStr "long.pdf" ]} |}.

Definition photosynthesis : Document :=
  {| page_content := "Photosynthesis converts light into chemical energy.";
     metadata := {[ "source" := MStr "bio101.txt" ]} |}.

Definition search_results : list (Document * float) :=
  [(doc_alpha, 0.9%float); (doc_beta, 0.5%float);
   (doc_long, 0.75%float); (doc_gamma, 0.7%float)].

(** Matches that all stay below the default threshold. *)
Definition weak_results : list (Document * float) :=
  [(doc_beta, 0.5%float); (doc_gamma, 0.69%float)].

(** Externals that always answer: the store returns [results], whatever is
    asked, and the pipeline returns what [generate] makes of the prompt. *)
Definition ext_with (results : list (Document * float))
    (generate : string → string) : Externals :=
  {| ext_pinecone_client := λ _ _, inr tt;
     ext_list_indexes := λ _, inr ["other-index"];
     ext_create_index := λ _ _ _ _ _ _, inr tt;
     ext_from_existing_index := λ _ _, inr tt;
     ext_chroma := λ _ _ _, inr tt;
     ext_search_with_score := λ _ _ _ _ _, inr results;
     ext_pipe := λ _ prompt _, inr (generate prompt) |}.

(** A model that echoes the prompt before its answer. *)
Definition ext_ok : Externals :=
  ext_with search_results (λ prompt, prompt +:+ " Light becomes sugar. ").

(** A store that holds nothing. *)
Definition ext_empty : Externals := ext_with [] (λ _, "I do not know.").

(** A store whose matches are all weak. *)
Definition ext_weak : Externals := ext_with weak_results (λ _, "I do not know.").

(** A backend that refuses a negative [k], as a real store would. *)
Definition ext_strict : Externals :=
  {| ext_pinecone_client := λ _ _, inr tt;
     ext_list_indexes := λ _, inr [];
     ext_create_index := λ _ _ _ _ _ _, inr tt;
     ext_from_existing_index := λ _ _, inr tt;
     ext_chroma := λ _ _ _, inr tt;
     ext_search_with_score := λ _ _ _ k _,
       if Z.ltb k 0
       then inl {| exc_type := "BackendError"; exc_str := "k must be positive" |}
       else inr (firstn (Z.to_nat k) search_results);
     ext_pipe := λ _ prompt _, inr "ok" |}.

Definition embedder : EmbeddingGenerator :=
  {| embedding_model_name := "sentence-transformers/all-MiniLM-L6-v2" |}.

Definition handler : Handler.t :=
  {| Handler.model_name := "meta-llama/Llama-3-8B-Instruct";
     Handler.temperature := 0.7%float;
     Handler.max_tokens := 512;
     Handler.top_p := 0.9%float;
     Handler.device := "cpu" |}.

Definition world : World := {| llm := handler; trace := [] |}.

Definition chroma_store : ChromaVectorStore.t :=
  {| ChromaVectorStore.embedding_generator := embedder;
     ChromaVectorStore.persist_directory := "./data/chroma_db";
     ChromaVectorStore.vectorstore :=
       LangchainChroma "./data/chroma_db" "course_documents" |}.

Definition chain : RAGChain.t :=
  {| RAGChain.embedding_generator := embedder;
     RAGChain.vector_store := Chroma chroma_store;
     RAGChain.system_prompt := RAGChain.default_system_prompt |}.

(** What the chain answers to a question over [ext_ok]. *)
Definition query_result : RAGChain.QueryResult :=
  {| RAGChain.answer := "Light becomes sugar.";
     RAGChain.context := RAGChain.format_context [doc_alpha; doc_long; doc_gamma];
     RAGChain.sources :=
       [ {| RAGChain.source := MStr "a.txt";
            RAGChain.content := "  alpha " +:+ nl |};
         {| RAGChain.source := MStr "long.pdf";
            RAGChain.content := times "0123456789" 20 +:+ "..." |};
         {| RAGChain.source := MStr "c.md"; RAGChain.content := "gamma" |} ];
     RAGChain.num_sources := 3 |}.

(** The default settings with another backend type and an API key. *)
Definition settings_for (vector_store : string) : Settings :=
  {| VECTOR_STORE := vector_store;
     PINECONE_API_KEY := Some "pc-key";
     PINECONE_ENVIRONMENT := PINECONE_ENVIRONMENT default_settings;
     PINECONE_INDEX_NAME := PINECONE_INDEX_NAME default_settings;
     CHROMA_PERSIST_DIRECTORY := CHROMA_PERSIST_DIRECTORY default_settings;
     LLM_MODEL := LLM_MODEL default_settings;
     LLM_TEMPERATURE := LLM_TEMPERATURE default_settings;
     LLM_MAX_TOKENS := LLM_MAX_TOKENS default_settings;
     LLM_TOP_P := LLM_TOP_P default_settings;
     EMBEDDING_MODEL := EMBEDDING_MODEL default_settings;
     EMBEDDING_DIMENSION := EMBEDDING_DIMENSION default_settings;
     RETRIEVAL_TOP_K := RETRIEVAL_TOP_K default_settings;
     SIMILARITY_THRESHOLD := SIMILARITY_THRESHOLD default_settings |}.

(** The default settings with another similarity threshold. *)
Definition settings_with_threshold (threshold : float) : Settings :=
  {| VECTOR_STORE := "chroma";
     PINECONE_API_KEY := PINECONE_API_KEY default_settings;
     PINECONE_ENVIRONMENT := PINECONE_ENVIRONMENT default_settings;
     PINECONE_INDEX_NAME := PINECONE_INDEX_NAME default_settings;
     CHROMA_PERSIST_DIRECTORY := CHROMA_PERSIST_DIRECTORY default_settings;
     LLM_MODEL := LLM_MODEL default_settings;
     LLM_TEMPERATURE := LLM_TEMPERATURE default_settings;
     LLM_MAX_TOKENS := LLM_MAX_TOKENS default_settings;
     LLM_TOP_P := LLM_TOP_P default_settings;
     EMBEDDING_MODEL := EMBEDDING_MODEL default_settings;
     EMBEDDING_DIMENSION := EMBEDDING_DIMENSION default_settings;
     RETRIEVAL_TOP_K := RETRIEVAL_TOP_K default_settings;
     SIMILARITY_THRESHOLD := threshold |}.

(** A store that holds the one chunk about photosynthesis. *)
Definition ext_bio : Externals :=
  ext_with [(photosynthesis, 0.41%float)]
           (λ _, "It converts light into chemical energy.").

End Examples.

(** ** Reading a trace *)

Module Observe.

(** The backend searches of a trace, oldest first. *)
Definition searches (tr : list Event)
    : list (LangchainStore * string * Z * option Filter) :=
  omap (λ ev, match ev with
              | SimilaritySearchWithScore vs query k filter =>
                  Some (vs, query, k, filter)
              | _ => None
              end) tr.

(** The calls of the text-generation pipeline of a trace. *)
Definition pipe_calls (tr : list Event) : list (string * Kwargs.t) :=
  omap (λ ev, match ev with
              | PipeCall prompt kwargs => Some (prompt, kwargs)
              | _ => None
              end) tr.

(** The indexes a trace asks Pinecone to create. *)
Definition created_indexes (tr : list Event)
    : list (string * Z * string * string * string) :=
  omap (λ ev, match ev with
              | PineconeCreateIndex name dimension metric cloud region =>
                  Some (name, dimension, metric, cloud, region)
              | _ => None
              end) tr.

(** The messages of the error lines of a trace. *)
Definition error_lines (tr : list Event) : list string :=
  omap (λ ev, match ev with
              | Log ERROR message => Some message
              | _ => None
              end) tr.

(** What a query has done when its search has answered [results]: its
    first log line, the search, and the two log lines of the retrieval. *)
Definition retrieval_events (settings : Settings) (self : RAGChain.t)
    (question : string) (k : option Z) (filter : option Filter)
    (results : list (Document * float)) : list Event :=
  [ Log INFO ("Processing query: " +:+ question);
    SimilaritySearchWithScore (Spec.store_handle (RAGChain.vector_store self))
      question (PyNum.or_int k (RETRIEVAL_TOP_K settings)) filter;
    Log INFO ("Retrieved " +:+ pretty (length results) +:+ " documents with scores");
    Log INFO ("Retrieved "
              +:+ pretty (length (RAGChain.filtered_results settings results))
              +:+ " documents " +:+ "(filtered from " +:+ pretty (length results)
              +:+ " by similarity threshold)") ].

(** The prompt a query builds from the search results. *)
Definition query_prompt (settings : Settings) (self : RAGChain.t)
    (question : string) (results : list (Document * float)) : string :=
  LLMHandler.format_prompt (RAGChain.system_prompt self) question
    (RAGChain.format_context (RAGChain.filtered_results settings results)).

(** What [PineconeVectorStore.__init__] does once the index is known to exist: attach to it. *)
Definition pinecone_attach (ext : Externals)
    (embedding_generator : EmbeddingGenerator) (index_name : string)
    (w : World) : (Exception + PineconeVectorStore.t) * World :=
  let w' := record (PineconeFromExistingIndex index_name) w in
  match ext_from_existing_index ext (trace w) index_name with
  | inl e =>
      (inl e, record (Log ERROR ("Error initializing Pinecone: " +:+ exc_str e)) w')
  | inr _ =>
      (inr {| PineconeVectorStore.embedding_generator := embedding_generator;
              PineconeVectorStore.index_name := index_name;
              PineconeVectorStore.vectorstore := LangchainPinecone index_name |},
       record (Log INFO ("Initialized Pinecone vector store with index: "
                         +:+ index_name)) w')
  end.

End Observe.

(** ** When the Pinecone constructor can succeed *)

Module StoreSpec.
Section WithConfig.
Context (settings : Settings) (ext : Externals).

(** Every Pinecone call that [PineconeVectorStore.__init__] makes with the
    key [api_key] answers, when the constructor starts after the events
    [h]: the client, the listing of the indexes, the creation of the index
    when it is not listed, and the attachment to the index.  Each call is
    asked at the moment the constructor makes it. *)
Definition pinecone_answers (h : list Event) (api_key : string) : Prop :=
  let name := PINECONE_INDEX_NAME settings in
  let dimension := EMBEDDING_DIMENSION settings in
  let region := PyNum.or_str (PINECONE_ENVIRONMENT settings) "us-east-1" in
  let h1 := (h ++ [PineconeClient api_key])%list in
  let h2 := (h1 ++ [PineconeListIndexes])%list in
  let h3 := (h2 ++ [Log INFO ("Creating new Pinecone index: " +:+ name)])%list in
  ext_pinecone_client ext h api_key = inr tt
  ∧ ∃ names,
      ext_list_indexes ext h1 = inr names
      ∧ if bool_decide (name ∈ names) then
          ext_from_existing_index ext
            (h2 ++ [Log INFO ("Using existing Pinecone index: " +:+ name)])%list
            name = inr tt
        else
          ext_create_index ext h3 name dimension "cosine" "aws" region = inr tt
          ∧ ext_from_existing_index ext
              (h3 ++ [PineconeCreateIndex name dimension "cosine" "aws" region;
                      Log INFO ("Created Pinecone index: " +:+ name)])%list
              name = inr tt.

(** The first Pinecone call of the constructor that raises, raises [e]. *)
Definition pinecone_raises (h : list Event) (api_key : string) (e : Exception)
    : Prop :=
  let name := PINECONE_INDEX_NAME settings in
  let dimension := EMBEDDING_DIMENSION settings in
  let region := PyNum.or_str (PINECONE_ENVIRONMENT settings) "us-east-1" in
  let h1 := (h ++ [PineconeClient api_key])%list in
  let h2 := (h1 ++ [PineconeListIndexes])%list in
  let h3 := (h2 ++ [Log INFO ("Creating new Pinecone index: " +:+ name)])%list in
  ext_pinecone_client ext h api_key = inl e
  ∨ (ext_pinecone_client ext h api_key = inr tt
     ∧ (ext_list_indexes ext h1 = inl e
        ∨ ∃ names,
            ext_list_indexes ext h1 = inr names
            ∧ if bool_decide (name ∈ names) then
                ext_from_existing_index ext
                  (h2 ++ [Log INFO ("Using existing Pinecone index: " +:+ name)])%list
                  name = inl e
              else
                ext_create_index ext h3 name dimension "cosine" "aws" region
                = inl e
                ∨ (ext_create_index ext h3 name dimension "cosine" "aws" region
                   = inr tt
                   ∧ ext_from_existing_index ext
                       (h3 ++ [PineconeCreateIndex name dimension "cosine" "aws"
                                 region;
                               Log INFO ("Created Pinecone index: " +:+ name)])%list
                       name = inl e))).

(** The store that [PineconeVectorStore.__init__] builds. *)
Definition pinecone_store (embedding_generator : EmbeddingGenerator)
    : PineconeVectorStore.t :=
  {| PineconeVectorStore.embedding_generator := embedding_generator;
     PineconeVectorStore.index_name := PINECONE_INDEX_NAME settings;
     PineconeVectorStore.vectorstore :=
       LangchainPinecone (PINECONE_INDEX_NAME settings) |}.

(** The store that [ChromaVectorStore.__init__] builds. *)
Definition chroma_store (embedding_generator : EmbeddingGenerator)
    : ChromaVectorStore.t :=
  {| ChromaVectorStore.embedding_generator := embedding_generator;
     ChromaVectorStore.persist_directory := CHROMA_PERSIST_DIRECTORY settings;
     ChromaVectorStore.vectorstore :=
       LangchainChroma (CHROMA_PERSIST_DIRECTORY settings) "course_documents" |}.

End WithConfig.
End StoreSpec.

(** ** More concrete inputs *)

Module MoreExamples.

(** Externals whose Pinecone account already holds the configured index. *)
Definition ext_existing_index : Externals :=
  {| ext_pinecone_client := λ _ _, inr tt;
     ext_list_indexes := λ _, inr ["other-index"; "course-chatbot"];
     ext_create_index := λ _ _ _ _ _ _, inr tt;
     ext_from_existing_index := λ _ _, inr tt;
     ext_chroma := λ _ _ _, inr tt;
     ext_search_with_score := λ _ _ _ _ _, inr [];
     ext_pipe := λ _ _ _, inr "" |}.

(** Externals whose store is unreachable and whose model is out of memory. *)
Definition ext_down : Externals :=
  {| ext_pinecone_client := λ _ _, inr tt;
     ext_list_indexes :=
       λ _, inl {| exc_type := "PineconeException"; exc_str := "unreachable" |};
     ext_create_index := λ _ _ _ _ _ _, inr tt;
     ext_from_existing_index := λ _ _, inr tt;
     ext_chroma := λ _ _ _, inr tt;
     ext_search_with_score :=
       λ _ _ _ _ _,
         inl {| exc_type := "ConnectionError"; exc_str := "store is down" |};
     ext_pipe :=
       λ _ _ _, inl {| exc_type := "RuntimeError"; exc_str := "out of memory" |} |}.

End MoreExamples.

(** ** The serving layer ([api/dependencies.py], [api/main.py]) *)

(** The fields of [Settings] that the serving layer reads. *)
Record ApiSettings := {
  API_KEY_ENABLED : bool;
  API_KEY : option string;
  RATE_LIMIT_ENABLED : bool;
  RATE_LIMIT_REQUESTS : Z;
  RATE_LIMIT_PERIOD : Z
}.

Definition default_api_settings : ApiSettings := {|
  API_KEY_ENABLED := false;
  API_KEY := None;
  RATE_LIMIT_ENABLED := true;
  RATE_LIMIT_REQUESTS := 100;
  RATE_LIMIT_PERIOD := 60
|}.

(** [fastapi.HTTPException(status_code=..., detail=...)] *)
Record HTTPException := {
  status_code : Z;
  detail : string
}.

(** What a dependency or the [try] block of an endpoint can raise: an
    [HTTPException] of the serving layer's own, or any other exception (the
    outside world raises no [HTTPException]). *)
Inductive Raised :=
| Http (err : HTTPException)
| Other (e : Exception).

Definition OverflowError (msg : string) : Exception :=
  {| exc_type := "OverflowError"; exc_str := msg |}.

(** The conversion of an integer to a float that the subtraction
    [now - n] of a float and an integer makes: the nearest binary64 number,
    ties to even, and [OverflowError] when that is beyond the largest
    float. *)
Definition float_of_int (n : Z) : Exception + float :=
  match binary_normalize prec emax n 0 false with
  | S754_infinity _ | S754_nan =>
      inl (OverflowError "int too large to convert to float")
  | x => inr (SF2Prim x)
  end.

Module RateLimiter.
Section WithConfig.
Context (settings : ApiSettings).

(** [self.requests[client_id]] on the [defaultdict(list)]: a client that
    was never seen reads as the empty list. *)
Definition requests_of (requests : gmap string (list float))
    (client_id : string) : list float :=
  default [] (requests !! client_id).

(** The comprehension
    [[req_time for req_time in ... if req_time > window_start]]. *)
Fixpoint recent (window_start : float) (times : list float) : list float :=
  match times with
  | [] => []
  | req_time :: rest =>
      if PrimFloat.ltb window_start req_time
      then req_time :: recent window_start rest
      else recent window_start rest
  end.

(** [RateLimiter.is_allowed]; [now] is what [time.time()] returns, and the
    second component is [self.requests] after the call.  The subtraction
    [now - settings.RATE_LIMIT_PERIOD] comes before any change of
    [self.requests], so when it raises the records are as they were. *)
Definition is_allowed (now : float) (requests : gmap string (list float))
    (client_id : string) : (Exception + bool) * gmap string (list float) :=
  if negb (RATE_LIMIT_ENABLED settings) then (inr true, requests)
  else
    match float_of_int (RATE_LIMIT_PERIOD settings) with
    | inl e => (inl e, requests)
    | inr period =>
        let window_start := PrimFloat.sub now period in
        let requests :=
          <[client_id := recent window_start (requests_of requests client_id)]>
            requests in
        if Z.geb (Z.of_nat (length (requests_of requests client_id)))
                 (RATE_LIMIT_REQUESTS settings)
        then (inr false, requests)
        else (inr true,
              <[client_id := (requests_of requests client_id ++ [now])%list]>
                requests)
    end.

(** The dependency [rate_limiter] over [rate_limiter_instance]; an
    exception of [is_allowed] passes through it. *)
Definition rate_limiter (now : float) (requests : gmap string (list float))
    (client_id : string) : (Raised + unit) * gmap string (list float) :=
  match is_allowed now requests client_id with
  | (inl e, requests) => (inl (Other e), requests)
  | (inr allowed, requests) =>
      if negb allowed
      then (inl (Http {| status_code := 429;
                         detail := "Rate limit exceeded. Maximum "
                                   +:+ pretty (RATE_LIMIT_REQUESTS settings) +:+ " "
                                   +:+ "requests per "
                                   +:+ pretty (RATE_LIMIT_PERIOD settings)
                                   +:+ " seconds." |}), requests)
      else (inr tt, requests)
  end.

(** A run of the limiter over the requests [(now, client_id)], oldest
    first, from the given state: the decisions and the final state. *)
Fixpoint serve (arrivals : list (float * string))
    (requests : gmap string (list float))
    : list (Exception + bool) * gmap string (list float) :=
  match arrivals with
  | [] => ([], requests)
  | (now, client_id) :: rest =>
      let (allowed, requests) := is_allowed now requests client_id in
      let (decisions, requests) := serve rest requests in
      (allowed :: decisions, requests)
  end.

End WithConfig.
End RateLimiter.

Module Api.
Section WithConfig.
Context (api_settings : ApiSettings) (settings : Settings) (ext : Externals).

(** [verify_api_key]; [api_key] is the [X-API-Key] header, [None] when the
    request has none. *)
Definition verify_api_key (api_key : option string) : HTTPException + unit :=
  if negb (API_KEY_ENABLED api_settings) then inr tt
  else
    match api_key with
    | Some (String c key as api_key) =>
        if negb (bool_decide (Some api_key = API_KEY api_settings))
        then inl {| status_code := 403; detail := "Invalid API key" |}
        else inr tt
    | _ => inl {| status_code := 401; detail := "API key is required" |}
    end.

(** The body of a [POST /query] request. *)
Record QueryRequest := {
  question : string;
  k : option Z;
  max_tokens : option Z;
  temperature : option float
}.

Record QueryResponse := {
  answer : string;
  sources : list RAGChain.SourceEntry;
  num_sources : nat
}.

(** The endpoint [query_chatbot], once its dependencies have let the
    request through. *)
Definition query_chatbot (request : QueryRequest) (rag_chain : RAGChain.t)
    (w : World) : (HTTPException + QueryResponse) * World :=
  match (log_info ("Received query: " +:+ question request) ;;
         RAGChain.query settings ext rag_chain (question request) (k request)
           None (max_tokens request) (temperature request)) w with
  | (inr result, w') =>
      (inr {| answer := RAGChain.answer result;
              sources := RAGChain.sources result;
              num_sources := RAGChain.num_sources result |}, w')
  | (inl e, w') =>
      (inl {| status_code := 500;
              detail := "Error processing query: " +:+ exc_str e |},
       record (Log ERROR ("Error processing query: " +:+ exc_str e)) w')
  end.

End WithConfig.
End Api.

Module ApiExamples.

(** Two requests per minute. *)
Definition tight : ApiSettings :=
  {| API_KEY_ENABLED := true;
     API_KEY := Some "s3cret";
     RATE_LIMIT_ENABLED := true;
     RATE_LIMIT_REQUESTS := 2;
     RATE_LIMIT_PERIOD := 60 |}.

(** Authentication switched on without a key being configured. *)
Definition keyless : ApiSettings :=
  {| API_KEY_ENABLED := true;
     API_KEY := None;
     RATE_LIMIT_ENABLED := false;
     RATE_LIMIT_REQUESTS := 100;
     RATE_LIMIT_PERIOD := 60 |}.

(** A period of [2^63] seconds, and one beyond every float. *)
Definition long_period : ApiSettings :=
  {| API_KEY_ENABLED := false;
     API_KEY := None;
     RATE_LIMIT_ENABLED := true;
     RATE_LIMIT_REQUESTS := 2;
     RATE_LIMIT_PERIOD := 2 ^ 63 |}.

Definition endless_period : ApiSettings :=
  {| API_KEY_ENABLED := false;
     API_KEY := None;
     RATE_LIMIT_ENABLED := true;
     RATE_LIMIT_REQUESTS := 2;
     RATE_LIMIT_PERIOD := 2 ^ 1024 |}.

(** Alice has asked at seconds 100 and 130, Bob at second 120. *)
Definition recorded : gmap string (list float) :=
  {[ "alice" := [100%float; 130%float]; "bob" := [120%float] ]}.

Definition request : Api.QueryRequest :=
  {| Api.question := "What is alpha?";
     Api.k := None;
     Api.max_tokens := None;
     Api.temperature := None |}.

End ApiExamples.

(** ** Ingestion: loader, chunker and the writes to the store *)

(** The fields of [Settings] that ingestion reads. *)
Record IngestSettings := {
  DOCUMENTS_DIR : string;
  CHUNK_SIZE : Z;
  CHUNK_OVERLAP : Z
}.

Definition default_ingest_settings : IngestSettings := {|
  DOCUMENTS_DIR := "./data/documents";
  CHUNK_SIZE := 1000;
  CHUNK_OVERLAP := 200
|}.

(** [pathlib]: what [str(Path(s))] and [Path(s).suffix] are for a string
    [s]. *)
Record PathLib := {
  path_str : string → string;
  path_suffix : string → string
}.

Module Ingest.

(** What ingestion does to the outside world: log lines, the file system,
    the langchain loaders and splitter, the writes to the store, and the
    files an upload reads and writes. *)
Inductive IEvent :=
| ILog (level : LogLevel) (message : string)
| Mkdir (path : string)
| PathExists (path : string)
| Glob (directory pattern : string)
| LoaderLoad (extension path : string)
| SplitterInit (chunk_size chunk_overlap : Z)
| SplitDocuments (chunk_size chunk_overlap : Z) (documents : list Document)
| SplitText (chunk_size chunk_overlap : Z) (text : string)
| AddDocuments (vs : LangchainStore) (documents : list Document)
| Persist (vs : LangchainStore)
| OpenWrite (path : string)
| ReadUpload (filename : string)
| WriteFile (path : string) (content : list Byte.byte)
| CloseFile (path : string).

(** The answers of the outside world, which may depend on the events so
    far.  The splitter returns chunks that are objects of their own (the
    langchain splitter copies the metadata for every chunk). *)
Record Oracles := {
  ext_mkdir : list IEvent → string → Exception + unit;
  ext_exists : list IEvent → string → Exception + bool;
  ext_glob : list IEvent → string → string → Exception + list string;
  ext_load : list IEvent → string → string → Exception + list Document;
  ext_splitter_init : list IEvent → Z → Z → Exception + unit;
  ext_split_documents :
    list IEvent → Z → Z → list Document → Exception + list Document;
  ext_split_text : list IEvent → Z → Z → string → Exception + list string;
  ext_add_documents :
    list IEvent → LangchainStore → list Document → Exception + list string;
  ext_persist : list IEvent → LangchainStore → Exception + unit
}.

(** Computations over the trace of ingestion events. *)
Definition IO (A : Type) : Type := list IEvent → (Exception + A) * list IEvent.

#[global] Instance IO_ret : MRet IO := λ A a tr, (inr a, tr).

#[global] Instance IO_bind : MBind IO := λ A B f m tr,
  match m tr with
  | (inr a, tr') => f a tr'
  | (inl e, tr') => (inl e, tr')
  end.

Definition raise {A} (e : Exception) : IO A := λ tr, (inl e, tr).

Definition try_except {A} (m : IO A) (h : Exception → IO A) : IO A := λ tr,
  match m tr with
  | (inl e, tr') => h e tr'
  | (inr a, tr') => (inr a, tr')
  end.

Definition call {A} (ev : IEvent) (oracle : list IEvent → Exception + A) : IO A :=
  λ tr, (oracle tr, (tr ++ [ev])%list).

Definition log_info (msg : string) : IO unit := λ tr, (inr tt, (tr ++ [ILog INFO msg])%list).
Definition log_error (msg : string) : IO unit := λ tr, (inr tt, (tr ++ [ILog ERROR msg])%list).

Definition logged {A} (prefix : string) (m : IO A) : IO A :=
  try_except m (λ e, log_error (prefix +:+ exc_str e) ;; raise e).

Definition FileNotFoundError (msg : string) : Exception :=
  {| exc_type := "FileNotFoundError"; exc_str := msg |}.

End Ingest.

(** ** [src/document_processor/loader.py] *)

Module DocumentLoader.
Import PyStr Ingest.

Record t := {
  documents_dir : string
}.

(** The keys of [DocumentLoader.LOADERS], in the order of the dictionary;
    the loader class is the one the extension names. *)
Definition LOADERS : list string := [".pdf"; ".docx"; ".txt"; ".md"].

(** [DocumentLoader.get_supported_extensions] *)
Definition get_supported_extensions (self : t) : list string := LOADERS.

(** The loop [for doc in documents] of [load_document]. *)
Fixpoint stamp_source (file_path extension : string) (documents : list Document)
    : list Document :=
  match documents with
  | [] => []
  | doc :: rest =>
      {| page_content := page_content doc;
         metadata := <["file_type" := MStr extension]>
                       (<["source" := MStr file_path]> (metadata doc)) |}
      :: stamp_source file_path extension rest
  end.

Section WithExternals.
Context (paths : PathLib) (ext : Oracles).

(** [DocumentLoader.__init__] *)
Definition __init__ (documents_dir : string) : IO t :=
  call (Mkdir (path_str paths documents_dir))
       (λ h, ext_mkdir ext h (path_str paths documents_dir)) ;;
  mret {| documents_dir := documents_dir |}.

(** [DocumentLoader.load_document] *)
Definition load_document (self : t) (file_path : string) : IO (list Document) :=
  let extension := lower (path_suffix paths file_path) in
  let file_path := path_str paths file_path in
  found ← call (PathExists file_path) (λ h, ext_exists ext h file_path);
  if negb found then
    raise (FileNotFoundError ("File not found: " +:+ file_path))
  else if negb (bool_decide (extension ∈ LOADERS)) then
    raise (ValueError ("Unsupported file type: " +:+ extension))
  else
    logged ("Error loading document " +:+ file_path +:+ ": ") (
      documents ← call (LoaderLoad extension file_path)
                       (λ h, ext_load ext h extension file_path);
      let documents := stamp_source file_path extension documents in
      log_info ("Loaded " +:+ pretty (length documents) +:+ " documents from "
                +:+ file_path) ;;
      mret documents).

(** The inner loop of [load_directory]: a file that fails to load is
    logged and skipped. *)
Fixpoint load_files (self : t) (files : list string)
    (all_documents : list Document) : IO (list Document) :=
  match files with
  | [] => mret all_documents
  | file_path :: rest =>
      all_documents ←
        try_except
          (documents ← load_document self file_path;
           mret (all_documents ++ documents)%list)
          (λ e, log_error ("Failed to load " +:+ file_path +:+ ": " +:+ exc_str e) ;;
                mret all_documents);
      load_files self rest all_documents
  end.

(** The outer loop of [load_directory], over the extensions. *)
Fixpoint load_extensions (self : t) (directory : string)
    (extensions : list string) (all_documents : list Document)
    : IO (list Document) :=
  match extensions with
  | [] => mret all_documents
  | extension :: rest =>
      files ← call (Glob directory ("**/*" +:+ extension))
                   (λ h, ext_glob ext h directory ("**/*" +:+ extension));
      all_documents ← load_files self files all_documents;
      load_extensions self directory rest all_documents
  end.

(** [DocumentLoader.load_directory] *)
Definition load_directory (self : t) (directory : option string)
    : IO (list Document) :=
  let directory :=
    match directory with
    | None => path_str paths (documents_dir self)
    | Some directory => path_str paths directory
    end in
  found ← call (PathExists directory) (λ h, ext_exists ext h directory);
  if negb found then
    raise (FileNotFoundError ("Directory not found: " +:+ directory))
  else
    all_documents ← load_extensions self directory LOADERS [];
    log_info ("Loaded total of " +:+ pretty (length all_documents)
              +:+ " documents from " +:+ directory) ;;
    mret all_documents.

End WithExternals.
End DocumentLoader.

(** ** [src/document_processor/chunker.py] *)

Module DocumentChunker.
Import PyStr Ingest.

Record t := {
  chunk_size : Z;
  chunk_overlap : Z
}.

(** The loop [for i, chunk in enumerate(chunks)] of [chunk_documents],
    from index [i]. *)
Fixpoint stamp_chunks (i : nat) (chunks : list Document) : list Document :=
  match chunks with
  | [] => []
  | chunk :: rest =>
      {| page_content := page_content chunk;
         metadata :=
           <["chunk_size" := MInt (Z.of_nat (len (page_content chunk)))]>
             (<["chunk_id" := MInt (Z.of_nat i)]> (metadata chunk)) |}
      :: stamp_chunks (S i) rest
  end.

(** The loop of [chunk_text], from index [i]; [metadata.copy() if metadata
    else {}] is the caller's dictionary, or the empty one. *)
Fixpoint text_documents (i : nat) (metadata : option (gmap string MetaVal))
    (chunks : list string) : list Document :=
  match chunks with
  | [] => []
  | chunk :: rest =>
      let doc_metadata := default ∅ metadata in
      {| page_content := chunk;
         metadata :=
           <["chunk_size" := MInt (Z.of_nat (len chunk))]>
             (<["chunk_id" := MInt (Z.of_nat i)]> doc_metadata) |}
      :: text_documents (S i) metadata rest
  end.

Section WithExternals.
Context (settings : IngestSettings) (ext : Oracles).

(** [DocumentChunker.__init__] *)
Definition __init__ (chunk_size chunk_overlap : option Z) : IO t :=
  let chunk_size := PyNum.or_int chunk_size (CHUNK_SIZE settings) in
  let chunk_overlap := PyNum.or_int chunk_overlap (CHUNK_OVERLAP settings) in
  call (SplitterInit chunk_size chunk_overlap)
       (λ h, ext_splitter_init ext h chunk_size chunk_overlap) ;;
  log_info ("Initialized DocumentChunker with chunk_size=" +:+ pretty chunk_size
            +:+ ", " +:+ "chunk_overlap=" +:+ pretty chunk_overlap) ;;
  mret {| chunk_size := chunk_size; chunk_overlap := chunk_overlap |}.

(** [DocumentChunker.chunk_documents] *)
Definition chunk_documents (self : t) (documents : list Document)
    : IO (list Document) :=
  logged "Error chunking documents: " (
    chunks ← call (SplitDocuments (chunk_size self) (chunk_overlap self) documents)
                  (λ h, ext_split_documents ext h (chunk_size self)
                          (chunk_overlap self) documents);
    let chunks := stamp_chunks 0 chunks in
    log_info ("Split " +:+ pretty (length documents) +:+ " documents into "
              +:+ pretty (length chunks) +:+ " chunks") ;;
    mret chunks).

(** [DocumentChunker.chunk_text] *)
Definition chunk_text (self : t) (text : string)
    (metadata : option (gmap string MetaVal)) : IO (list Document) :=
  logged "Error chunking text: " (
    chunks ← call (SplitText (chunk_size self) (chunk_overlap self) text)
                  (λ h, ext_split_text ext h (chunk_size self)
                          (chunk_overlap self) text);
    let documents := text_documents 0 metadata chunks in
    log_info ("Split text into " +:+ pretty (length documents) +:+ " chunks") ;;
    mret documents).

End WithExternals.
End DocumentChunker.

(** ** Writing to the store: the [add_documents] methods *)

Module Writes.
Import PyStr Ingest.
Section WithExternals.
Context (ext : Oracles).

(** [ChromaVectorStore.add_documents] *)
Definition ChromaVectorStore_add_documents (self : ChromaVectorStore.t)
    (documents : list Document) : IO (list string) :=
  logged "Error adding documents to Chroma: " (
    ids ← call (AddDocuments (ChromaVectorStore.vectorstore self) documents)
               (λ h, ext_add_documents ext h
                       (ChromaVectorStore.vectorstore self) documents);
    call (Persist (ChromaVectorStore.vectorstore self))
         (λ h, ext_persist ext h (ChromaVectorStore.vectorstore self)) ;;
    log_info ("Added " +:+ pretty (length documents) +:+ " documents to Chroma") ;;
    mret ids).

(** [PineconeVectorStore.add_documents] *)
Definition PineconeVectorStore_add_documents (self : PineconeVectorStore.t)
    (documents : list Document) : IO (list string) :=
  logged "Error adding documents to Pinecone: " (
    ids ← call (AddDocuments (PineconeVectorStore.vectorstore self) documents)
               (λ h, ext_add_documents ext h
                       (PineconeVectorStore.vectorstore self) documents);
    log_info ("Added " +:+ pretty (length documents) +:+ " documents to Pinecone") ;;
    mret ids).

(** [RAGChain.add_documents]: the method of the store the chain holds. *)
Definition RAGChain_add_documents (self : RAGChain.t)
    (documents : list Document) : IO (list string) :=
  logged "Error adding documents: " (
    ids ← match RAGChain.vector_store self with
          | Pinecone store => PineconeVectorStore_add_documents store documents
          | Chroma store => ChromaVectorStore_add_documents store documents
          end;
    log_info ("Added " +:+ pretty (length documents)
              +:+ " documents to vector store") ;;
    mret ids).

End WithExternals.
End Writes.

(** ** The endpoint [POST /ingest] of [api/main.py] *)

Module IngestApi.
Import PyStr Ingest.

Record IngestResponse := {
  message : string;
  documents_processed : nat;
  chunks_created : nat
}.

Section WithExternals.
Context (settings : IngestSettings) (paths : PathLib) (ext : Oracles).

(** The [try] block of [ingest_documents]. *)
Definition ingest_body (rag_chain : RAGChain.t) : IO IngestResponse :=
  document_loader ← DocumentLoader.__init__ paths ext (DOCUMENTS_DIR settings);
  document_chunker ← DocumentChunker.__init__ settings ext None None;
  documents ← DocumentLoader.load_directory paths ext document_loader None;
  match documents with
  | [] =>
      mret {| message := "No documents found in documents directory";
              documents_processed := 0;
              chunks_created := 0 |}
  | _ :: _ =>
      chunks ← DocumentChunker.chunk_documents ext document_chunker documents;
      Writes.RAGChain_add_documents ext rag_chain chunks ;;
      log_info ("Successfully ingested " +:+ pretty (length documents)
                +:+ " documents " +:+ "into " +:+ pretty (length chunks)
                +:+ " chunks") ;;
      mret {| message := "Documents ingested successfully";
              documents_processed := length documents;
              chunks_created := length chunks |}
  end.

(** [ingest_documents]: every exception becomes an HTTP 500. *)
Definition ingest_documents (rag_chain : RAGChain.t) (tr : list IEvent)
    : (HTTPException + IngestResponse) * list IEvent :=
  match ingest_body rag_chain tr with
  | (inr response, tr') => (inr response, tr')
  | (inl e, tr') =>
      (inl {| status_code := 500;
              detail := "Error ingesting documents: " +:+ exc_str e |},
       (tr' ++ [ILog ERROR ("Error ingesting documents: " +:+ exc_str e)])%list)
  end.

End WithExternals.
End IngestApi.

(** ** Concrete inputs for ingestion *)

Module IngestExamples.
Import PyStr Ingest.

(** The last position of a dot in a name, counted from [i]. *)
Fixpoint rfind_dot (i : nat) (name : string) : option nat :=
  match name with
  | EmptyString => None
  | String c rest =>
      match rfind_dot (S i) rest with
      | Some j => Some j
      | None => if Ascii.eqb c "." then Some i else None
      end
  end.

Fixpoint has_slash (path : string) : bool :=
  match path with
  | EmptyString => false
  | String c rest => Ascii.eqb c "/" || has_slash rest
  end.

(** The part of a path after its last slash. *)
Fixpoint basename (path : string) : string :=
  match path with
  | EmptyString => EmptyString
  | String c rest =>
      if Ascii.eqb c "/" || has_slash rest then basename rest else path
  end.

(** [Path(s).suffix] for a path already in the form that [str(Path(s))]
    gives: the name from its last dot on, unless the dot is first or last. *)
Definition simple_suffix (path : string) : string :=
  let name := basename path in
  match rfind_dot 0 name with
  | Some i =>
      if Nat.ltb 0 i && Nat.ltb i (len name - 1) then drop i name else ""
  | None => ""
  end.

Definition simple_paths : PathLib :=
  {| path_str := λ s, s; path_suffix := simple_suffix |}.

Definition page (text : string) (n : Z) : Document :=
  {| page_content := text; metadata := {[ "page" := MInt n ]} |}.

(** A directory with two PDF files, one of them corrupt, and a text file;
    the splitter cuts every document into single characters. *)
Definition ext_dir : Oracles :=
  {| ext_mkdir := λ _ _, inr tt;
     ext_exists := λ _ path, inr (negb (String.eqb path "missing.pdf"));
     ext_glob := λ _ _ pattern,
       if String.eqb pattern "**/*.pdf" then inr ["docs/a.pdf"; "docs/bad.pdf"]
       else if String.eqb pattern "**/*.txt" then inr ["docs/notes.txt"]
       else inr [];
     ext_load := λ _ _ path,
       if String.eqb path "docs/bad.pdf"
       then inl {| exc_type := "PdfReadError"; exc_str := "EOF marker not found" |}
       else if String.eqb path "docs/a.pdf"
       then inr [page "first" 0; page "second" 1]
       else inr [{| page_content := "notes"; metadata := ∅ |}];
     ext_splitter_init := λ _ _ _, inr tt;
     ext_split_documents := λ _ _ _ documents, inr documents;
     ext_split_text := λ _ _ _ text, inr [take 3 text; drop 3 text];
     ext_add_documents := λ _ _ documents,
       inr (imap (λ i _, "id-" +:+ pretty i) documents);
     ext_persist := λ _ _, inr tt |}.

(** An empty documents directory. *)
Definition ext_nothing : Oracles :=
  {| ext_mkdir := λ _ _, inr tt;
     ext_exists := λ _ _, inr true;
     ext_glob := λ _ _ _, inr [];
     ext_load := λ _ _ _, inr [];
     ext_splitter_init := λ _ _ _, inr tt;
     ext_split_documents := λ _ _ _ documents, inr documents;
     ext_split_text := λ _ _ _ text, inr [text];
     ext_add_documents := λ _ _ _, inr [];
     ext_persist := λ _ _, inr tt |}.

(** A store that accepts documents but cannot be persisted. *)
Definition ext_no_persist : Oracles :=
  {| ext_mkdir := λ _ _, inr tt;
     ext_exists := λ _ _, inr true;
     ext_glob := λ _ _ _, inr [];
     ext_load := λ _ _ _, inr [];
     ext_splitter_init := λ _ _ _, inr tt;
     ext_split_documents := λ _ _ _ documents, inr documents;
     ext_split_text := λ _ _ _ text, inr [text];
     ext_add_documents := λ _ _ documents,
       inr (imap (λ i _, "id-" +:+ pretty i) documents);
     ext_persist := λ _ _,
       inl {| exc_type := "OSError"; exc_str := "disk full" |} |}.

Definition loader : DocumentLoader.t :=
  {| DocumentLoader.documents_dir := "docs" |}.

Definition ingest_settings : IngestSettings :=
  {| DOCUMENTS_DIR := "docs"; CHUNK_SIZE := 1000; CHUNK_OVERLAP := 200 |}.

(** The chunks a splitter may give back for a two-page file. *)
Definition raw_chunks : list Document :=
  [ {| page_content := "Photosynthesis converts light";
       metadata := {[ "source" := MStr "docs/bio101.txt";
                      "file_type" := MStr ".txt";
                      "chunk_id" := MInt 7 ]} |};
    {| page_content := "into chemical energy.";
       metadata := {[ "source" := MStr "docs/bio101.txt";
                      "file_type" := MStr ".txt" ]} |} ].

(** A splitter that answers [raw_chunks] whatever it is given. *)
Definition ext_split : Oracles :=
  {| ext_mkdir := λ _ _, inr tt;
     ext_exists := λ _ _, inr true;
     ext_glob := λ _ _ _, inr [];
     ext_load := λ _ _ _, inr [];
     ext_splitter_init := λ _ _ _, inr tt;
     ext_split_documents := λ _ _ _ _, inr raw_chunks;
     ext_split_text := λ _ _ _ text, inr [take 3 text; drop 3 text];
     ext_add_documents := λ _ _ _, inr [];
     ext_persist := λ _ _, inr tt |}.

Definition chunker : DocumentChunker.t :=
  {| DocumentChunker.chunk_size := 1000; DocumentChunker.chunk_overlap := 200 |}.

End IngestExamples.

(** ** Reading an ingestion trace *)

Module IngestSpec.
Import Ingest.

(** A document as [load_document] leaves it: with a [source] and with a
    [file_type] that is one of the supported extensions. *)
Definition loaded_by_loader (doc : Document) : Prop :=
  ∃ path extension,
    metadata doc !! "source" = Some (MStr path)
    ∧ metadata doc !! "file_type" = Some (MStr extension)
    ∧ extension ∈ DocumentLoader.LOADERS.

(** The document lists handed to a store, oldest first. *)
Definition writes (tr : list IEvent) : list (LangchainStore * list Document) :=
  omap (λ ev, match ev with
              | AddDocuments vs documents => Some (vs, documents)
              | _ => None
              end) tr.

(** The stores asked to persist. *)
Definition persists (tr : list IEvent) : list LangchainStore :=
  omap (λ ev, match ev with
              | Persist vs => Some vs
              | _ => None
              end) tr.

(** A computation that hands nothing to a store. *)
Definition quiet {A : Type} (m : IO A) : Prop :=
  ∀ tr, writes (m tr).2 = writes tr.

End IngestSpec.

(** ** The endpoint [POST /upload] of [api/main.py] *)

(** The fields of [Settings] that the upload reads. *)
Record UploadSettings := {
  UPLOADS_DIR : string;
  MAX_UPLOAD_SIZE : Z;
  ALLOWED_EXTENSIONS : list string
}.

Definition default_upload_settings : UploadSettings := {|
  UPLOADS_DIR := "./data/uploads";
  MAX_UPLOAD_SIZE := 10485760;
  ALLOWED_EXTENSIONS := [".pdf"; ".docx"; ".txt"; ".md"]
|}.

(** [fastapi.UploadFile]: the name the client gave; the bytes are read from
    the outside world. *)
Record UploadFile := {
  filename : string
}.

(** What the upload needs beside the oracles of ingestion: the file
    operations, [str(Path(a) / b)], and the text that an f-string gives for
    a list of strings. *)
Record UploadOracles := {
  ext_open : list Ingest.IEvent → string → Exception + unit;
  ext_read : list Ingest.IEvent → string → Exception + list Byte.byte;
  ext_write : list Ingest.IEvent → string → list Byte.byte → Exception + unit;
  ext_close : list Ingest.IEvent → string → Exception + unit;
  path_join : string → string → string;
  list_str : list string → string
}.

Module Upload.
Import PyStr Ingest.

(** Computations of the [try] block: they end with a value, with an
    [HTTPException] of the endpoint's own, or with another exception. *)
Definition UIO (A : Type) : Type := list IEvent → (Raised + A) * list IEvent.

#[global] Instance UIO_ret : MRet UIO := λ A a tr, (inr a, tr).

#[global] Instance UIO_bind : MBind UIO := λ A B f m tr,
  match m tr with
  | (inr a, tr') => f a tr'
  | (inl r, tr') => (inl r, tr')
  end.

Definition raise_http {A} (err : HTTPException) : UIO A := λ tr, (inl (Http err), tr).

Definition lift {A} (m : IO A) : UIO A := λ tr,
  match m tr with
  | (inr a, tr') => (inr a, tr')
  | (inl e, tr') => (inl (Other e), tr')
  end.

Record UploadResponse := {
  message : string;
  files_processed : nat;
  chunks_created : nat
}.

Section WithExternals.
Context (settings : IngestSettings) (upload_settings : UploadSettings)
  (paths : PathLib) (ext : Oracles) (up : UploadOracles).

(** [with open(file_path, "wb") as buffer: body]: the file is closed
    however the body ends, and an exception of the closing replaces the
    body's. *)
Definition with_open {A} (file_path : string) (body : UIO A) : UIO A := λ tr,
  match ext_open up tr file_path with
  | inl e => (inl (Other e), (tr ++ [OpenWrite file_path])%list)
  | inr _ =>
      let '(r, tr') := body (tr ++ [OpenWrite file_path])%list in
      match ext_close up tr' file_path with
      | inl e => (inl (Other e), (tr' ++ [CloseFile file_path])%list)
      | inr _ => (r, (tr' ++ [CloseFile file_path])%list)
      end
  end.

(** Where the upload [file] is written. *)
Definition target (file : UploadFile) : string :=
  path_join up (UPLOADS_DIR upload_settings) (filename file).

(** The body of the loop [for file in files]; it returns
    [str(file_path)]. *)
Definition save_file (file : UploadFile) : UIO string :=
  let file_extension := lower (path_suffix paths (filename file)) in
  if negb (bool_decide (file_extension ∈ ALLOWED_EXTENSIONS upload_settings)) then
    raise_http {| status_code := 400;
                  detail := "File type " +:+ file_extension +:+ " not supported. "
                            +:+ "Allowed: "
                            +:+ list_str up (ALLOWED_EXTENSIONS upload_settings) |}
  else
    let file_path := target file in
    file_size ← with_open file_path (
      content ← lift (call (ReadUpload (filename file))
                           (λ h, ext_read up h (filename file)));
      let file_size := length content in
      if Z.ltb (MAX_UPLOAD_SIZE upload_settings) (Z.of_nat file_size) then
        raise_http {| status_code := 400;
                      detail := "File " +:+ filename file +:+ " exceeds maximum size "
                                +:+ "of " +:+ pretty (MAX_UPLOAD_SIZE upload_settings)
                                +:+ " bytes" |}
      else
        lift (call (WriteFile file_path content)
                   (λ h, ext_write up h file_path content)) ;;
        mret file_size);
    lift (log_info ("Uploaded file: " +:+ filename file +:+ " ("
                    +:+ pretty file_size +:+ " bytes)")) ;;
    mret file_path.

(** The loop [for file in files]. *)
Fixpoint save_files (files : list UploadFile) (uploaded_files : list string)
    : UIO (list string) :=
  match files with
  | [] => mret uploaded_files
  | file :: rest =>
      file_path ← save_file file;
      save_files rest (uploaded_files ++ [file_path])%list
  end.

(** The loop [for file_path in uploaded_files]: here a file that cannot be
    loaded ends the request. *)
Fixpoint load_uploaded (document_loader : DocumentLoader.t)
    (uploaded_files : list string) (all_documents : list Document)
    : IO (list Document) :=
  match uploaded_files with
  | [] => mret all_documents
  | file_path :: rest =>
      documents ← DocumentLoader.load_document paths ext document_loader file_path;
      load_uploaded document_loader rest (all_documents ++ documents)%list
  end.

(** The [try] block of [upload_documents]. *)
Definition upload_body (files : list UploadFile) (rag_chain : RAGChain.t)
    : UIO UploadResponse :=
  document_loader ← lift (DocumentLoader.__init__ paths ext
                            (UPLOADS_DIR upload_settings));
  document_chunker ← lift (DocumentChunker.__init__ settings ext None None);
  uploaded_files ← save_files files [];
  all_documents ← lift (load_uploaded document_loader uploaded_files []);
  chunks ← lift (DocumentChunker.chunk_documents ext document_chunker
                   all_documents);
  lift (Writes.RAGChain_add_documents ext rag_chain chunks) ;;
  lift (log_info ("Successfully processed " +:+ pretty (length uploaded_files)
                  +:+ " files " +:+ "into " +:+ pretty (length chunks)
                  +:+ " chunks")) ;;
  mret {| message := "Documents uploaded and processed successfully";
          files_processed := length uploaded_files;
          chunks_created := length chunks |}.

(** [upload_documents]: an [HTTPException] passes, every other exception
    becomes an HTTP 500. *)
Definition upload_documents (files : list UploadFile) (rag_chain : RAGChain.t)
    (tr : list IEvent) : (HTTPException + UploadResponse) * list IEvent :=
  match upload_body files rag_chain tr with
  | (inr response, tr') => (inr response, tr')
  | (inl (Http err), tr') => (inl err, tr')
  | (inl (Other e), tr') =>
      (inl {| status_code := 500;
              detail := "Error uploading documents: " +:+ exc_str e |},
       (tr' ++ [ILog ERROR ("Error uploading documents: " +:+ exc_str e)])%list)
  end.

End WithExternals.
End Upload.

(** ** Concrete inputs for the upload *)

Module UploadExamples.
Import PyStr Ingest.

Definition small_limit : UploadSettings :=
  {| UPLOADS_DIR := "up"; MAX_UPLOAD_SIZE := 4;
     ALLOWED_EXTENSIONS := [".pdf"; ".docx"; ".txt"; ".md"] |}.

Definition bytes_of (n : nat) : list Byte.byte := replicate n Byte.x61.

(** A file system that works; the file [big.txt] has five bytes, every
    other file three. *)
Definition up_ok : UploadOracles :=
  {| ext_open := λ _ _, inr tt;
     ext_read := λ _ name,
       inr (bytes_of (if String.eqb name "big.txt" then 5 else 3));
     ext_write := λ _ _ _, inr tt;
     ext_close := λ _ _, inr tt;
     path_join := λ a b, a +:+ "/" +:+ b;
     list_str := λ l, "[" +:+ join ", " ((λ s, "'" +:+ s +:+ "'") <$> l) +:+ "]" |}.

(** Loaders that cannot read [up/bad.pdf]. *)
Definition ext_bad_pdf : Oracles :=
  {| ext_mkdir := λ _ _, inr tt;
     ext_exists := λ _ _, inr true;
     ext_glob := λ _ _ _, inr [];
     ext_load := λ _ _ path,
       if String.eqb path "up/bad.pdf"
       then inl {| exc_type := "PdfReadError"; exc_str := "EOF marker not found" |}
       else inr [{| page_content := "notes"; metadata := ∅ |}];
     ext_splitter_init := λ _ _ _, inr tt;
     ext_split_documents := λ _ _ _ documents, inr documents;
     ext_split_text := λ _ _ _ text, inr [text];
     ext_add_documents := λ _ _ documents,
       inr (imap (λ i _, "id-" +:+ pretty i) documents);
     ext_persist := λ _ _, inr tt |}.

Definition notes : UploadFile := {| filename := "notes.txt" |}.
Definition bad : UploadFile := {| filename := "bad.pdf" |}.
Definition big : UploadFile := {| filename := "big.txt" |}.
Definition program : UploadFile := {| filename := "run.EXE" |}.
Definition paper : UploadFile := {| filename := "Exam.PDF" |}.

End UploadExamples.

(** ** What an upload leaves behind *)

Module UploadSpec.
Import Ingest.

(** The files written, oldest first. *)
Definition stored (tr : list IEvent) : list string :=
  omap (λ ev, match ev with
              | WriteFile path _ => Some path
              | _ => None
              end) tr.

(** The files opened for writing (and so created or emptied). *)
Definition opened (tr : list IEvent) : list string :=
  omap (λ ev, match ev with
              | OpenWrite path => Some path
              | _ => None
              end) tr.

(** The files given to a langchain loader. *)
Definition loads (tr : list IEvent) : list string :=
  omap (λ ev, match ev with
              | LoaderLoad _ path => Some path
              | _ => None
              end) tr.

(** The classes of events. *)
Definition setup_event (ev : IEvent) : bool :=
  match ev with ILog _ _ | Mkdir _ | SplitterInit _ _ => true | _ => false end.

Definition file_event (ev : IEvent) : bool :=
  match ev with
  | ILog _ _ | OpenWrite _ | ReadUpload _ | WriteFile _ _ | CloseFile _ => true
  | _ => false
  end.

Definition loader_event (ev : IEvent) : bool :=
  match ev with
  | ILog _ _ | PathExists _ | Glob _ _ | LoaderLoad _ _ => true
  | _ => false
  end.

Definition splitter_event (ev : IEvent) : bool :=
  match ev with
  | ILog _ _ | SplitDocuments _ _ _ | SplitText _ _ _ => true
  | _ => false
  end.

Definition store_event (ev : IEvent) : bool :=
  match ev with
  | ILog _ _ | AddDocuments _ _ | Persist _ => true
  | _ => false
  end.

(** A computation that only appends events, all of them of the class
    [P], however it ends. *)
Definition emits {E A : Type} (P : IEvent → bool)
    (m : list IEvent → (E + A) * list IEvent) : Prop :=
  ∀ tr, ∃ evs, (m tr).2 = (tr ++ evs)%list ∧ Forall (λ ev, P ev = true) evs.

(** In the run that left the events [tr], a call of [load_document] on
    the file returned: the call was made after the events [h] (it begins
    with the existence check of the file) and returned there. *)
Definition loaded_during (paths : PathLib) (ext : Oracles) (tr : list IEvent)
    (file_path : string) : Prop :=
  ∃ self h documents,
    (h ++ [PathExists (path_str paths file_path)])%list `prefix_of` tr
    ∧ (DocumentLoader.load_document paths ext self file_path h).1 = inr documents.

(** In that run, every call of [load_document] on the file raised. *)
Definition fails_during (paths : PathLib) (ext : Oracles) (tr : list IEvent)
    (file_path : string) : Prop :=
  ∀ self h,
    (h ++ [PathExists (path_str paths file_path)])%list `prefix_of` tr →
    ∃ e, (DocumentLoader.load_document paths ext self file_path h).1 = inl e.

(** An observation of single events that sees nothing in the class [P]. *)
Definition blind {X : Type} (obs : IEvent → option X) (P : IEvent → bool) : Prop :=
  ∀ ev, P ev = true → obs ev = None.

End UploadSpec.

(** ** Facts about the string and number operations *)

Section PyStrFacts.
Import PyStr.

Example strip_example :
  strip ("  a b " +:+ nl) = "a b"
  ∧ strip (String "160" "x") = "x"
  ∧ strip "   " = ""
  ∧ lstrip " a " = "a "
  ∧ rstrip " a " = " a".
Proof. repeat split; reflexivity. Qed.

Example lower_example :
  lower "PineCone" = "pinecone" ∧ lower "chroma-2" = "chroma-2".
Proof. split; reflexivity. Qed.

Example join_example :
  join ", " ["a"; "b"; "c"] = "a, b, c"
  ∧ join ", " ["a"] = "a"
  ∧ join ", " [] = "".
Proof. repeat split; reflexivity. Qed.

Example slice_example :
  take 3 "abcdef" = "abc" ∧ take 9 "abc" = "abc"
  ∧ drop 2 "abcdef" = "cdef" ∧ drop 9 "abc" = ""
  ∧ startswith "prompt and more" "prompt" = true
  ∧ startswith "pro" "prompt" = false.
Proof. repeat split; reflexivity. Qed.

Example or_example :
  PyNum.or_int None 5 = 5 ∧ PyNum.or_int (Some 0) 5 = 5
  ∧ PyNum.or_int (Some (-3)) 5 = -3
  ∧ PyNum.or_float (Some 0%float) 0.5%float = 0.5%float
  ∧ PyNum.or_float (Some (-0)%float) 0.5%float = 0.5%float
  ∧ PyNum.or_float (Some 0.25%float) 0.5%float = 0.25%float
  ∧ PyNum.float_ge 0.5%float PrimFloat.nan = false
  ∧ PyNum.float_ge 0.5%float 0.5%float = true.
Proof. repeat split; reflexivity. Qed.

Lemma string_app_cons (c : ascii) (s1 s2 : string) :
  String c s1 +:+ s2 = String c (s1 +:+ s2).
Proof. reflexivity. Qed.

Lemma string_length_app (s1 s2 : string) :
  String.length (s1 +:+ s2) = (String.length s1 + String.length s2)%nat.
Proof.
  induction s1 as [|c s1 IH]; [done |].
  rewrite string_app_cons. simpl. by rewrite IH.
Qed.

Lemma string_app_assoc (s1 s2 s3 : string) :
  (s1 +:+ s2) +:+ s3 = s1 +:+ s2 +:+ s3.
Proof.
  induction s1 as [|c s1 IH]; [done |].
  rewrite !string_app_cons. by rewrite IH.
Qed.

Lemma take_length (n : nat) (s : string) :
  String.length (take n s) = Nat.min n (String.length s).
Proof.
  revert s; induction n as [|n IH]; intros [|c s]; simpl; try done.
  by rewrite IH.
Qed.

Lemma take_drop (n : nat) (s : string) : take n s +:+ drop n s = s.
Proof.
  revert s; induction n as [|n IH]; intros [|c s]; try done.
  change (String c (take n s +:+ drop n s) = String c s). by rewrite IH.
Qed.

Lemma lstrip_length_le (s : string) :
  (String.length (lstrip s) ≤ String.length s)%nat.
Proof.
  induction s as [|c s IH]; simpl; [done |].
  destruct (isspace c); simpl; lia.
Qed.

Lemma rstrip_length_le (s : string) :
  (String.length (rstrip s) ≤ String.length s)%nat.
Proof.
  induction s as [|c s IH]; simpl; [done |].
  destruct (rstrip s); [destruct (isspace c) |]; simpl in *; lia.
Qed.

Lemma lstrip_leading_space (s : string) (c : ascii) :
  first_char s = Some c → isspace c = true →
  (String.length (lstrip s) < String.length s)%nat.
Proof.
  destruct s as [|c' s]; simpl; [done |].
  intros [= ->] ->. pose proof (lstrip_length_le s). lia.
Qed.

Lemma lstrip_no_leading_space (s : string) :
  from_option isspace false (first_char s) = false → lstrip s = s.
Proof. destruct s as [|c s]; simpl; [done |]. by intros ->. Qed.

Lemma rstrip_trailing_space (s : string) (c : ascii) :
  last_char s = Some c → isspace c = true →
  (String.length (rstrip s) < String.length s)%nat.
Proof.
  induction s as [|c' s IH]; [done |].
  intros Hlast Hc. simpl in Hlast. destruct s as [|c'' s].
  - injection Hlast as ->. simpl. rewrite Hc. simpl. lia.
  - specialize (IH Hlast Hc).
    change (rstrip (String c' (String c'' s)))
      with (match rstrip (String c'' s) with
            | EmptyString => if isspace c' then EmptyString else String c' EmptyString
            | r => String c' r
            end).
    destruct (rstrip (String c'' s)); [destruct (isspace c') |];
      simpl in *; lia.
Qed.

(** Stripping changes every string that starts or ends with whitespace. *)
Lemma strip_changes (s : string) :
  Spec.surrounding_whitespace s = true → strip s ≠ s.
Proof.
  unfold Spec.surrounding_whitespace, strip. intros Hws Heq.
  apply (f_equal String.length) in Heq.
  destruct (from_option isspace false (first_char s)) eqn:Hfirst.
  - destruct (first_char s) as [c|] eqn:Hc; [|done]. simpl in Hfirst.
    pose proof (lstrip_leading_space s c Hc Hfirst).
    pose proof (rstrip_length_le (lstrip s)). lia.
  - simpl in Hws. rewrite (lstrip_no_leading_space s Hfirst) in Heq.
    destruct (last_char s) as [c|] eqn:Hc; [|done]. simpl in Hws.
    pose proof (rstrip_trailing_space s c Hc Hws). lia.
Qed.

Lemma join_cons_first (sep x : string) (rest : list string) (c : ascii) (x' : string) :
  x = String c x' → ∃ tail, join sep (x :: rest) = String c tail.
Proof.
  intros ->. destruct rest as [|y rest]; simpl; [eauto |].
  rewrite string_app_cons. eauto.
Qed.

Lemma or_int_idem (k : option Z) (d : Z) :
  PyNum.or_int (Some (PyNum.or_int k d)) d = PyNum.or_int k d.
Proof.
  unfold PyNum.or_int. destruct k as [n|].
  - destruct (Z.eqb_spec n 0) as [->|Hn].
    + by destruct (Z.eqb d 0).
    + by destruct (Z.eqb_spec n 0).
  - by destruct (Z.eqb d 0).
Qed.

End PyStrFacts.

(** ** Context formatting *)

Section FormatContext.
Import PyStr.

(** The loop of [format_context] numbers the blocks from its start index
    and strips each content. *)
Lemma context_parts_imap (i : nat) (documents : list Document) :
  RAGChain.context_parts i documents =
  imap (λ j doc, Spec.block_label (i + j) doc +:+ nl +:+ strip (page_content doc))
       documents.
Proof.
  revert i; induction documents as [|doc rest IH]; intros i; [done |].
  rewrite imap_cons. simpl. f_equal.
  - unfold Spec.block_label. rewrite Nat.add_0_r.
    by rewrite !string_app_assoc.
  - rewrite IH. apply imap_ext. intros j d _. simpl.
    by rewrite Nat.add_succ_r.
Qed.

Lemma context_parts_length (i : nat) (documents : list Document) :
  length (RAGChain.context_parts i documents) = length documents.
Proof. by rewrite context_parts_imap, length_imap. Qed.

(** A context built from at least one document starts with a bracket. *)
Lemma format_context_cons_first (doc : Document) (rest : list Document) :
  ∃ tail, RAGChain.format_context (doc :: rest) = String "[" tail.
Proof.
  unfold RAGChain.format_context.
  change (RAGChain.context_parts 1 (doc :: rest))
    with (("[Source " +:+ pretty 1%nat +:+ ": "
           +:+ py_str (default (MStr "Unknown") (metadata doc !! "source"))
           +:+ "]" +:+ nl +:+ strip (page_content doc))
          :: RAGChain.context_parts 2 rest).
  eapply join_cons_first. reflexivity.
Qed.

Lemma format_context_no_information (documents : list Document) :
  RAGChain.format_context documents
    = "No relevant information found in the course materials."
  ↔ documents = [].
Proof.
  split; [| by intros ->].
  destruct documents as [|doc rest]; [done |].
  destruct (format_context_cons_first doc rest) as [tail ->]. discriminate.
Qed.

(** C2: for the empty list of documents [format_context] returns the
    no-information sentence, which is not the empty string. *)
Theorem format_context_empty :
  RAGChain.format_context []
    = "No relevant information found in the course materials."
  ∧ RAGChain.format_context [] ≠ "".
Proof. split; [reflexivity | discriminate]. Qed.

(** C3, as the specification words it, fails: the block of a document whose
    content has surrounding whitespace does not hold the content as stored. *)
Lemma format_context_verbatim_counterexample :
  RAGChain.format_context [Examples.doc_alpha]
    = "[Source 1: a.txt]" +:+ nl +:+ "alpha"
  ∧ Spec.format_context_spec [Examples.doc_alpha]
    = "[Source 1: a.txt]" +:+ nl +:+ "  alpha " +:+ nl
  ∧ RAGChain.format_context [Examples.doc_alpha]
    ≠ Spec.format_context_spec [Examples.doc_alpha].
Proof. by vm_compute. Qed.

(** C3, amended: for a non-empty list, [format_context] joins, with a blank
    line between them and in list order, one block per document, made of
    the label [[Source i: source]] with the 1-based index, a newline and the
    content with surrounding whitespace stripped; the result depends on the
    list alone. *)
Theorem format_context_blocks (doc : Document) (rest : list Document) :
  let documents := doc :: rest in
  RAGChain.format_context documents
    = join (nl +:+ nl)
        (imap (λ i d, Spec.block_label (S i) d +:+ nl +:+ strip (page_content d))
              documents)
  ∧ ∀ documents', documents' = documents →
      RAGChain.format_context documents' = RAGChain.format_context documents.
Proof.
  split; [| by intros ? ->].
  unfold RAGChain.format_context. by rewrite context_parts_imap.
Qed.

Lemma format_context_blocks_witness :
  RAGChain.format_context [Examples.doc_alpha; Examples.doc_beta]
    = join (nl +:+ nl)
        (imap (λ i d, Spec.block_label (S i) d +:+ nl +:+ strip (page_content d))
              [Examples.doc_alpha; Examples.doc_beta])
  ∧ RAGChain.format_context [Examples.doc_alpha; Examples.doc_beta]
    = "[Source 1: a.txt]" +:+ nl +:+ "alpha" +:+ nl +:+ nl
      +:+ "[Source 2: Unknown]" +:+ nl +:+ "beta".
Proof.
  split; [| reflexivity].
  exact (proj1 (format_context_blocks Examples.doc_alpha [Examples.doc_beta])).
Defined.

(** C10: in the context of a non-empty list, the block of the document at
    position [i] holds the stripped content; when the stored content starts
    or ends with whitespace, the stripped content differs from it and so the
    block is not the one that would hold the content as stored. *)
Theorem format_context_strips_content (documents : list Document) :
  documents ≠ [] →
  ∃ blocks,
    RAGChain.format_context documents = join (nl +:+ nl) blocks
    ∧ length blocks = length documents
    ∧ ∀ i doc, documents !! i = Some doc →
        blocks !! i
          = Some (Spec.block_label (S i) doc +:+ nl +:+ strip (page_content doc))
        ∧ (Spec.surrounding_whitespace (page_content doc) = true →
             strip (page_content doc) ≠ page_content doc
             ∧ blocks !! i
               ≠ Some (Spec.block_label (S i) doc +:+ nl +:+ page_content doc)).
Proof.
  intros Hne. exists (RAGChain.context_parts 1 documents).
  split; [by destruct documents |].
  split; [apply context_parts_length |].
  intros i doc Hdoc.
  assert (RAGChain.context_parts 1 documents !! i
          = Some (Spec.block_label (S i) doc +:+ nl +:+ strip (page_content doc)))
    as Hblock.
  { rewrite context_parts_imap, list_lookup_imap, Hdoc. done. }
  split; [done |].
  intros Hws. pose proof (strip_changes _ Hws) as Hstrip.
  split; [done |].
  rewrite Hblock. intros [= Heq].
  apply (inj (String.app _)) in Heq.
  apply (inj (String.app _)) in Heq. done.
Qed.

Lemma format_context_strips_content_witness :
  [Examples.doc_alpha; Examples.doc_beta] ≠ []
  ∧ ∃ blocks,
      RAGChain.format_context [Examples.doc_alpha; Examples.doc_beta]
        = join (nl +:+ nl) blocks
      ∧ length blocks = 2%nat
      ∧ ∀ i doc, [Examples.doc_alpha; Examples.doc_beta] !! i = Some doc →
          blocks !! i
            = Some (Spec.block_label (S i) doc +:+ nl +:+ strip (page_content doc))
          ∧ (Spec.surrounding_whitespace (page_content doc) = true →
               strip (page_content doc) ≠ page_content doc
               ∧ blocks !! i
                 ≠ Some (Spec.block_label (S i) doc +:+ nl +:+ page_content doc)).
Proof.
  split; [discriminate |].
  apply (format_context_strips_content [Examples.doc_alpha; Examples.doc_beta]).
  discriminate.
Defined.

End FormatContext.

(** ** Prompt formatting *)

Section FormatPrompt.
Import PyStr Spec.

(** C7: with an empty context the prompt is the system part, the user part
    and the assistant header, with nothing in between (it is not the prompt
    that holds an empty context section); with a non-empty context the
    prompt holds, after the system prompt, the context section with the
    context as given. *)
Theorem format_prompt_context_section (system_prompt user_message context : string) :
  LLMHandler.format_prompt system_prompt user_message ""
    = system_header +:+ system_prompt
      +:+ user_header +:+ user_message +:+ assistant_header
  ∧ LLMHandler.format_prompt system_prompt user_message ""
    ≠ system_header +:+ system_prompt +:+ context_section ""
      +:+ user_header +:+ user_message +:+ assistant_header
  ∧ (context ≠ "" →
     LLMHandler.format_prompt system_prompt user_message context
       = system_header +:+ system_prompt +:+ context_section context
         +:+ user_header +:+ user_message +:+ assistant_header).
Proof.
  unfold system_header, user_header, assistant_header, context_section.
  split; [| split].
  - unfold LLMHandler.format_prompt, truthy.
    by rewrite !string_app_assoc.
  - unfold LLMHandler.format_prompt, truthy.
    rewrite !string_app_assoc. intros Heq.
    do 3 apply (inj (String.app _)) in Heq.
    apply (inj (String.app system_prompt)) in Heq. discriminate.
  - intros Hctx. unfold LLMHandler.format_prompt.
    destruct context as [|c context]; [done |]. unfold truthy.
    by rewrite !string_app_assoc.
Qed.

Lemma format_prompt_context_section_witness :
  "ctx" ≠ ""
  ∧ LLMHandler.format_prompt "sys" "hello" ""
    = system_header +:+ "sys" +:+ user_header +:+ "hello" +:+ assistant_header
  ∧ LLMHandler.format_prompt "sys" "hello" ""
    ≠ system_header +:+ "sys" +:+ context_section ""
      +:+ user_header +:+ "hello" +:+ assistant_header
  ∧ LLMHandler.format_prompt "sys" "hello" "ctx"
    = system_header +:+ "sys" +:+ context_section "ctx"
      +:+ user_header +:+ "hello" +:+ assistant_header.
Proof.
  destruct (format_prompt_context_section "sys" "hello" "ctx") as (H1 & H2 & H3).
  split; [discriminate |].
  split; [exact H1 |]. split; [exact H2 |]. apply H3. discriminate.
Defined.

End FormatPrompt.

(** ** The entries of the sources list *)

Section SourceEntry.
Import PyStr.

Lemma source_entry_short (doc : Document) :
  (len (page_content doc) ≤ 200)%nat →
  RAGChain.content (RAGChain.source_entry doc) = page_content doc.
Proof.
  intros Hlen. unfold RAGChain.source_entry. simpl.
  destruct (Nat.ltb_spec 200 (len (page_content doc))); [lia | done].
Qed.

Lemma source_entry_long (doc : Document) :
  (200 < len (page_content doc))%nat →
  RAGChain.content (RAGChain.source_entry doc)
    = take 200 (page_content doc) +:+ "..."
  ∧ len (take 200 (page_content doc)) = 200%nat
  ∧ take 200 (page_content doc) +:+ drop 200 (page_content doc)
    = page_content doc
  ∧ len (RAGChain.content (RAGChain.source_entry doc)) = 203%nat.
Proof.
  intros Hlen. unfold RAGChain.source_entry, RAGChain.content.
  destruct (Nat.ltb_spec 200 (len (page_content doc))); [| lia].
  unfold len in *.
  assert (String.length (take 200 (page_content doc)) = 200%nat) as Htake.
  { rewrite take_length. lia. }
  split; [done |]. split; [done |]. split; [apply take_drop |].
  rewrite string_length_app, Htake. done.
Qed.

Lemma source_entry_source (doc : Document) :
  RAGChain.source (RAGChain.source_entry doc)
    = match metadata doc !! "source" with
      | Some v => v
      | None => MStr "Unknown"
      end.
Proof. unfold RAGChain.source_entry. simpl. by destruct (metadata doc !! "source"). Qed.

End SourceEntry.

(** ** What the effectful methods do, step by step *)

Ltac unfold_monad :=
  unfold logged, try_except, call, log_info, log_error, emit, raise, get_llm,
    mbind, M_bind, mret, M_ret.

Section Runs.
Import PyStr Spec.
Context (settings : Settings) (ext : Externals).

(** The comprehension of [retrieve_context] is the filter by score,
    projected on the documents. *)
Lemma filtered_results_passing (results : list (Document * float)) :
  RAGChain.filtered_results settings results
    = (passing (SIMILARITY_THRESHOLD settings) results).*1.
Proof.
  unfold passing. induction results as [|[doc score] rest IH]; [done |].
  simpl. rewrite filter_cons. simpl.
  destruct (PyNum.float_ge score (SIMILARITY_THRESHOLD settings)) eqn:Hge.
  - rewrite decide_True by done. simpl. by rewrite IH.
  - rewrite decide_False by (by intros [=]). done.
Qed.

(** The search of either store wrapper: one backend call, then one log
    line. *)
Lemma similarity_search_with_score_run (vs : VectorStore) (query : string)
    (k : option Z) (filter : option Filter) (w : World) :
  AnyVectorStore.similarity_search_with_score settings ext vs query k filter w =
  let k' := PyNum.or_int k (RETRIEVAL_TOP_K settings) in
  let w1 := record (SimilaritySearchWithScore (store_handle vs) query k' filter) w in
  match ext_search_with_score ext (trace w) (store_handle vs) query k' filter with
  | inr results =>
      (inr results,
       record (Log INFO ("Retrieved " +:+ pretty (length results)
                         +:+ " documents with scores")) w1)
  | inl e => (inl e, record (Log ERROR (search_error_prefix vs +:+ exc_str e)) w1)
  end.
Proof.
  destruct vs as [store|store]; simpl;
    unfold PineconeVectorStore.similarity_search_with_score,
      ChromaVectorStore.similarity_search_with_score;
    unfold_monad; simpl;
    by destruct (ext_search_with_score ext _ _ _ _ _).
Qed.

Lemma retrieve_context_run (self : RAGChain.t) (query : string)
    (k : option Z) (filter : option Filter) (w : World) :
  RAGChain.retrieve_context settings ext self query k filter w =
  let vs := RAGChain.vector_store self in
  let k' := PyNum.or_int k (RETRIEVAL_TOP_K settings) in
  let w1 := record (SimilaritySearchWithScore (store_handle vs) query k' filter) w in
  match ext_search_with_score ext (trace w) (store_handle vs) query k' filter with
  | inr results =>
      let docs := RAGChain.filtered_results settings results in
      (inr docs,
       record (Log INFO ("Retrieved " +:+ pretty (length docs) +:+ " documents "
                         +:+ "(filtered from " +:+ pretty (length results)
                         +:+ " by similarity threshold)"))
         (record (Log INFO ("Retrieved " +:+ pretty (length results)
                            +:+ " documents with scores")) w1))
  | inl e =>
      (inl e,
       record (Log ERROR ("Error retrieving context: " +:+ exc_str e))
         (record (Log ERROR (search_error_prefix vs +:+ exc_str e)) w1))
  end.
Proof.
  unfold RAGChain.retrieve_context.
  unfold logged at 1, try_except at 1, mbind at 1, M_bind at 1.
  rewrite similarity_search_with_score_run, or_int_idem. simpl.
  by destruct (ext_search_with_score ext _ _ _ _ _).
Qed.

Lemma generate_response_run (prompt : string) (max_tokens : option Z)
    (temperature : option float) (w : World) :
  LLMHandler.generate_response ext prompt max_tokens temperature w =
  let kwargs := LLMHandler.generation_kwargs (llm w) max_tokens temperature in
  let w1 := record (PipeCall prompt kwargs) w in
  match ext_pipe ext (trace w) prompt kwargs with
  | inr text =>
      (inr (if startswith text prompt then strip (drop (len prompt) text) else text),
       w1)
  | inl e =>
      (inl e, record (Log ERROR ("Error generating response: " +:+ exc_str e)) w1)
  end.
Proof.
  unfold LLMHandler.generate_response. unfold_monad. simpl.
  by destruct (ext_pipe ext _ _ _).
Qed.

Lemma generate_answer_run (self : RAGChain.t) (query context : string)
    (max_tokens : option Z) (temperature : option float) (w : World) :
  RAGChain.generate_answer ext self query context max_tokens temperature w =
  let prompt :=
    LLMHandler.format_prompt (RAGChain.system_prompt self) query context in
  let kwargs := LLMHandler.generation_kwargs (llm w) max_tokens temperature in
  let w1 := record (PipeCall prompt kwargs) w in
  match ext_pipe ext (trace w) prompt kwargs with
  | inr text =>
      (inr (if startswith text prompt then strip (drop (len prompt) text) else text),
       w1)
  | inl e =>
      (inl e,
       record (Log ERROR ("Error generating answer: " +:+ exc_str e))
         (record (Log ERROR ("Error generating response: " +:+ exc_str e)) w1))
  end.
Proof.
  unfold RAGChain.generate_answer.
  unfold logged at 1, try_except at 1, mbind at 1, M_bind at 1.
  rewrite generate_response_run. simpl.
  by destruct (ext_pipe ext _ _ _).
Qed.

(** A query that returns has searched the store, after its first log line,
    and has built its result from the documents that passed the filter. *)
Lemma query_inr (self : RAGChain.t) (question : string) (k : option Z)
    (filter : option Filter) (max_tokens : option Z)
    (temperature : option float) (w : World) (r : RAGChain.QueryResult) :
  (RAGChain.query settings ext self question k filter max_tokens temperature w).1
    = inr r →
  ∃ results,
    ext_search_with_score ext
      (trace w ++ [Log INFO ("Processing query: " +:+ question)])%list
      (store_handle (RAGChain.vector_store self)) question
      (PyNum.or_int k (RETRIEVAL_TOP_K settings)) filter = inr results
    ∧ RAGChain.context r
      = RAGChain.format_context (RAGChain.filtered_results settings results)
    ∧ RAGChain.sources r
      = RAGChain.source_entry <$> RAGChain.filtered_results settings results
    ∧ RAGChain.num_sources r = length (RAGChain.sources r).
Proof.
  unfold RAGChain.query.
  unfold logged at 1, try_except at 1.
  unfold mbind at 1, M_bind at 1. unfold log_info at 1, emit at 1.
  unfold mbind at 1, M_bind at 1.
  rewrite retrieve_context_run. simpl.
  destruct (ext_search_with_score ext _ _ _ _ _) as [e|results] eqn:Hsearch;
    [unfold_monad; simpl; discriminate |].
  unfold mbind at 1, M_bind at 1.
  rewrite generate_answer_run. simpl.
  destruct (ext_pipe ext _ _ _) as [e|text]; [unfold_monad; simpl; discriminate |].
  unfold_monad. simpl. intros [= <-]. exists results. simpl. done.
Qed.

(** A query returns as soon as the store and the model answer. *)
Lemma query_returns (self : RAGChain.t) (question : string) (k : option Z)
    (filter : option Filter) (max_tokens : option Z)
    (temperature : option float) (w : World)
    (results : list (Document * float)) (text : string) :
  let vs := RAGChain.vector_store self in
  let k' := PyNum.or_int k (RETRIEVAL_TOP_K settings) in
  let docs := RAGChain.filtered_results settings results in
  let context := RAGChain.format_context docs in
  let prompt :=
    LLMHandler.format_prompt (RAGChain.system_prompt self) question context in
  let kwargs := LLMHandler.generation_kwargs (llm w) max_tokens temperature in
  let w1 := record (Log INFO ("Processing query: " +:+ question)) w in
  let w2 :=
    record (Log INFO ("Retrieved " +:+ pretty (length docs) +:+ " documents "
                      +:+ "(filtered from " +:+ pretty (length results)
                      +:+ " by similarity threshold)"))
      (record (Log INFO ("Retrieved " +:+ pretty (length results)
                         +:+ " documents with scores"))
         (record (SimilaritySearchWithScore (store_handle vs) question k' filter)
            w1)) in
  ext_search_with_score ext (trace w1) (store_handle vs) question k' filter
    = inr results →
  ext_pipe ext (trace w2) prompt kwargs = inr text →
  (RAGChain.query settings ext self question k filter max_tokens temperature w).1
  = inr {| RAGChain.answer :=
             if startswith text prompt
             then strip (drop (len prompt) text) else text;
           RAGChain.context := context;
           RAGChain.sources := RAGChain.source_entry <$> docs;
           RAGChain.num_sources := length (RAGChain.source_entry <$> docs) |}.
Proof.
  intros vs k' docs context prompt kwargs w1 w2 Hsearch Hpipe.
  unfold RAGChain.query.
  unfold logged at 1, try_except at 1.
  unfold mbind at 1, M_bind at 1. unfold log_info at 1, emit at 1.
  unfold mbind at 1, M_bind at 1.
  rewrite retrieve_context_run. cbv zeta.
  change (record (Log INFO ("Processing query: " +:+ question)) w) with w1.
  change (RAGChain.vector_store self) with vs.
  change (PyNum.or_int k (RETRIEVAL_TOP_K settings)) with k'.
  rewrite Hsearch.
  unfold mbind at 1, M_bind at 1.
  rewrite generate_answer_run. cbv zeta.
  change (RAGChain.filtered_results settings results) with docs.
  change (RAGChain.format_context docs) with context.
  change (LLMHandler.format_prompt (RAGChain.system_prompt self) question context)
    with prompt.
  change (LLMHandler.generation_kwargs _ max_tokens temperature) with kwargs.
  change (trace (record _ (record _ (record _ w1)))) with (trace w2).
  rewrite Hpipe. reflexivity.
Qed.

End Runs.

(** ** Retrieval: threshold filter and the number of matches asked for *)

Section Retrieval.
Import PyStr Spec.

(** C1: when the store answers the search with [results], [retrieve_context]
    returns the documents of exactly the matches whose score is at least the
    configured threshold, in the order of [results]; when no match passes,
    it returns the empty list and raises nothing. *)
Theorem retrieve_context_threshold_filter (settings : Settings) (ext : Externals)
    (self : RAGChain.t) (query : string) (k : option Z)
    (filter : option Filter) (w : World) (results : list (Document * float)) :
  ext_search_with_score ext (trace w) (store_handle (RAGChain.vector_store self))
    query (PyNum.or_int k (RETRIEVAL_TOP_K settings)) filter = inr results →
  ∃ docs,
    (RAGChain.retrieve_context settings ext self query k filter w).1 = inr docs
    ∧ docs = (passing (SIMILARITY_THRESHOLD settings) results).*1
    ∧ passing (SIMILARITY_THRESHOLD settings) results `sublist_of` results
    ∧ (∀ m, m ∈ passing (SIMILARITY_THRESHOLD settings) results
            ↔ m ∈ results
              ∧ PyNum.float_ge m.2 (SIMILARITY_THRESHOLD settings) = true)
    ∧ (Forall (λ m, PyNum.float_ge m.2 (SIMILARITY_THRESHOLD settings) = false)
              results → docs = []).
Proof.
  intros Hsearch.
  exists (RAGChain.filtered_results settings results).
  split; [by rewrite retrieve_context_run; simpl; rewrite Hsearch |].
  split; [apply filtered_results_passing |].
  split; [apply sublist_filter |].
  split.
  - intros m. unfold passing. rewrite list_elem_of_filter. tauto.
  - intros Hall. rewrite filtered_results_passing. unfold passing.
    clear Hsearch. induction Hall as [|m rest Hm _ IH]; [done |].
    rewrite filter_cons, decide_False; [done | congruence].
Qed.

Lemma retrieve_context_threshold_filter_witness :
  ext_search_with_score Examples.ext_ok (trace Examples.world)
    (store_handle (RAGChain.vector_store Examples.chain))
    "What is alpha?" (PyNum.or_int None (RETRIEVAL_TOP_K default_settings)) None
    = inr Examples.search_results
  ∧ ∃ docs,
      (RAGChain.retrieve_context default_settings Examples.ext_ok Examples.chain
         "What is alpha?" None None Examples.world).1 = inr docs
      ∧ docs = (passing (SIMILARITY_THRESHOLD default_settings)
                        Examples.search_results).*1
      ∧ passing (SIMILARITY_THRESHOLD default_settings) Examples.search_results
          `sublist_of` Examples.search_results
      ∧ (∀ m, m ∈ passing (SIMILARITY_THRESHOLD default_settings)
                          Examples.search_results
              ↔ m ∈ Examples.search_results
                ∧ PyNum.float_ge m.2 (SIMILARITY_THRESHOLD default_settings) = true)
      ∧ (Forall (λ m, PyNum.float_ge m.2 (SIMILARITY_THRESHOLD default_settings)
                      = false)
                Examples.search_results → docs = []).
Proof.
  split; [reflexivity |].
  apply (retrieve_context_threshold_filter default_settings Examples.ext_ok
           Examples.chain "What is alpha?" None None Examples.world
           Examples.search_results).
  reflexivity.
Defined.

(** On [Examples.search_results] with the default threshold: the match with
    score 0.5 is dropped, the one with score 0.7 stays. *)
Example retrieve_context_example :
  (RAGChain.retrieve_context default_settings Examples.ext_ok Examples.chain
     "What is alpha?" None None Examples.world).1
  = inr [Examples.doc_alpha; Examples.doc_long; Examples.doc_gamma].
Proof. reflexivity. Qed.

(** With every match below the threshold the result is the empty list. *)
Example retrieve_context_all_filtered :
  (RAGChain.retrieve_context default_settings Examples.ext_weak Examples.chain
     "What is alpha?" None None Examples.world).1 = inr [].
Proof. reflexivity. Qed.

(** C5, as stated, fails.  With [k = 0] the search is made, with the
    configured top-K, and the call returns; with [k = -3] the backend is
    called with [-3], and the failure is the backend's own, after the
    call. *)
Lemma similarity_search_nonpositive_k_counterexample :
  RAGChain.retrieve_context default_settings Examples.ext_ok Examples.chain
    "q" (Some 0) None Examples.world
  = (inr [Examples.doc_alpha; Examples.doc_long; Examples.doc_gamma],
     {| llm := Examples.handler;
        trace :=
          [SimilaritySearchWithScore
             (LangchainChroma "./data/chroma_db" "course_documents") "q" 5 None;
           Log INFO "Retrieved 4 documents with scores";
           Log INFO "Retrieved 3 documents (filtered from 4 by similarity threshold)"] |})
  ∧ ChromaVectorStore.similarity_search_with_score default_settings
      Examples.ext_strict Examples.chroma_store "q" (Some (-3)) None Examples.world
    = (inl {| exc_type := "BackendError"; exc_str := "k must be positive" |},
       {| llm := Examples.handler;
          trace :=
            [SimilaritySearchWithScore
               (LangchainChroma "./data/chroma_db" "course_documents") "q" (-3) None;
             Log ERROR "Error searching Chroma: k must be positive"] |}).
Proof. split; reflexivity. Qed.

(** C5, amended: a search made without [k], or with [k = 0], asks the
    backend for the configured top-K matches; any other [k], a negative one
    too, is handed to the backend as it is.  The backend call is the first
    thing the method does, and the method raises exactly when the backend
    does, with the backend's exception.  This holds for the search of a
    store wrapper and for [retrieve_context]. *)
Theorem similarity_search_k_default (settings : Settings) (ext : Externals)
    (self : RAGChain.t) (query : string) (k : option Z)
    (filter : option Filter) (w : World) :
  let vs := RAGChain.vector_store self in
  ∃ k',
    (k = None → k' = RETRIEVAL_TOP_K settings)
    ∧ (k = Some 0 → k' = RETRIEVAL_TOP_K settings)
    ∧ (∀ n, k = Some n → n ≠ 0 → k' = n)
    ∧ (∃ tail,
         trace (AnyVectorStore.similarity_search_with_score settings ext vs
                  query k filter w).2
         = (trace w ++ SimilaritySearchWithScore (store_handle vs) query k' filter
                       :: tail)%list)
    ∧ (∃ tail,
         trace (RAGChain.retrieve_context settings ext self query k filter w).2
         = (trace w ++ SimilaritySearchWithScore (store_handle vs) query k' filter
                       :: tail)%list)
    ∧ match ext_search_with_score ext (trace w) (store_handle vs) query k' filter with
      | inr results =>
          (AnyVectorStore.similarity_search_with_score settings ext vs
             query k filter w).1 = inr results
          ∧ (RAGChain.retrieve_context settings ext self query k filter w).1
            = inr (RAGChain.filtered_results settings results)
      | inl e =>
          (AnyVectorStore.similarity_search_with_score settings ext vs
             query k filter w).1 = inl e
          ∧ (RAGChain.retrieve_context settings ext self query k filter w).1 = inl e
      end.
Proof.
  intros vs. exists (PyNum.or_int k (RETRIEVAL_TOP_K settings)).
  split; [by intros -> |].
  split; [by intros -> |].
  split.
  { intros n -> Hn. unfold PyNum.or_int. by destruct (Z.eqb_spec n 0). }
  rewrite similarity_search_with_score_run, retrieve_context_run. simpl. fold vs.
  destruct (ext_search_with_score ext _ _ _ _ _) as [e|results]; simpl;
    rewrite <- !(assoc_L (++)); simpl; eauto 10.
Qed.

Lemma similarity_search_k_default_witness :
  ∃ k',
    (Some 0 = None → k' = 5)
    ∧ (Some 0 = Some 0 → k' = 5)
    ∧ (∀ n, Some 0 = Some n → n ≠ 0 → k' = n)
    ∧ (∃ tail,
         trace (AnyVectorStore.similarity_search_with_score default_settings
                  Examples.ext_ok (Chroma Examples.chroma_store)
                  "q" (Some 0) None Examples.world).2
         = ([] ++ SimilaritySearchWithScore
                    (LangchainChroma "./data/chroma_db" "course_documents")
                    "q" k' None :: tail)%list)
    ∧ (∃ tail,
         trace (RAGChain.retrieve_context default_settings Examples.ext_ok
                  Examples.chain "q" (Some 0) None Examples.world).2
         = ([] ++ SimilaritySearchWithScore
                    (LangchainChroma "./data/chroma_db" "course_documents")
                    "q" k' None :: tail)%list)
    ∧ match ext_search_with_score Examples.ext_ok []
              (LangchainChroma "./data/chroma_db" "course_documents")
              "q" k' None with
      | inr results =>
          (AnyVectorStore.similarity_search_with_score default_settings
             Examples.ext_ok (Chroma Examples.chroma_store)
             "q" (Some 0) None Examples.world).1 = inr results
          ∧ (RAGChain.retrieve_context default_settings Examples.ext_ok
               Examples.chain "q" (Some 0) None Examples.world).1
            = inr (RAGChain.filtered_results default_settings results)
      | inl e =>
          (AnyVectorStore.similarity_search_with_score default_settings
             Examples.ext_ok (Chroma Examples.chroma_store)
             "q" (Some 0) None Examples.world).1 = inl e
          ∧ (RAGChain.retrieve_context default_settings Examples.ext_ok
               Examples.chain "q" (Some 0) None Examples.world).1 = inl e
      end.
Proof.
  exact (similarity_search_k_default default_settings Examples.ext_ok
           Examples.chain "q" (Some 0) None Examples.world).
Defined.

End Retrieval.

(** ** The result of a query *)

Section QueryResult.
Import PyStr Spec.

(** The chain over [Examples.ext_ok] returns [Examples.query_result]. *)
Lemma query_example :
  (RAGChain.query default_settings Examples.ext_ok Examples.chain
     "What is alpha?" None None None None Examples.world).1
  = inr Examples.query_result.
Proof. reflexivity. Qed.

(** C9: a result returned by [query] counts its sources: [num_sources] is
    the length of [sources], which is the number of documents that passed
    the threshold filter; the entry at position [i] is built from the
    document at position [i]; and [num_sources] is 0 exactly when the
    context is the no-information sentence. *)
Theorem query_num_sources (settings : Settings) (ext : Externals)
    (self : RAGChain.t) (question : string) (k : option Z)
    (filter : option Filter) (max_tokens : option Z)
    (temperature : option float) (w : World) (r : RAGChain.QueryResult) :
  (RAGChain.query settings ext self question k filter max_tokens temperature w).1
    = inr r →
  ∃ results,
    ext_search_with_score ext
      (trace w ++ [Log INFO ("Processing query: " +:+ question)])%list
      (store_handle (RAGChain.vector_store self)) question
      (PyNum.or_int k (RETRIEVAL_TOP_K settings)) filter = inr results
    ∧ RAGChain.num_sources r = length (RAGChain.sources r)
    ∧ length (RAGChain.sources r)
      = length (passing (SIMILARITY_THRESHOLD settings) results)
    ∧ (∀ i, RAGChain.sources r !! i
            = RAGChain.source_entry
                <$> (passing (SIMILARITY_THRESHOLD settings) results).*1 !! i)
    ∧ RAGChain.context r
      = RAGChain.format_context
          (passing (SIMILARITY_THRESHOLD settings) results).*1
    ∧ (RAGChain.num_sources r = 0%nat
       ↔ RAGChain.context r
         = "No relevant information found in the course materials.").
Proof.
  intros Hrun.
  destruct (query_inr _ _ _ _ _ _ _ _ _ _ Hrun)
    as (results & Hsearch & Hcontext & Hsources & Hnum).
  rewrite filtered_results_passing in Hcontext, Hsources.
  exists results. split; [done |]. split; [done |].
  split; [by rewrite Hsources, !length_fmap |].
  split; [intros i; by rewrite Hsources, list_lookup_fmap |].
  split; [done |].
  rewrite Hnum, Hsources, Hcontext, length_fmap, format_context_no_information.
  apply length_zero_iff_nil.
Qed.

Lemma query_num_sources_witness :
  (RAGChain.query default_settings Examples.ext_ok Examples.chain
     "What is alpha?" None None None None Examples.world).1
  = inr Examples.query_result
  ∧ ∃ results,
      ext_search_with_score Examples.ext_ok
        (trace Examples.world
           ++ [Log INFO ("Processing query: " +:+ "What is alpha?")])%list
        (store_handle (RAGChain.vector_store Examples.chain)) "What is alpha?"
        (PyNum.or_int None (RETRIEVAL_TOP_K default_settings)) None = inr results
      ∧ RAGChain.num_sources Examples.query_result
        = length (RAGChain.sources Examples.query_result)
      ∧ length (RAGChain.sources Examples.query_result)
        = length (passing (SIMILARITY_THRESHOLD default_settings) results)
      ∧ (∀ i, RAGChain.sources Examples.query_result !! i
              = RAGChain.source_entry
                  <$> (passing (SIMILARITY_THRESHOLD default_settings) results).*1 !! i)
      ∧ RAGChain.context Examples.query_result
        = RAGChain.format_context
            (passing (SIMILARITY_THRESHOLD default_settings) results).*1
      ∧ (RAGChain.num_sources Examples.query_result = 0%nat
         ↔ RAGChain.context Examples.query_result
           = "No relevant information found in the course materials.").
Proof.
  split; [reflexivity |].
  apply (query_num_sources default_settings Examples.ext_ok Examples.chain
           "What is alpha?" None None None None Examples.world
           Examples.query_result).
  reflexivity.
Defined.

(** A query over a store that holds nothing still calls the model, with
    the no-information sentence as context, and reports no source. *)
Example query_empty_store :
  (RAGChain.query default_settings Examples.ext_empty Examples.chain
     "What is photosynthesis?" None None None None Examples.world).1
  = inr {| RAGChain.answer := "I do not know.";
           RAGChain.context :=
             "No relevant information found in the course materials.";
           RAGChain.sources := [];
           RAGChain.num_sources := 0 |}
  ∧ PipeCall
      (LLMHandler.format_prompt RAGChain.default_system_prompt
         "What is photosynthesis?"
         "No relevant information found in the course materials.")
      (LLMHandler.generation_kwargs Examples.handler None None)
    ∈ trace (RAGChain.query default_settings Examples.ext_empty Examples.chain
               "What is photosynthesis?" None None None None Examples.world).2.
Proof.
  split; [reflexivity |].
  vm_compute. do 4 apply list_elem_of_further. apply list_elem_of_here.
Qed.

(** One ingested chunk and a threshold of 0.0: one source, the chunk's. *)
Example query_photosynthesis :
  ∃ r,
    (RAGChain.query (Examples.settings_with_threshold 0%float) Examples.ext_bio
       Examples.chain "What is photosynthesis?" None None None None
       Examples.world).1 = inr r
    ∧ RAGChain.num_sources r = 1%nat
    ∧ RAGChain.source <$> RAGChain.sources r !! 0%nat = Some (MStr "bio101.txt").
Proof. eexists. repeat split; reflexivity. Qed.

(** C4: in a result returned by [query], the entry of each retrieved
    document holds the content unchanged when it has at most 200
    characters, and otherwise its first 200 characters followed by the three
    characters ["..."]; its source is the [source] of the metadata when
    there is one, and ["Unknown"] otherwise. *)
Theorem query_sources_truncated (settings : Settings) (ext : Externals)
    (self : RAGChain.t) (question : string) (k : option Z)
    (filter : option Filter) (max_tokens : option Z)
    (temperature : option float) (w : World) (r : RAGChain.QueryResult) :
  (RAGChain.query settings ext self question k filter max_tokens temperature w).1
    = inr r →
  ∃ docs,
    length docs = length (RAGChain.sources r)
    ∧ (∃ results,
         ext_search_with_score ext
           (trace w ++ [Log INFO ("Processing query: " +:+ question)])%list
           (store_handle (RAGChain.vector_store self)) question
           (PyNum.or_int k (RETRIEVAL_TOP_K settings)) filter = inr results
         ∧ docs = (passing (SIMILARITY_THRESHOLD settings) results).*1)
    ∧ ∀ i doc, docs !! i = Some doc →
        ∃ entry,
          RAGChain.sources r !! i = Some entry
          ∧ ((len (page_content doc) ≤ 200)%nat →
             RAGChain.content entry = page_content doc)
          ∧ ((200 < len (page_content doc))%nat →
             RAGChain.content entry = take 200 (page_content doc) +:+ "..."
             ∧ len (take 200 (page_content doc)) = 200%nat
             ∧ take 200 (page_content doc) +:+ drop 200 (page_content doc)
               = page_content doc
             ∧ len (RAGChain.content entry) = 203%nat)
          ∧ (∀ v, metadata doc !! "source" = Some v → RAGChain.source entry = v)
          ∧ (metadata doc !! "source" = None →
             RAGChain.source entry = MStr "Unknown").
Proof.
  intros Hrun.
  destruct (query_inr _ _ _ _ _ _ _ _ _ _ Hrun)
    as (results & Hsearch & _ & Hsources & _).
  rewrite filtered_results_passing in Hsources.
  exists (passing (SIMILARITY_THRESHOLD settings) results).*1.
  split; [by rewrite Hsources, !length_fmap |].
  split; [by exists results |].
  intros i doc Hdoc. exists (RAGChain.source_entry doc).
  split; [by rewrite Hsources, list_lookup_fmap, Hdoc |].
  split; [apply source_entry_short |].
  split; [apply source_entry_long |].
  rewrite source_entry_source.
  split; [by intros v -> | by intros ->].
Qed.

Lemma query_sources_truncated_witness :
  (RAGChain.query default_settings Examples.ext_ok Examples.chain
     "What is alpha?" None None None None Examples.world).1
  = inr Examples.query_result
  ∧ ∃ docs,
      length docs = length (RAGChain.sources Examples.query_result)
      ∧ (∃ results,
           ext_search_with_score Examples.ext_ok
             (trace Examples.world
                ++ [Log INFO ("Processing query: " +:+ "What is alpha?")])%list
             (store_handle (RAGChain.vector_store Examples.chain))
             "What is alpha?"
             (PyNum.or_int None (RETRIEVAL_TOP_K default_settings)) None
           = inr results
           ∧ docs = (passing (SIMILARITY_THRESHOLD default_settings) results).*1)
      ∧ ∀ i doc, docs !! i = Some doc →
          ∃ entry,
            RAGChain.sources Examples.query_result !! i = Some entry
            ∧ ((len (page_content doc) ≤ 200)%nat →
               RAGChain.content entry = page_content doc)
            ∧ ((200 < len (page_content doc))%nat →
               RAGChain.content entry = take 200 (page_content doc) +:+ "..."
               ∧ len (take 200 (page_content doc)) = 200%nat
               ∧ take 200 (page_content doc) +:+ drop 200 (page_content doc)
                 = page_content doc
               ∧ len (RAGChain.content entry) = 203%nat)
            ∧ (∀ v, metadata doc !! "source" = Some v → RAGChain.source entry = v)
            ∧ (metadata doc !! "source" = None →
               RAGChain.source entry = MStr "Unknown").
Proof.
  split; [reflexivity |].
  apply (query_sources_truncated default_settings Examples.ext_ok Examples.chain
           "What is alpha?" None None None None Examples.world
           Examples.query_result).
  reflexivity.
Defined.

(** The three cases on concrete documents: a short content, a content of
    205 characters, and a document without [source]. *)
Example source_entry_examples :
  RAGChain.source_entry Examples.doc_gamma
    = {| RAGChain.source := MStr "c.md"; RAGChain.content := "gamma" |}
  ∧ len (page_content Examples.doc_long) = 205%nat
  ∧ RAGChain.source_entry Examples.doc_long
    = {| RAGChain.source := MStr "long.pdf";
         RAGChain.content := Examples.times "0123456789" 20 +:+ "..." |}
  ∧ RAGChain.source_entry Examples.doc_beta
    = {| RAGChain.source := MStr "Unknown"; RAGChain.content := "beta" |}.
Proof. repeat split; reflexivity. Qed.

End QueryResult.

(** ** The vector-store factory *)

Section PineconeRun.
Import PyStr Spec Observe StoreSpec.

Lemma pinecone_init_run (settings : Settings) (ext : Externals)
    (embedding_generator : EmbeddingGenerator) (w : World)
    (c : ascii) (key : string) :
  PINECONE_API_KEY settings = Some (String c key) →
  PineconeVectorStore.__init__ settings ext embedding_generator w =
  let api_key := String c key in
  let name := PINECONE_INDEX_NAME settings in
  let region := PyNum.or_str (PINECONE_ENVIRONMENT settings) "us-east-1" in
  let w1 := record (PineconeClient api_key) w in
  match ext_pinecone_client ext (trace w) api_key with
  | inl e =>
      (inl e, record (Log ERROR ("Error initializing Pinecone: " +:+ exc_str e)) w1)
  | inr _ =>
      let w2 := record PineconeListIndexes w1 in
      match ext_list_indexes ext (trace w1) with
      | inl e =>
          (inl e,
           record (Log ERROR ("Error initializing Pinecone: " +:+ exc_str e))
             (record (Log ERROR ("Error initializing index: " +:+ exc_str e)) w2))
      | inr names =>
          if bool_decide (name ∈ names) then
            pinecone_attach ext embedding_generator name
              (record (Log INFO ("Using existing Pinecone index: " +:+ name)) w2)
          else
            let w3 :=
              record (Log INFO ("Creating new Pinecone index: " +:+ name)) w2 in
            let w4 :=
              record (PineconeCreateIndex name (EMBEDDING_DIMENSION settings)
                        "cosine" "aws" region) w3 in
            match ext_create_index ext (trace w3) name
                    (EMBEDDING_DIMENSION settings) "cosine" "aws" region with
            | inl e =>
                (inl e,
                 record (Log ERROR ("Error initializing Pinecone: " +:+ exc_str e))
                   (record (Log ERROR ("Error initializing index: " +:+ exc_str e))
                      w4))
            | inr _ =>
                pinecone_attach ext embedding_generator name
                  (record (Log INFO ("Created Pinecone index: " +:+ name)) w4)
            end
      end
  end.
Proof.
  intros Hkey. unfold PineconeVectorStore.__init__. rewrite Hkey.
  unfold PineconeVectorStore._initialize_index, pinecone_attach.
  unfold_monad. simpl.
  destruct (ext_pinecone_client ext _ _) as [e|[]]; [done |].
  destruct (ext_list_indexes ext _) as [e|names]; [done |].
  destruct (bool_decide _); simpl.
  - by destruct (ext_from_existing_index ext _ _) as [e|[]].
  - destruct (ext_create_index ext _ _ _ _ _ _) as [e|[]]; [done |].
    by destruct (ext_from_existing_index ext _ _) as [e|[]].
Qed.

(** With a key, the constructor returns its store when every Pinecone call
    answers, and raises the exception of the first call that raises. *)
Lemma pinecone_init_cases (settings : Settings) (ext : Externals)
    (embedding_generator : EmbeddingGenerator) (w : World)
    (c : ascii) (key : string) :
  PINECONE_API_KEY settings = Some (String c key) →
  match (PineconeVectorStore.__init__ settings ext embedding_generator w).1 with
  | inr store =>
      store = pinecone_store settings embedding_generator
      ∧ pinecone_answers settings ext (trace w) (String c key)
  | inl e => pinecone_raises settings ext (trace w) (String c key) e
  end.
Proof.
  intros Hkey. rewrite (pinecone_init_run _ _ _ _ _ _ Hkey). cbv zeta.
  unfold pinecone_answers, pinecone_raises, pinecone_attach. simpl.
  destruct (ext_pinecone_client ext _ _) as [e|[]]; simpl; [by left |].
  destruct (ext_list_indexes ext _) as [e|names]; simpl;
    [right; split; [done | by left] |].
  destruct (bool_decide (PINECONE_INDEX_NAME settings ∈ names)) eqn:Hlisted;
    simpl.
  - destruct (ext_from_existing_index ext _ _) as [e|[]] eqn:Hattach; simpl.
    + right. split; [done |]. right. exists names. by rewrite Hlisted.
    + split; [done |]. split; [done |]. exists names. by rewrite Hlisted.
  - destruct (ext_create_index ext _ _ _ _ _ _) as [e|[]] eqn:Hcreate; simpl.
    { right. split; [done |]. right. exists names. rewrite Hlisted.
      split; [done | by left]. }
    destruct (ext_from_existing_index ext _ _) as [e|[]] eqn:Hattach; simpl.
    + right. split; [done |]. right. exists names. rewrite Hlisted.
      split; [done |]. right. split; [done |].
      rewrite <- Hattach. f_equal. by rewrite <- !app_assoc.
    + split; [done |]. split; [done |]. exists names. rewrite Hlisted.
      split; [done |]. split; [done |].
      rewrite <- Hattach. f_equal. by rewrite <- !app_assoc.
Qed.

Lemma pinecone_answers_not_raises (settings : Settings) (ext : Externals)
    (h : list Event) (api_key : string) (e : Exception) :
  pinecone_answers settings ext h api_key →
  pinecone_raises settings ext h api_key e → False.
Proof.
  unfold pinecone_answers, pinecone_raises.
  intros (Hclient & names & Hlist & Hrest) [Hc | (_ & [Hl | (names' & Hl & Hr)])];
    [congruence | congruence |].
  assert (names' = names) as -> by congruence.
  destruct (bool_decide _); [congruence |].
  destruct Hrest as (Hcreate & Hattach).
  destruct Hr as [Hr | (_ & Hr)]; congruence.
Qed.

Lemma pinecone_raises_unique (settings : Settings) (ext : Externals)
    (h : list Event) (api_key : string) (e e' : Exception) :
  pinecone_raises settings ext h api_key e →
  pinecone_raises settings ext h api_key e' → e = e'.
Proof.
  unfold pinecone_raises.
  intros [Hc | (Hc & [Hl | (names & Hl & Hr)])]
         [Hc' | (Hc' & [Hl' | (names' & Hl' & Hr')])]; try congruence.
  assert (names' = names) as -> by congruence.
  destruct (bool_decide _); [congruence |].
  destruct Hr as [Hr | (? & Hr)], Hr' as [Hr' | (? & Hr')]; congruence.
Qed.

(** The two ways the constructor ends, read from its result. *)
Lemma pinecone_init_iff (settings : Settings) (ext : Externals)
    (embedding_generator : EmbeddingGenerator) (w : World)
    (c : ascii) (key : string) :
  PINECONE_API_KEY settings = Some (String c key) →
  let run := PineconeVectorStore.__init__ settings ext embedding_generator w in
  (pinecone_answers settings ext (trace w) (String c key)
   ↔ run.1 = inr (pinecone_store settings embedding_generator))
  ∧ (∀ e, pinecone_raises settings ext (trace w) (String c key) e
          ↔ run.1 = inl e).
Proof.
  intros Hkey run. subst run.
  pose proof (pinecone_init_cases settings ext embedding_generator w c key Hkey)
    as Hcases.
  destruct (PineconeVectorStore.__init__ settings ext embedding_generator w).1
    as [e0|store].
  - split.
    + split; [| done]. intros Hanswers.
      destruct (pinecone_answers_not_raises _ _ _ _ _ Hanswers Hcases).
    + intros e. split.
      * intros Hraises. f_equal.
        apply (pinecone_raises_unique _ _ _ _ _ _ Hcases Hraises).
      * by intros [= <-].
  - destruct Hcases as (-> & Hanswers). split; [done |].
    intros e. split; [| done]. intros Hraises.
    destruct (pinecone_answers_not_raises _ _ _ _ _ Hanswers Hraises).
Qed.

End PineconeRun.

Section Factory.
Import PyStr Spec StoreSpec.

(** C6, as stated, fails.  With the default settings the backend type is
    the remote store's, and the factory does not return the Pinecone
    variant: no API key is configured, so the constructor raises
    [ValueError], after the factory's log line. *)
Lemma create_vector_store_no_api_key_counterexample :
  lower (VECTOR_STORE default_settings) = "pinecone"
  ∧ PINECONE_API_KEY default_settings = None
  ∧ VectorStoreFactory.create_vector_store default_settings Examples.ext_ok
      Examples.embedder Examples.world
    = (inl (ValueError "PINECONE_API_KEY is required"),
       {| llm := Examples.handler;
          trace := [Log INFO "Creating Pinecone vector store"] |}).
Proof. repeat split. Qed.

(** C6, amended: the factory looks at the lower-cased backend type.  For
    the type of the remote store it returns the Pinecone variant exactly
    when an API key is configured and every Pinecone call of the
    constructor answers; without a key it raises [ValueError], and when a
    Pinecone call raises, it raises that exception.  For the type of the
    local store it returns the Chroma variant exactly when the Chroma
    client can be built, and raises the client's exception otherwise.  For
    every other string it raises a [ValueError] that names the type, with
    the world unchanged: no constructor has run and nothing was logged.  A
    store it returns is always the variant that the type names. *)
Theorem create_vector_store_dispatch (settings : Settings) (ext : Externals)
    (embedding_generator : EmbeddingGenerator) (w : World) :
  let vector_store_type := lower (VECTOR_STORE settings) in
  let run :=
    VectorStoreFactory.create_vector_store settings ext embedding_generator w in
  (vector_store_type = "pinecone" →
   let h := (trace w ++ [Log INFO "Creating Pinecone vector store"])%list in
   match PINECONE_API_KEY settings with
   | Some (String c key) =>
       (pinecone_answers settings ext h (String c key)
        ↔ run.1 = inr (Pinecone (pinecone_store settings embedding_generator)))
       ∧ (∀ e, pinecone_raises settings ext h (String c key) e ↔ run.1 = inl e)
   | _ =>
       run = (inl (ValueError "PINECONE_API_KEY is required"),
              record (Log INFO "Creating Pinecone vector store") w)
   end)
  ∧ (vector_store_type = "chroma" →
     let h := (trace w ++ [Log INFO "Creating Chroma vector store"])%list in
     match ext_chroma ext h (CHROMA_PERSIST_DIRECTORY settings)
             "course_documents" with
     | inr _ => run.1 = inr (Chroma (chroma_store settings embedding_generator))
     | inl e => run.1 = inl e
     end)
  ∧ (vector_store_type ≠ "pinecone" → vector_store_type ≠ "chroma" →
     run = (inl (ValueError ("Unsupported vector store type: "
                             +:+ vector_store_type
                             +:+ ". Supported types: pinecone, chroma")), w))
  ∧ (∀ vs, run.1 = inr vs →
       (vector_store_type = "pinecone"
        ∧ vs = Pinecone (pinecone_store settings embedding_generator))
       ∨ (vector_store_type = "chroma"
          ∧ vs = Chroma (chroma_store settings embedding_generator))).
Proof.
  intros vector_store_type run. subst run.
  unfold VectorStoreFactory.create_vector_store. fold vector_store_type.
  destruct (String.eqb_spec vector_store_type "pinecone") as [Hp|Hp];
    [| destruct (String.eqb_spec vector_store_type "chroma") as [Hc|Hc]].
  - rewrite Hp.
    assert ((log_info "Creating Pinecone vector store" ;;
             store ← PineconeVectorStore.__init__ settings ext embedding_generator;
             mret (Pinecone store)) w
            = let init :=
                PineconeVectorStore.__init__ settings ext embedding_generator
                  (record (Log INFO "Creating Pinecone vector store") w) in
              (match init.1 with
               | inr store => inr (Pinecone store)
               | inl e => inl e
               end, init.2)) as ->.
    { unfold_monad. simpl.
      by destruct (PineconeVectorStore.__init__ _ _ _ _) as [[e|store] w1]. }
    cbv zeta. split; [| split; [done | split; [done |]]].
    + intros _.
      destruct (PINECONE_API_KEY settings) as [[|c key]|] eqn:Hkey;
        try (unfold PineconeVectorStore.__init__; by rewrite Hkey).
      destruct (pinecone_init_iff settings ext embedding_generator
                  (record (Log INFO "Creating Pinecone vector store") w)
                  c key Hkey) as (Hanswers & Hraises).
      simpl in Hanswers, Hraises. simpl.
      destruct (PineconeVectorStore.__init__ _ _ _ _).1 as [e0|store]; split.
      * rewrite Hanswers. split; intros [=].
      * intros e. rewrite (Hraises e). split; intros [= <-]; done.
      * rewrite Hanswers. split; intros [= <-]; done.
      * intros e. rewrite (Hraises e). split; intros [=].
    + simpl. intros vs Hvs. left. split; [done |].
      destruct (PINECONE_API_KEY settings) as [[|c key]|] eqn:Hkey;
        try (unfold PineconeVectorStore.__init__ in Hvs; by rewrite Hkey in Hvs).
      pose proof (pinecone_init_cases settings ext embedding_generator
                    (record (Log INFO "Creating Pinecone vector store") w)
                    c key Hkey) as Hcases.
      destruct (PineconeVectorStore.__init__ _ _ _ _).1 as [e0|store]; [done |].
      destruct Hcases as (-> & _). by injection Hvs as <-.
  - rewrite Hc. unfold ChromaVectorStore.__init__, chroma_store.
    unfold_monad. simpl.
    split; [done |]. split; [| split; [done |]].
    + intros _. by destruct (ext_chroma ext _ _ _) as [e|[]].
    + intros vs Hvs. right. split; [done |].
      destruct (ext_chroma ext _ _ _) as [e|[]]; [done |].
      by injection Hvs as <-.
  - unfold_monad. repeat split; try done.
Qed.

Lemma create_vector_store_dispatch_witness :
  (lower "PineCone" = "pinecone"
   ∧ (VectorStoreFactory.create_vector_store (Examples.settings_for "PineCone")
        Examples.ext_ok Examples.embedder Examples.world).1
     = inr (Pinecone
              {| PineconeVectorStore.embedding_generator := Examples.embedder;
                 PineconeVectorStore.index_name := "course-chatbot";
                 PineconeVectorStore.vectorstore :=
                   LangchainPinecone "course-chatbot" |}))
  ∧ (lower "pinecone" = "pinecone"
     ∧ (VectorStoreFactory.create_vector_store (Examples.settings_for "pinecone")
          MoreExamples.ext_down Examples.embedder Examples.world).1
       = inl {| exc_type := "PineconeException"; exc_str := "unreachable" |})
  ∧ (lower "Chroma" = "chroma"
     ∧ (VectorStoreFactory.create_vector_store (Examples.settings_for "Chroma")
          Examples.ext_ok Examples.embedder Examples.world).1
       = inr (Chroma Examples.chroma_store))
  ∧ (lower "faiss" ≠ "pinecone" ∧ lower "faiss" ≠ "chroma"
     ∧ VectorStoreFactory.create_vector_store (Examples.settings_for "faiss")
         Examples.ext_ok Examples.embedder Examples.world
       = (inl (ValueError
                 "Unsupported vector store type: faiss. Supported types: pinecone, chroma"),
          Examples.world)).
Proof.
  split; [| split; [| split]].
  - split; [reflexivity |].
    destruct (create_vector_store_dispatch (Examples.settings_for "PineCone")
                Examples.ext_ok Examples.embedder Examples.world)
      as (Hpinecone & _).
    apply (Hpinecone eq_refl).
    split; [reflexivity |]. exists ["other-index"].
    split; [reflexivity |]. split; reflexivity.
  - split; [reflexivity |].
    destruct (create_vector_store_dispatch (Examples.settings_for "pinecone")
                MoreExamples.ext_down Examples.embedder Examples.world)
      as (Hpinecone & _).
    apply (Hpinecone eq_refl).
    right. split; [reflexivity |]. left. reflexivity.
  - split; [reflexivity |].
    destruct (create_vector_store_dispatch (Examples.settings_for "Chroma")
                Examples.ext_ok Examples.embedder Examples.world)
      as (_ & Hchroma & _).
    exact (Hchroma eq_refl).
  - split; [discriminate |]. split; [discriminate |].
    destruct (create_vector_store_dispatch (Examples.settings_for "faiss")
                Examples.ext_ok Examples.embedder Examples.world)
      as (_ & _ & Hother & _).
    rewrite Hother; [reflexivity | discriminate | discriminate].
Defined.

(** The remote store is selected whatever the case of the letters; with the
    default settings, which hold no API key, its constructor raises. *)
Example create_vector_store_pinecone :
  VectorStoreFactory.create_vector_store (Examples.settings_for "PineCone")
    Examples.ext_ok Examples.embedder Examples.world
  = (inr (Pinecone
            {| PineconeVectorStore.embedding_generator := Examples.embedder;
               PineconeVectorStore.index_name := "course-chatbot";
               PineconeVectorStore.vectorstore :=
                 LangchainPinecone "course-chatbot" |}),
     {| llm := Examples.handler;
        trace :=
          [Log INFO "Creating Pinecone vector store";
           PineconeClient "pc-key";
           PineconeListIndexes;
           Log INFO "Creating new Pinecone index: course-chatbot";
           PineconeCreateIndex "course-chatbot" 384 "cosine" "aws" "us-east-1";
           Log INFO "Created Pinecone index: course-chatbot";
           PineconeFromExistingIndex "course-chatbot";
           Log INFO "Initialized Pinecone vector store with index: course-chatbot"] |})
  ∧ VectorStoreFactory.create_vector_store default_settings
      Examples.ext_ok Examples.embedder Examples.world
    = (inl (ValueError "PINECONE_API_KEY is required"),
       {| llm := Examples.handler;
          trace := [Log INFO "Creating Pinecone vector store"] |}).
Proof. split; reflexivity. Qed.

End Factory.

(** ** Generation arguments and the handler's defaults *)

Section GenerateResponse.
Import PyStr Spec.

(** C8, as stated, fails: a supplied [max_tokens] of 0 and a supplied
    [temperature] of 0.0 do not reach the pipeline; the handler's defaults
    (512 and 0.7) are used. *)
Lemma generate_response_zero_override_counterexample :
  ∃ kwargs,
    trace (LLMHandler.generate_response Examples.ext_ok "Hi" (Some 0)
             (Some 0%float) Examples.world).2 = [PipeCall "Hi" kwargs]
    ∧ Kwargs.max_new_tokens kwargs = 512
    ∧ Kwargs.max_new_tokens kwargs ≠ 0
    ∧ Kwargs.temperature kwargs = 0.7%float
    ∧ PrimFloat.eqb (Kwargs.temperature kwargs) 0%float = false.
Proof. eexists. repeat split; reflexivity || discriminate. Qed.

(** C8, amended: the call leaves the handler as it was, and its one
    pipeline call carries a supplied [max_tokens] other than 0 and a
    supplied [temperature] other than 0.0 (or -0.0); when they are not
    supplied, or are zero, it carries the handler's defaults, and [top_p] is
    always the handler's.  After the call only error lines are logged.  A
    next call without arguments carries the defaults again. *)
Theorem generate_response_overrides (ext : Externals) (prompt : string)
    (max_tokens : option Z) (temperature : option float) (w : World) :
  let run := LLMHandler.generate_response ext prompt max_tokens temperature w in
  llm run.2 = llm w
  ∧ (∃ kwargs tail,
       trace run.2 = (trace w ++ PipeCall prompt kwargs :: tail)%list
       ∧ Forall (λ ev, ∃ msg, ev = Log ERROR msg) tail
       ∧ (∀ n, max_tokens = Some n → n ≠ 0 → Kwargs.max_new_tokens kwargs = n)
       ∧ (max_tokens = None ∨ max_tokens = Some 0 →
          Kwargs.max_new_tokens kwargs = Handler.max_tokens (llm w))
       ∧ (∀ v, temperature = Some v → PrimFloat.eqb v 0%float = false →
          Kwargs.temperature kwargs = v)
       ∧ (temperature = None
          ∨ (∃ v, temperature = Some v ∧ PrimFloat.eqb v 0%float = true) →
          Kwargs.temperature kwargs = Handler.temperature (llm w))
       ∧ Kwargs.top_p kwargs = Handler.top_p (llm w)
       ∧ Kwargs.do_sample kwargs = true)
  ∧ (∀ prompt', ∃ tail,
       trace (LLMHandler.generate_response ext prompt' None None run.2).2
       = (trace run.2
            ++ PipeCall prompt'
                 {| Kwargs.max_new_tokens := Handler.max_tokens (llm w);
                    Kwargs.temperature := Handler.temperature (llm w);
                    Kwargs.top_p := Handler.top_p (llm w);
                    Kwargs.do_sample := true |} :: tail)%list).
Proof.
  intros run.
  assert (llm run.2 = llm w) as Hllm.
  { subst run. rewrite generate_response_run. simpl.
    by destruct (ext_pipe ext _ _ _). }
  split; [done |]. split.
  - exists (LLMHandler.generation_kwargs (llm w) max_tokens temperature).
    subst run. rewrite generate_response_run. simpl.
    destruct (ext_pipe ext _ _ _) as [e|text]; simpl.
    + eexists. split; [by rewrite <- (assoc_L (++)) |].
      split; [repeat constructor; eauto |].
      clear. unfold LLMHandler.generation_kwargs, PyNum.or_int, PyNum.or_float,
        PyNum.float_truthy. simpl.
      repeat split.
      * intros n -> Hn. by destruct (Z.eqb_spec n 0).
      * by intros [-> | ->].
      * by intros v -> ->.
      * by intros [-> | (v & -> & ->)].
    + exists []. split; [done |]. split; [constructor |].
      clear. unfold LLMHandler.generation_kwargs, PyNum.or_int, PyNum.or_float,
        PyNum.float_truthy. simpl.
      repeat split.
      * intros n -> Hn. by destruct (Z.eqb_spec n 0).
      * by intros [-> | ->].
      * by intros v -> ->.
      * by intros [-> | (v & -> & ->)].
  - intros prompt'. rewrite generate_response_run. simpl. rewrite Hllm.
    unfold LLMHandler.generation_kwargs. simpl.
    destruct (ext_pipe ext _ _ _); simpl; eauto.
    eexists. by rewrite <- (assoc_L (++)).
Qed.

Lemma generate_response_overrides_witness :
  llm (LLMHandler.generate_response Examples.ext_ok "Hi" (Some 64)
         (Some 0.2%float) Examples.world).2 = Examples.handler
  ∧ trace (LLMHandler.generate_response Examples.ext_ok "Hi" (Some 64)
             (Some 0.2%float) Examples.world).2
    = [PipeCall "Hi"
         {| Kwargs.max_new_tokens := 64;
            Kwargs.temperature := 0.2%float;
            Kwargs.top_p := 0.9%float;
            Kwargs.do_sample := true |}]
  ∧ ∃ tail,
      trace (LLMHandler.generate_response Examples.ext_ok "Again" None None
               (LLMHandler.generate_response Examples.ext_ok "Hi" (Some 64)
                  (Some 0.2%float) Examples.world).2).2
      = (trace (LLMHandler.generate_response Examples.ext_ok "Hi" (Some 64)
                  (Some 0.2%float) Examples.world).2
           ++ PipeCall "Again"
                {| Kwargs.max_new_tokens := 512;
                   Kwargs.temperature := 0.7%float;
                   Kwargs.top_p := 0.9%float;
                   Kwargs.do_sample := true |} :: tail)%list.
Proof.
  destruct (generate_response_overrides Examples.ext_ok "Hi" (Some 64)
              (Some 0.2%float) Examples.world) as (Hllm & _ & Hnext).
  split; [exact Hllm |]. split; [reflexivity |]. exact (Hnext "Again").
Defined.

End GenerateResponse.

(** ** A query from its first log line to its last *)

Section QueryRun.
Import PyStr Spec.
Context (settings : Settings) (ext : Externals).

(** Every path of [query]: the search raises, the model raises, or both
    answer. *)
Lemma query_run (self : RAGChain.t) (question : string) (k : option Z)
    (filter : option Filter) (max_tokens : option Z)
    (temperature : option float) (w : World) :
  RAGChain.query settings ext self question k filter max_tokens temperature w =
  let vs := RAGChain.vector_store self in
  let k' := PyNum.or_int k (RETRIEVAL_TOP_K settings) in
  let w1 := record (Log INFO ("Processing query: " +:+ question)) w in
  let ws :=
    record (SimilaritySearchWithScore (store_handle vs) question k' filter) w1 in
  match ext_search_with_score ext (trace w1) (store_handle vs) question k' filter with
  | inl e =>
      (inl e,
       record (Log ERROR ("Error processing query: " +:+ exc_str e))
         (record (Log ERROR ("Error retrieving context: " +:+ exc_str e))
            (record (Log ERROR (search_error_prefix vs +:+ exc_str e)) ws)))
  | inr results =>
      let docs := RAGChain.filtered_results settings results in
      let context := RAGChain.format_context docs in
      let prompt :=
        LLMHandler.format_prompt (RAGChain.system_prompt self) question context in
      let kwargs := LLMHandler.generation_kwargs (llm w) max_tokens temperature in
      let w2 :=
        record (Log INFO ("Retrieved " +:+ pretty (length docs) +:+ " documents "
                          +:+ "(filtered from " +:+ pretty (length results)
                          +:+ " by similarity threshold)"))
          (record (Log INFO ("Retrieved " +:+ pretty (length results)
                             +:+ " documents with scores")) ws) in
      let wp := record (PipeCall prompt kwargs) w2 in
      match ext_pipe ext (trace w2) prompt kwargs with
      | inl e =>
          (inl e,
           record (Log ERROR ("Error processing query: " +:+ exc_str e))
             (record (Log ERROR ("Error generating answer: " +:+ exc_str e))
                (record (Log ERROR ("Error generating response: " +:+ exc_str e))
                   wp)))
      | inr text =>
          (inr {| RAGChain.answer :=
                    if startswith text prompt
                    then strip (drop (len prompt) text) else text;
                  RAGChain.context := context;
                  RAGChain.sources := RAGChain.source_entry <$> docs;
                  RAGChain.num_sources := length (RAGChain.source_entry <$> docs) |},
           record (Log INFO ("Successfully generated answer with "
                             +:+ pretty (length (RAGChain.source_entry <$> docs))
                             +:+ " sources")) wp)
      end
  end.
Proof.
  unfold RAGChain.query.
  unfold logged at 1, try_except at 1.
  unfold mbind at 1, M_bind at 1. unfold log_info at 1, emit at 1.
  unfold mbind at 1, M_bind at 1.
  rewrite retrieve_context_run. cbv zeta.
  destruct (ext_search_with_score ext _ _ _ _ _) as [e|results];
    [by unfold_monad |].
  unfold mbind at 1, M_bind at 1.
  rewrite generate_answer_run. cbv zeta.
  change (llm (record _ (record _ (record _ (record _ w))))) with (llm w).
  destruct (ext_pipe ext _ _ _) as [e|text]; by unfold_monad.
Qed.

End QueryRun.

(** ** Failures and effects of a query *)

Section QueryEffects.
Import PyStr Spec Observe.

Lemma record_eq (ev : Event) (w : World) :
  record ev w = {| llm := llm w; trace := trace w ++ [ev] |}.
Proof. reflexivity. Qed.

(** X1: a query raises exactly when the store search raises, or the search
    answers and the model call raises; the exception is the one the backend
    or the model raised, unchanged. *)
Theorem query_raises_iff (settings : Settings) (ext : Externals)
    (self : RAGChain.t) (question : string) (k : option Z)
    (filter : option Filter) (max_tokens : option Z)
    (temperature : option float) (w : World) (e : Exception) :
  (RAGChain.query settings ext self question k filter max_tokens temperature w).1
    = inl e
  ↔ ext_search_with_score ext
      (trace w ++ [Log INFO ("Processing query: " +:+ question)])%list
      (store_handle (RAGChain.vector_store self)) question
      (PyNum.or_int k (RETRIEVAL_TOP_K settings)) filter = inl e
    ∨ ∃ results,
        ext_search_with_score ext
          (trace w ++ [Log INFO ("Processing query: " +:+ question)])%list
          (store_handle (RAGChain.vector_store self)) question
          (PyNum.or_int k (RETRIEVAL_TOP_K settings)) filter = inr results
        ∧ ext_pipe ext
            (trace w ++ retrieval_events settings self question k filter results)%list
            (query_prompt settings self question results)
            (LLMHandler.generation_kwargs (llm w) max_tokens temperature) = inl e.
Proof.
  rewrite query_run. cbv zeta. rewrite !record_eq.
  unfold retrieval_events, query_prompt. simpl.
  destruct (ext_search_with_score ext _ _ _ _ _) as [e1|results]; simpl;
    repeat (rewrite <- (app_assoc (trace w)); simpl).
  - split; [intros [= ->]; by left |].
    intros [[= ->] | (results & [=] & _)]. done.
  - destruct (ext_pipe ext _ _ _) as [e2|text] eqn:Hpipe; simpl.
    + split.
      * intros [= ->]. right. exists results. by rewrite Hpipe.
      * intros [[=] | (results' & [= <-] & Hpipe')].
        rewrite Hpipe in Hpipe'. by injection Hpipe' as ->.
    + split; [done |].
      intros [[=] | (results' & [= <-] & Hpipe')].
      rewrite Hpipe in Hpipe'. done.
Qed.

(** X2: whatever happens, a query searches the store exactly once, with the
    defaulted [k], and leaves the handler as it was; it calls the model at
    most once: not at all when the search raises, and otherwise once, with
    the prompt built from the filtered results. *)
Theorem query_one_search_one_generation (settings : Settings) (ext : Externals)
    (self : RAGChain.t) (question : string) (k : option Z)
    (filter : option Filter) (max_tokens : option Z)
    (temperature : option float) (w : World) :
  let run :=
    RAGChain.query settings ext self question k filter max_tokens temperature w in
  llm run.2 = llm w
  ∧ searches (trace run.2)
    = (searches (trace w)
         ++ [(store_handle (RAGChain.vector_store self), question,
              PyNum.or_int k (RETRIEVAL_TOP_K settings), filter)])%list
  ∧ match ext_search_with_score ext
            (trace w ++ [Log INFO ("Processing query: " +:+ question)])%list
            (store_handle (RAGChain.vector_store self)) question
            (PyNum.or_int k (RETRIEVAL_TOP_K settings)) filter with
    | inl _ => pipe_calls (trace run.2) = pipe_calls (trace w)
    | inr results =>
        pipe_calls (trace run.2)
        = (pipe_calls (trace w)
             ++ [(query_prompt settings self question results,
                  LLMHandler.generation_kwargs (llm w) max_tokens temperature)])%list
    end.
Proof.
  intros run. subst run. rewrite query_run. cbv zeta. rewrite !record_eq.
  unfold query_prompt. simpl.
  destruct (ext_search_with_score ext _ _ _ _ _) as [e|results]; simpl.
  - unfold searches, pipe_calls. rewrite !omap_app. simpl.
    rewrite ?app_nil_r, <- ?app_assoc; done.
  - destruct (ext_pipe ext _ _ _) as [e|text]; simpl;
      unfold searches, pipe_calls; rewrite !omap_app; simpl;
      rewrite ?app_nil_r, <- ?app_assoc; done.
Qed.

(** X3: a query that returns logs no error line; a query that raises [e]
    logs three, each ending in [str(e)]: the line of the method that
    called out (the store wrapper or [generate_response]), the line of the
    chain method around it, and the line of [query]. *)
Theorem query_error_lines (settings : Settings) (ext : Externals)
    (self : RAGChain.t) (question : string) (k : option Z)
    (filter : option Filter) (max_tokens : option Z)
    (temperature : option float) (w : World) :
  let run :=
    RAGChain.query settings ext self question k filter max_tokens temperature w in
  match run.1 with
  | inr _ => error_lines (trace run.2) = error_lines (trace w)
  | inl e =>
      ∃ inner middle,
        error_lines (trace run.2)
        = (error_lines (trace w)
             ++ [inner +:+ exc_str e; middle +:+ exc_str e;
                 "Error processing query: " +:+ exc_str e])%list
        ∧ ((inner = search_error_prefix (RAGChain.vector_store self)
            ∧ middle = "Error retrieving context: ")
           ∨ (inner = "Error generating response: "
              ∧ middle = "Error generating answer: "))
  end.
Proof.
  intros run. subst run. rewrite query_run. cbv zeta. rewrite !record_eq. simpl.
  destruct (ext_search_with_score ext _ _ _ _ _) as [e|results]; simpl.
  - eexists _, _. split; [| left; done].
    unfold error_lines. rewrite !omap_app. simpl.
    rewrite ?app_nil_r, <- ?app_assoc; done.
  - destruct (ext_pipe ext _ _ _) as [e|text]; simpl.
    + eexists _, _. split; [| right; done].
      unfold error_lines. rewrite !omap_app. simpl.
      rewrite ?app_nil_r, <- ?app_assoc; done.
    + unfold error_lines. rewrite !omap_app. simpl. by rewrite ?app_nil_r.
Qed.

End QueryEffects.

(** ** The generated text and the prompt *)

Section Generation.
Import PyStr Spec Observe.

Lemma startswith_app (p rest : string) : startswith (p +:+ rest) p = true.
Proof.
  induction p as [|c p IH]; [by destruct rest |].
  rewrite string_app_cons. simpl. by rewrite Ascii.eqb_refl, IH.
Qed.

Lemma drop_app (p rest : string) : drop (len p) (p +:+ rest) = rest.
Proof.
  induction p as [|c p IH]; [by destruct rest |].
  rewrite string_app_cons. simpl. exact IH.
Qed.

Lemma lstrip_first (s : string) :
  from_option isspace false (first_char (lstrip s)) = false.
Proof.
  induction s as [|c s IH]; [done |]. simpl.
  destruct (isspace c) eqn:Hc; [exact IH | simpl; exact Hc].
Qed.

Lemma rstrip_first (s : string) :
  from_option isspace false (first_char s) = false →
  from_option isspace false (first_char (rstrip s)) = false.
Proof.
  destruct s as [|c s]; [done |]. simpl. intros Hc.
  destruct (rstrip s); [rewrite Hc |]; simpl; exact Hc.
Qed.

Lemma rstrip_last (s : string) :
  from_option isspace false (last_char (rstrip s)) = false.
Proof.
  induction s as [|c s IH]; [done |]. simpl.
  destruct (rstrip s) as [|c' r] eqn:Hr.
  - destruct (isspace c) eqn:Hc; [done | simpl; exact Hc].
  - exact IH.
Qed.

(** A stripped string neither starts nor ends with whitespace. *)
Lemma strip_no_surrounding_whitespace (s : string) :
  surrounding_whitespace (strip s) = false.
Proof.
  unfold surrounding_whitespace, strip.
  rewrite rstrip_first by apply lstrip_first. by rewrite rstrip_last.
Qed.

Lemma format_context_nonempty (documents : list Document) :
  ∃ c tail, RAGChain.format_context documents = String c tail.
Proof.
  destruct documents as [|doc rest]; [by eexists _, _ |].
  destruct (format_context_cons_first doc rest) as [tail ->]. eauto.
Qed.

(** X4: the context that [format_context] builds is never empty, so the
    prompt made from it always carries a context section, also when no
    document was retrieved; the template without context is never used for
    a query. *)
Theorem formatted_context_always_in_prompt (system_prompt user_message : string)
    (documents : list Document) :
  RAGChain.format_context documents ≠ ""
  ∧ LLMHandler.format_prompt system_prompt user_message
      (RAGChain.format_context documents)
    = system_header +:+ system_prompt
      +:+ context_section (RAGChain.format_context documents)
      +:+ user_header +:+ user_message +:+ assistant_header.
Proof.
  destruct (format_context_nonempty documents) as (c & tail & ->).
  split; [done |].
  unfold LLMHandler.format_prompt, truthy,
    system_header, user_header, assistant_header, context_section.
  by rewrite !string_app_assoc.
Qed.

(** X5: when the model echoes the prompt before its text, [generate_response]
    returns the text after the prompt with surrounding whitespace removed,
    so that the answer neither starts nor ends with whitespace; when the
    output does not start with the prompt, it is returned as it is. *)
Theorem generate_response_strips_echo (ext : Externals) (prompt : string)
    (max_tokens : option Z) (temperature : option float) (w : World)
    (text : string) :
  ext_pipe ext (trace w) prompt
    (LLMHandler.generation_kwargs (llm w) max_tokens temperature) = inr text →
  (∀ rest, text = prompt +:+ rest →
     (LLMHandler.generate_response ext prompt max_tokens temperature w).1
       = inr (strip rest)
     ∧ surrounding_whitespace (strip rest) = false)
  ∧ (startswith text prompt = false →
     (LLMHandler.generate_response ext prompt max_tokens temperature w).1
       = inr text).
Proof.
  intros Hpipe. rewrite generate_response_run. cbv zeta. rewrite Hpipe. simpl.
  split.
  - intros rest ->.
    rewrite startswith_app, drop_app.
    split; [done | apply strip_no_surrounding_whitespace].
  - by intros ->.
Qed.

Lemma generate_response_strips_echo_witness :
  ext_pipe Examples.ext_ok (trace Examples.world) "Hi"
    (LLMHandler.generation_kwargs (llm Examples.world) None None)
    = inr ("Hi" +:+ " Light becomes sugar. ")
  ∧ (LLMHandler.generate_response Examples.ext_ok "Hi" None None Examples.world).1
    = inr "Light becomes sugar."
  ∧ (startswith "I do not know." "Hi" = false →
     (LLMHandler.generate_response Examples.ext_empty "Hi" None None
        Examples.world).1 = inr "I do not know.").
Proof.
  split; [reflexivity |]. split.
  - destruct (generate_response_strips_echo Examples.ext_ok "Hi" None None
                Examples.world ("Hi" +:+ " Light becomes sugar. ") eq_refl)
      as [Hecho _].
    exact (proj1 (Hecho " Light becomes sugar. " eq_refl)).
  - destruct (generate_response_strips_echo Examples.ext_empty "Hi" None None
                Examples.world "I do not know." eq_refl) as [_ Hplain].
    exact Hplain.
Defined.

(** X6: no entry of a returned sources list holds more than 203
    characters, however long the documents are; an entry is longer than its
    document by at most two characters (a content of 201 characters becomes
    203). *)
Theorem query_sources_bounded (settings : Settings) (ext : Externals)
    (self : RAGChain.t) (question : string) (k : option Z)
    (filter : option Filter) (max_tokens : option Z)
    (temperature : option float) (w : World) (r : RAGChain.QueryResult) :
  (RAGChain.query settings ext self question k filter max_tokens temperature w).1
    = inr r →
  Forall (λ entry, (len (RAGChain.content entry) ≤ 203)%nat)
         (RAGChain.sources r)
  ∧ ∀ doc, (len (RAGChain.content (RAGChain.source_entry doc)) ≤ 203)%nat
           ∧ (len (RAGChain.content (RAGChain.source_entry doc))
              ≤ len (page_content doc) + 2)%nat.
Proof.
  assert (∀ doc, (len (RAGChain.content (RAGChain.source_entry doc)) ≤ 203)%nat
                 ∧ (len (RAGChain.content (RAGChain.source_entry doc))
                    ≤ len (page_content doc) + 2)%nat) as Hbound.
  { intros doc.
    destruct (Nat.le_gt_cases (len (page_content doc)) 200) as [Hle|Hgt].
    - rewrite (source_entry_short doc Hle). lia.
    - destruct (source_entry_long doc Hgt) as (_ & _ & _ & ->). lia. }
  intros Hrun. split; [| exact Hbound].
  destruct (query_inr _ _ _ _ _ _ _ _ _ _ Hrun) as (results & _ & _ & -> & _).
  apply Forall_fmap, Forall_forall. intros doc _. apply Hbound.
Qed.

Lemma query_sources_bounded_witness :
  (RAGChain.query default_settings Examples.ext_ok Examples.chain
     "What is alpha?" None None None None Examples.world).1
  = inr Examples.query_result
  ∧ Forall (λ entry, (len (RAGChain.content entry) ≤ 203)%nat)
           (RAGChain.sources Examples.query_result)
  ∧ len (RAGChain.content (RAGChain.source_entry Examples.doc_long)) = 203%nat.
Proof.
  split; [reflexivity |]. split; [| reflexivity].
  exact (proj1 (query_sources_bounded default_settings Examples.ext_ok
                  Examples.chain "What is alpha?" None None None None
                  Examples.world Examples.query_result eq_refl)).
Defined.

End Generation.

(** ** Construction of the Pinecone store *)

Section PineconeInit.
Import PyStr Spec Observe.

(** X7: without an API key ([None] or the empty string) the Pinecone store
    refuses to be built: [__init__] raises [ValueError] before anything
    else happens, no client is created and nothing is logged; through the
    factory, the only trace is the factory's own log line. *)
Theorem pinecone_requires_api_key (settings : Settings) (ext : Externals)
    (embedding_generator : EmbeddingGenerator) (w : World) :
  PINECONE_API_KEY settings = None ∨ PINECONE_API_KEY settings = Some "" →
  PineconeVectorStore.__init__ settings ext embedding_generator w
    = (inl (ValueError "PINECONE_API_KEY is required"), w)
  ∧ (lower (VECTOR_STORE settings) = "pinecone" →
     VectorStoreFactory.create_vector_store settings ext embedding_generator w
       = (inl (ValueError "PINECONE_API_KEY is required"),
          record (Log INFO "Creating Pinecone vector store") w)).
Proof.
  intros Hkey.
  assert (∀ w', PineconeVectorStore.__init__ settings ext embedding_generator w'
                = (inl (ValueError "PINECONE_API_KEY is required"), w')) as Hinit.
  { intros w'. unfold PineconeVectorStore.__init__.
    by destruct Hkey as [-> | ->]. }
  split; [apply Hinit |].
  intros Htype. unfold VectorStoreFactory.create_vector_store.
  rewrite Htype. simpl. unfold_monad. by rewrite Hinit.
Qed.

Lemma pinecone_requires_api_key_witness :
  (PINECONE_API_KEY default_settings = None
   ∨ PINECONE_API_KEY default_settings = Some "")
  ∧ lower (VECTOR_STORE default_settings) = "pinecone"
  ∧ VectorStoreFactory.create_vector_store default_settings Examples.ext_ok
      Examples.embedder Examples.world
    = (inl (ValueError "PINECONE_API_KEY is required"),
       record (Log INFO "Creating Pinecone vector store") Examples.world).
Proof.
  split; [by left |]. split; [reflexivity |].
  exact (proj2 (pinecone_requires_api_key default_settings Examples.ext_ok
                  Examples.embedder Examples.world (or_introl eq_refl)) eq_refl).
Defined.

(** X8: building the Pinecone store creates the index only when the
    account does not list it, and then with the configured name and
    dimension, the cosine metric, and the configured region or
    ["us-east-1"] when none is configured; an index that is listed is
    never created again. *)
Theorem pinecone_index_created_when_absent (settings : Settings) (ext : Externals)
    (embedding_generator : EmbeddingGenerator) (w : World)
    (c : ascii) (key : string) (names : list string) :
  PINECONE_API_KEY settings = Some (String c key) →
  ext_pinecone_client ext (trace w) (String c key) = inr tt →
  ext_list_indexes ext (trace w ++ [PineconeClient (String c key)])%list
    = inr names →
  created_indexes
    (trace (PineconeVectorStore.__init__ settings ext embedding_generator w).2)
  = (created_indexes (trace w)
       ++ if bool_decide (PINECONE_INDEX_NAME settings ∈ names) then []
          else [(PINECONE_INDEX_NAME settings, EMBEDDING_DIMENSION settings,
                 "cosine", "aws",
                 match PINECONE_ENVIRONMENT settings with
                 | Some (String r region) => String r region
                 | _ => "us-east-1"
                 end)])%list.
Proof.
  intros Hkey Hclient Hlist.
  rewrite (pinecone_init_run _ _ _ _ _ _ Hkey). cbv zeta.
  rewrite Hclient. rewrite record_eq at 1. simpl trace at 1. rewrite Hlist.
  assert (PyNum.or_str (PINECONE_ENVIRONMENT settings) "us-east-1"
          = match PINECONE_ENVIRONMENT settings with
            | Some (String r region) => String r region
            | _ => "us-east-1"
            end) as ->.
  { unfold PyNum.or_str. by destruct (PINECONE_ENVIRONMENT settings) as [[|??]|]. }
  destruct (bool_decide _); unfold pinecone_attach.
  - destruct (ext_from_existing_index ext _ _); simpl;
      unfold created_indexes; rewrite !omap_app; simpl;
      by rewrite ?app_nil_r.
  - destruct (ext_create_index ext _ _ _ _ _ _); simpl;
      [| destruct (ext_from_existing_index ext _ _); simpl];
      unfold created_indexes; rewrite !omap_app; simpl;
      rewrite ?app_nil_r, <- ?app_assoc; done.
Qed.

Lemma pinecone_index_created_when_absent_witness :
  created_indexes
    (trace (PineconeVectorStore.__init__ (Examples.settings_for "pinecone")
              Examples.ext_ok Examples.embedder Examples.world).2)
  = [("course-chatbot", 384, "cosine", "aws", "us-east-1")]
  ∧ created_indexes
      (trace (PineconeVectorStore.__init__ (Examples.settings_for "pinecone")
                MoreExamples.ext_existing_index Examples.embedder
                Examples.world).2)
    = [].
Proof.
  split.
  - exact (pinecone_index_created_when_absent (Examples.settings_for "pinecone")
             Examples.ext_ok Examples.embedder Examples.world
             "p" "c-key" ["other-index"] eq_refl eq_refl eq_refl).
  - exact (pinecone_index_created_when_absent (Examples.settings_for "pinecone")
             MoreExamples.ext_existing_index Examples.embedder Examples.world
             "p" "c-key" ["other-index"; "course-chatbot"]
             eq_refl eq_refl eq_refl).
Defined.

(** The last line logged by the constructor, and its error lines. *)
Lemma pinecone_init_log (settings : Settings) (ext : Externals)
    (embedding_generator : EmbeddingGenerator) (w : World)
    (c : ascii) (key : string) :
  PINECONE_API_KEY settings = Some (String c key) →
  let run := PineconeVectorStore.__init__ settings ext embedding_generator w in
  match run.1 with
  | inr store =>
      last (trace run.2)
      = Some (Log INFO ("Initialized Pinecone vector store with index: "
                        +:+ PINECONE_INDEX_NAME settings))
      ∧ error_lines (trace run.2) = error_lines (trace w)
  | inl e =>
      last (trace run.2)
      = Some (Log ERROR ("Error initializing Pinecone: " +:+ exc_str e))
  end.
Proof.
  intros Hkey run. subst run.
  rewrite (pinecone_init_run _ _ _ _ _ _ Hkey). cbv zeta.
  assert (∀ w', match (pinecone_attach ext embedding_generator
                         (PINECONE_INDEX_NAME settings) w').1 with
                | inr store =>
                    last (trace (pinecone_attach ext embedding_generator
                                   (PINECONE_INDEX_NAME settings) w').2)
                    = Some (Log INFO
                              ("Initialized Pinecone vector store with index: "
                               +:+ PINECONE_INDEX_NAME settings))
                    ∧ error_lines (trace (pinecone_attach ext embedding_generator
                                            (PINECONE_INDEX_NAME settings) w').2)
                      = error_lines (trace w')
                | inl e =>
                    last (trace (pinecone_attach ext embedding_generator
                                   (PINECONE_INDEX_NAME settings) w').2)
                    = Some (Log ERROR ("Error initializing Pinecone: "
                                       +:+ exc_str e))
                end) as Hattach.
  { intros w'. unfold pinecone_attach.
    destruct (ext_from_existing_index ext _ _); simpl.
    - apply last_snoc.
    - split; [apply last_snoc |].
      unfold error_lines. rewrite !omap_app. simpl. by rewrite !app_nil_r. }
  destruct (ext_pinecone_client ext _ _); [apply last_snoc |].
  destruct (ext_list_indexes ext _); [apply last_snoc |].
  destruct (bool_decide _).
  - specialize (Hattach
      (record (Log INFO ("Using existing Pinecone index: "
                         +:+ PINECONE_INDEX_NAME settings))
         (record PineconeListIndexes
            (record (PineconeClient (String c key)) w)))).
    destruct (pinecone_attach _ _ _ _) as [[e|store] w']; simpl in *; [done |].
    destruct Hattach as (-> & ->). repeat split.
    unfold error_lines. rewrite !omap_app. simpl. by rewrite !app_nil_r.
  - destruct (ext_create_index ext _ _ _ _ _ _); [apply last_snoc |].
    match goal with
    | |- context [pinecone_attach _ _ _ ?w0] => specialize (Hattach w0)
    end.
    destruct (pinecone_attach _ _ _ _) as [[e|store] w']; simpl in *; [done |].
    destruct Hattach as (-> & ->). repeat split.
    unfold error_lines. rewrite !omap_app. simpl. by rewrite !app_nil_r.
Qed.

(** X9: with an API key, [__init__] returns a store exactly when every
    call to Pinecone answered (the client, the listing, the creation of an
    unlisted index, the attachment), and then the store is attached to the
    configured index, no error line is logged and the last line logged
    says so; it raises [e] exactly when the first call that raises, raises
    [e], and then the last line logged is the error line of the
    constructor with the text of [e]. *)
Theorem pinecone_init_outcome (settings : Settings) (ext : Externals)
    (embedding_generator : EmbeddingGenerator) (w : World)
    (c : ascii) (key : string) :
  PINECONE_API_KEY settings = Some (String c key) →
  let run := PineconeVectorStore.__init__ settings ext embedding_generator w in
  (StoreSpec.pinecone_answers settings ext (trace w) (String c key)
   ↔ run.1 = inr {| PineconeVectorStore.embedding_generator := embedding_generator;
                    PineconeVectorStore.index_name := PINECONE_INDEX_NAME settings;
                    PineconeVectorStore.vectorstore :=
                      LangchainPinecone (PINECONE_INDEX_NAME settings) |})
  ∧ (∀ e, StoreSpec.pinecone_raises settings ext (trace w) (String c key) e
          ↔ run.1 = inl e)
  ∧ match run.1 with
    | inr store =>
        last (trace run.2)
        = Some (Log INFO ("Initialized Pinecone vector store with index: "
                          +:+ PINECONE_INDEX_NAME settings))
        ∧ error_lines (trace run.2) = error_lines (trace w)
    | inl e =>
        last (trace run.2)
        = Some (Log ERROR ("Error initializing Pinecone: " +:+ exc_str e))
    end.
Proof.
  intros Hkey run.
  destruct (pinecone_init_iff settings ext embedding_generator w c key Hkey)
    as (Hanswers & Hraises).
  split; [exact Hanswers |]. split; [exact Hraises |].
  exact (pinecone_init_log settings ext embedding_generator w c key Hkey).
Qed.

Lemma pinecone_init_outcome_witness :
  PINECONE_API_KEY (Examples.settings_for "pinecone") = Some "pc-key"
  ∧ (PineconeVectorStore.__init__ (Examples.settings_for "pinecone")
       MoreExamples.ext_down Examples.embedder Examples.world).1
    = inl {| exc_type := "PineconeException"; exc_str := "unreachable" |}
  ∧ (PineconeVectorStore.__init__ (Examples.settings_for "pinecone")
       MoreExamples.ext_existing_index Examples.embedder Examples.world).1
    = inr {| PineconeVectorStore.embedding_generator := Examples.embedder;
             PineconeVectorStore.index_name := "course-chatbot";
             PineconeVectorStore.vectorstore :=
               LangchainPinecone "course-chatbot" |}.
Proof.
  split; [reflexivity |]. split.
  - apply (pinecone_init_outcome (Examples.settings_for "pinecone")
             MoreExamples.ext_down Examples.embedder Examples.world
             "p" "c-key" eq_refl).
    right. split; [reflexivity |]. left. reflexivity.
  - apply (pinecone_init_outcome (Examples.settings_for "pinecone")
             MoreExamples.ext_existing_index Examples.embedder Examples.world
             "p" "c-key" eq_refl).
    split; [reflexivity |]. exists ["other-index"; "course-chatbot"].
    split; reflexivity.
Defined.

End PineconeInit.

(** ** The rate limiter *)

Section RateLimiterFacts.
Import RateLimiter.
Context (settings : ApiSettings).

Lemma recent_length (window_start : float) (times : list float) :
  (length (recent window_start times) ≤ length times)%nat.
Proof.
  induction times as [|t rest IH]; [done |]. simpl.
  destruct (PrimFloat.ltb window_start t); simpl; lia.
Qed.

Lemma recent_sublist (window_start : float) (times : list float) :
  recent window_start times `sublist_of` times.
Proof.
  induction times as [|t rest IH]; [done |]. simpl.
  destruct (PrimFloat.ltb window_start t); by constructor.
Qed.

Lemma recent_all_in_window (window_start : float) (times : list float) :
  Forall (λ t, PrimFloat.ltb window_start t = true) (recent window_start times).
Proof.
  induction times as [|t rest IH]; [constructor |]. simpl.
  destruct (PrimFloat.ltb window_start t) eqn:Ht; [by constructor | done].
Qed.

Lemma requests_of_insert (requests : gmap string (list float))
    (client_id : string) (times : list float) :
  requests_of (<[client_id := times]> requests) client_id = times.
Proof. unfold requests_of. by rewrite lookup_insert_eq. Qed.

Lemma requests_of_insert_ne (requests : gmap string (list float))
    (client_id other : string) (times : list float) :
  client_id ≠ other →
  requests_of (<[client_id := times]> requests) other = requests_of requests other.
Proof. intros Hne. unfold requests_of. by rewrite lookup_insert_ne. Qed.

(** The two outcomes of [is_allowed] when the limiter is enabled and the
    period converts to a float. *)
Lemma is_allowed_enabled (now period : float)
    (requests : gmap string (list float)) (client_id : string) :
  RATE_LIMIT_ENABLED settings = true →
  float_of_int (RATE_LIMIT_PERIOD settings) = inr period →
  let window_start := PrimFloat.sub now period in
  let kept := recent window_start (requests_of requests client_id) in
  is_allowed settings now requests client_id
  = if Z.geb (Z.of_nat (length kept)) (RATE_LIMIT_REQUESTS settings)
    then (inr false, <[client_id := kept]> requests)
    else (inr true, <[client_id := (kept ++ [now])%list]> requests).
Proof.
  intros Henabled Hperiod. unfold is_allowed. rewrite Henabled, Hperiod. simpl.
  rewrite requests_of_insert.
  destruct (Z.geb _ _); [done |]. by rewrite insert_insert_eq.
Qed.

(** The outcome of [is_allowed] when the period does not convert. *)
Lemma is_allowed_overflow (now : float) (e : Exception)
    (requests : gmap string (list float)) (client_id : string) :
  RATE_LIMIT_ENABLED settings = true →
  float_of_int (RATE_LIMIT_PERIOD settings) = inl e →
  is_allowed settings now requests client_id = (inl e, requests).
Proof.
  intros Henabled Hperiod. unfold is_allowed. by rewrite Henabled, Hperiod.
Qed.

Lemma is_allowed_keeps_bound (now : float) (requests : gmap string (list float))
    (client_id : string) :
  (∀ c, (Z.of_nat (length (requests_of requests c))
         ≤ Z.max 0 (RATE_LIMIT_REQUESTS settings))%Z) →
  ∀ c, (Z.of_nat (length (requests_of
                            (is_allowed settings now requests client_id).2 c))
        ≤ Z.max 0 (RATE_LIMIT_REQUESTS settings))%Z.
Proof.
  intros Hbound c.
  destruct (RATE_LIMIT_ENABLED settings) eqn:Henabled.
  - destruct (float_of_int (RATE_LIMIT_PERIOD settings)) as [e|period] eqn:Hperiod.
    { rewrite (is_allowed_overflow now e requests client_id Henabled Hperiod).
      apply Hbound. }
    rewrite (is_allowed_enabled now period requests client_id Henabled Hperiod).
    cbv zeta.
    pose proof (recent_length (PrimFloat.sub now period)
                  (requests_of requests client_id)) as Hlen.
    specialize (Hbound client_id) as Hclient.
    destruct (Z.geb_spec
                (Z.of_nat (length (recent (PrimFloat.sub now period)
                                     (requests_of requests client_id))))
                (RATE_LIMIT_REQUESTS settings)) as [Hge|Hlt]; simpl;
      destruct (decide (client_id = c)) as [<-|Hne];
      rewrite ?requests_of_insert, ?(requests_of_insert_ne _ _ _ _ Hne);
      try apply Hbound; try lia.
    rewrite length_app. simpl. lia.
  - unfold is_allowed. rewrite Henabled. simpl. apply Hbound.
Qed.

(** X10: from a fresh limiter, after any requests at any times, no client
    has more timestamps recorded than [RATE_LIMIT_REQUESTS] allows (none
    when that number is negative). *)
Theorem rate_limiter_bound (arrivals : list (float * string))
    (client_id : string) :
  (Z.of_nat (length (requests_of (serve settings arrivals ∅).2 client_id))
   ≤ Z.max 0 (RATE_LIMIT_REQUESTS settings))%Z.
Proof.
  assert (∀ requests,
            (∀ c, (Z.of_nat (length (requests_of requests c))
                   ≤ Z.max 0 (RATE_LIMIT_REQUESTS settings))%Z) →
            ∀ c, (Z.of_nat (length (requests_of
                                      (serve settings arrivals requests).2 c))
                  ≤ Z.max 0 (RATE_LIMIT_REQUESTS settings))%Z) as Hinv.
  { induction arrivals as [|[now c0] rest IH]; intros requests Hbound c;
      [apply Hbound |].
    simpl.
    pose proof (is_allowed_keeps_bound now requests c0 Hbound) as Hstep.
    destruct (is_allowed settings now requests c0) as [allowed requests'].
    specialize (IH requests' Hstep c).
    by destruct (serve settings rest requests'). }
  apply Hinv. intros c. unfold requests_of. rewrite lookup_empty. simpl. lia.
Qed.

(** X11: a request touches the record of its own client only, and whether
    it is allowed depends on that record alone. *)
Theorem rate_limiter_isolated (now : float)
    (requests requests' : gmap string (list float)) (client_id : string) :
  requests_of requests client_id = requests_of requests' client_id →
  (is_allowed settings now requests client_id).1
    = (is_allowed settings now requests' client_id).1
  ∧ requests_of (is_allowed settings now requests client_id).2 client_id
    = requests_of (is_allowed settings now requests' client_id).2 client_id
  ∧ ∀ other, other ≠ client_id →
      (is_allowed settings now requests client_id).2 !! other
      = requests !! other.
Proof.
  intros Hsame.
  destruct (RATE_LIMIT_ENABLED settings) eqn:Henabled.
  - destruct (float_of_int (RATE_LIMIT_PERIOD settings)) as [e|period] eqn:Hperiod.
    { by rewrite !(is_allowed_overflow now e _ client_id Henabled Hperiod). }
    rewrite !(is_allowed_enabled now period _ client_id Henabled Hperiod).
    cbv zeta. rewrite <- Hsame.
    destruct (Z.geb _ _); simpl; rewrite !requests_of_insert;
      (split; [done |]; split; [done |]);
      intros other Hne; by rewrite lookup_insert_ne.
  - unfold is_allowed. rewrite Henabled. simpl. done.
Qed.

End RateLimiterFacts.

Section RateLimiterRefusal.
Import RateLimiter.

Lemma rate_limiter_isolated_witness :
  requests_of ApiExamples.recorded "alice"
    = requests_of (delete "bob" ApiExamples.recorded) "alice"
  ∧ (is_allowed ApiExamples.tight 150%float ApiExamples.recorded "alice").1
    = (is_allowed ApiExamples.tight 150%float
         (delete "bob" ApiExamples.recorded) "alice").1
  ∧ (is_allowed ApiExamples.tight 150%float ApiExamples.recorded "alice").2
      !! "bob" = Some [120%float].
Proof.
  assert (requests_of ApiExamples.recorded "alice"
          = requests_of (delete "bob" ApiExamples.recorded) "alice") as Hsame
    by reflexivity.
  destruct (rate_limiter_isolated ApiExamples.tight 150%float ApiExamples.recorded
              (delete "bob" ApiExamples.recorded) "alice" Hsame)
    as (Hdecision & _ & Hother).
  split; [exact Hsame |]. split; [exact Hdecision |].
  rewrite (Hother "bob"); [reflexivity | discriminate].
Defined.

(** The conversion is the exact one also beyond [2^63], and fails beyond
    the largest float. *)
Example float_of_int_examples :
  float_of_int 60 = inr 60%float
  ∧ float_of_int (-60) = inr (-60)%float
  ∧ float_of_int (2 ^ 63) = inr 9223372036854775808%float
  ∧ float_of_int (2 ^ 53 + 1) = inr 9007199254740992%float
  ∧ float_of_int (2 ^ 1024 - 2 ^ 970 - 1) = inr 0x1.fffffffffffffp+1023%float
  ∧ float_of_int (2 ^ 1024 - 2 ^ 970)
    = inl (OverflowError "int too large to convert to float").
Proof. vm_compute. done. Qed.

(** X12: a request that the limiter does not admit is not recorded.  When
    the period converts to a float, such a request is refused with status
    429: the client's record only loses the timestamps that left the
    window, so refused requests never prolong the refusal, and what stays
    recorded lies inside the window and fills the quota.  When the period
    is beyond the largest float, the subtraction raises [OverflowError]
    and the records are as they were. *)
Theorem rate_limiter_refusal_not_recorded (settings : ApiSettings) (now : float)
    (requests : gmap string (list float)) (client_id : string) :
  (rate_limiter settings now requests client_id).1 ≠ inr tt →
  let after := (rate_limiter settings now requests client_id).2 in
  RATE_LIMIT_ENABLED settings = true
  ∧ requests_of after client_id `sublist_of` requests_of requests client_id
  ∧ match float_of_int (RATE_LIMIT_PERIOD settings) with
    | inr period =>
        (rate_limiter settings now requests client_id).1
        = inl (Http {| status_code := 429;
                       detail := "Rate limit exceeded. Maximum "
                                 +:+ pretty (RATE_LIMIT_REQUESTS settings)
                                 +:+ " requests per "
                                 +:+ pretty (RATE_LIMIT_PERIOD settings)
                                 +:+ " seconds." |})
        ∧ Forall (λ t, PrimFloat.ltb (PrimFloat.sub now period) t = true)
            (requests_of after client_id)
        ∧ (RATE_LIMIT_REQUESTS settings
           ≤ Z.of_nat (length (requests_of after client_id)))%Z
    | inl e =>
        (rate_limiter settings now requests client_id).1 = inl (Other e)
        ∧ e = OverflowError "int too large to convert to float"
        ∧ after = requests
    end.
Proof.
  unfold rate_limiter.
  destruct (RATE_LIMIT_ENABLED settings) eqn:Henabled.
  - destruct (float_of_int (RATE_LIMIT_PERIOD settings)) as [e|period] eqn:Hperiod.
    { rewrite (is_allowed_overflow settings now e requests client_id
                 Henabled Hperiod). simpl. intros _.
      split; [done |]. split; [done |]. split; [done |]. split; [| done].
      unfold float_of_int in Hperiod.
      destruct (binary_normalize _ _ _ _ _); congruence. }
    rewrite (is_allowed_enabled settings now period requests client_id
               Henabled Hperiod).
    cbv zeta.
    destruct (Z.geb_spec
                (Z.of_nat (length (recent (PrimFloat.sub now period)
                                     (requests_of requests client_id))))
                (RATE_LIMIT_REQUESTS settings)) as [Hge|Hlt]; simpl; [| done].
    intros _. rewrite requests_of_insert.
    split; [done |]. split; [apply recent_sublist |]. split; [reflexivity |].
    split; [apply recent_all_in_window | lia].
  - unfold is_allowed. rewrite Henabled. simpl. done.
Qed.

Lemma rate_limiter_refusal_not_recorded_witness :
  (rate_limiter ApiExamples.tight 150%float ApiExamples.recorded "alice").1
    ≠ inr tt
  ∧ (rate_limiter ApiExamples.tight 150%float ApiExamples.recorded "alice").1
    = inl (Http {| status_code := 429;
                   detail := "Rate limit exceeded. Maximum 2 requests per 60 seconds." |})
  ∧ requests_of
      (rate_limiter ApiExamples.tight 150%float ApiExamples.recorded "alice").2
      "alice" = [100%float; 130%float]
  ∧ (rate_limiter ApiExamples.tight 170%float ApiExamples.recorded "alice")
    = (inr tt,
       {[ "alice" := [130%float; 170%float]; "bob" := [120%float] ]}).
Proof.
  assert ((rate_limiter ApiExamples.tight 150%float ApiExamples.recorded
             "alice").1 ≠ inr tt) as Hrefused by (vm_compute; discriminate).
  split; [exact Hrefused |].
  destruct (rate_limiter_refusal_not_recorded ApiExamples.tight 150%float
              ApiExamples.recorded "alice" Hrefused) as (_ & _ & Hstatus & _).
  split; [exact Hstatus |]. split; [reflexivity |].
  vm_compute. reflexivity.
Defined.

(** With a period of [2^63] seconds nothing leaves the window, so a third
    request is refused and both timestamps stay; with a period beyond the
    largest float the request fails and nothing is recorded. *)
Example rate_limiter_long_periods :
  rate_limiter ApiExamples.long_period 150%float ApiExamples.recorded "alice"
  = (inl (Http {| status_code := 429;
                  detail := "Rate limit exceeded. Maximum 2 requests per "
                            +:+ "9223372036854775808 seconds." |}),
     ApiExamples.recorded)
  ∧ rate_limiter ApiExamples.endless_period 150%float ApiExamples.recorded "alice"
    = (inl (Other (OverflowError "int too large to convert to float")),
       ApiExamples.recorded).
Proof. vm_compute. done. Qed.

End RateLimiterRefusal.

(** ** The API key check and the query endpoint *)

Section ApiFacts.
Import PyStr Spec Observe.

(** X13: with authentication switched on, a request passes exactly when
    it carries a non-empty key equal to the configured one; a missing or
    empty key is answered with 401 and any other key with 403.  So when no
    key (or the empty key) is configured, no request passes.  With
    authentication switched off every request passes. *)
Theorem verify_api_key_decision (api_settings : ApiSettings)
    (api_key : option string) :
  (Api.verify_api_key api_settings api_key = inr tt
   ↔ API_KEY_ENABLED api_settings = false
     ∨ ∃ key, key ≠ "" ∧ api_key = Some key ∧ API_KEY api_settings = Some key)
  ∧ (API_KEY_ENABLED api_settings = true →
     (api_key = None ∨ api_key = Some "" →
      Api.verify_api_key api_settings api_key
        = inl {| status_code := 401; detail := "API key is required" |})
     ∧ (∀ key, api_key = Some key → key ≠ "" →
        API_KEY api_settings ≠ Some key →
        Api.verify_api_key api_settings api_key
          = inl {| status_code := 403; detail := "Invalid API key" |})
     ∧ (API_KEY api_settings = None ∨ API_KEY api_settings = Some "" →
        Api.verify_api_key api_settings api_key ≠ inr tt)).
Proof.
  unfold Api.verify_api_key.
  destruct (API_KEY_ENABLED api_settings); simpl.
  - split.
    + destruct api_key as [[|c key]|].
      * split; [done |]. intros [[=] | (key & Hkey & [= <-] & _)]. done.
      * destruct (bool_decide_reflect
                    (Some (String c key) = API_KEY api_settings)) as [Heq|Hne];
          simpl.
        -- split; [| done]. intros _. right. by exists (String c key).
        -- split; [done |].
           intros [[=] | (key' & _ & [= <-] & Hconf)]. by rewrite Hconf in Hne.
      * split; [done |]. intros [[=] | (key & _ & [=] & _)].
    + intros _. split; [by intros [-> | ->] |]. split.
      * intros key -> Hkey Hne. destruct key as [|c key]; [done |].
        rewrite bool_decide_false; [done | congruence].
      * intros Hconf. destruct api_key as [[|c key]|]; try done.
        rewrite bool_decide_false; [done |].
        destruct Hconf as [-> | ->]; congruence.
  - split; [| done]. split; [by left | done].
Qed.

Lemma verify_api_key_decision_witness :
  API_KEY_ENABLED ApiExamples.keyless = true
  ∧ (API_KEY ApiExamples.keyless = None ∨ API_KEY ApiExamples.keyless = Some "")
  ∧ Api.verify_api_key ApiExamples.keyless (Some "anything") ≠ inr tt
  ∧ Api.verify_api_key ApiExamples.tight (Some "s3cret") = inr tt
  ∧ Api.verify_api_key ApiExamples.tight (Some "S3cret")
    = inl {| status_code := 403; detail := "Invalid API key" |}
  ∧ Api.verify_api_key ApiExamples.tight None
    = inl {| status_code := 401; detail := "API key is required" |}.
Proof.
  split; [reflexivity |]. split; [by left |].
  split.
  - exact (proj2 (proj2 (proj2 (verify_api_key_decision ApiExamples.keyless
                                  (Some "anything")) eq_refl))
             (or_introl eq_refl)).
  - repeat split; reflexivity.
Defined.

(** X14: the query endpoint never lets an exception of the chain through:
    when the chain raises [e] the endpoint logs one more error line and
    answers with status 500 and the detail
    ["Error processing query: " + str(e)]; when the chain returns, the
    response carries its answer and sources, without the context, and its
    [num_sources] is the length of [sources]. *)
Theorem query_chatbot_outcome (settings : Settings) (ext : Externals)
    (request : Api.QueryRequest) (rag_chain : RAGChain.t) (w : World) :
  let run := Api.query_chatbot settings ext request rag_chain w in
  let chain_run :=
    RAGChain.query settings ext rag_chain (Api.question request) (Api.k request)
      None (Api.max_tokens request) (Api.temperature request)
      (record (Log INFO ("Received query: " +:+ Api.question request)) w) in
  match chain_run.1 with
  | inl e =>
      run.1 = inl {| status_code := 500;
                     detail := "Error processing query: " +:+ exc_str e |}
      ∧ error_lines (trace run.2)
        = (error_lines (trace chain_run.2)
             ++ ["Error processing query: " +:+ exc_str e])%list
  | inr result =>
      run = (inr {| Api.answer := RAGChain.answer result;
                    Api.sources := RAGChain.sources result;
                    Api.num_sources := length (RAGChain.sources result) |},
             chain_run.2)
  end.
Proof.
  intros run chain_run. subst run chain_run. unfold Api.query_chatbot.
  unfold mbind, M_bind, log_info, emit.
  destruct (RAGChain.query _ _ _ _ _ _ _ _ _) as [[e|result] w'] eqn:Hrun;
    simpl.
  - split; [done |].
    unfold error_lines. by rewrite omap_app.
  - assert ((RAGChain.query settings ext rag_chain (Api.question request)
               (Api.k request) None (Api.max_tokens request)
               (Api.temperature request)
               (record (Log INFO ("Received query: " +:+ Api.question request))
                  w)).1 = inr result) as Hfst by (by rewrite Hrun).
    destruct (query_inr _ _ _ _ _ _ _ _ _ _ Hfst) as (_ & _ & _ & _ & ->).
    done.
Qed.

Lemma query_chatbot_outcome_witness :
  (Api.query_chatbot default_settings MoreExamples.ext_down ApiExamples.request
     Examples.chain Examples.world).1
  = inl {| status_code := 500;
           detail := "Error processing query: store is down" |}
  ∧ (Api.query_chatbot default_settings Examples.ext_ok ApiExamples.request
       Examples.chain Examples.world).1
    = inr {| Api.answer := "Light becomes sugar.";
             Api.sources := RAGChain.sources Examples.query_result;
             Api.num_sources := 3 |}.
Proof.
  split.
  - exact (proj1 (query_chatbot_outcome default_settings MoreExamples.ext_down
                    ApiExamples.request Examples.chain Examples.world)).
  - exact (f_equal fst
             (query_chatbot_outcome default_settings Examples.ext_ok
                ApiExamples.request Examples.chain Examples.world)).
Defined.

End ApiFacts.

(** ** The chunker *)

Ltac unfold_io :=
  unfold Ingest.logged, Ingest.try_except, Ingest.call, Ingest.log_info,
    Ingest.log_error, Ingest.raise, mbind, Ingest.IO_bind, mret, Ingest.IO_ret.

Section Chunker.
Import PyStr Ingest.

Lemma stamp_chunks_length (i : nat) (chunks : list Document) :
  length (DocumentChunker.stamp_chunks i chunks) = length chunks.
Proof.
  revert i; induction chunks as [|chunk rest IH]; intros i; [done |].
  simpl. by rewrite IH.
Qed.

Lemma stamp_chunks_lookup (i j : nat) (chunks : list Document) (chunk : Document) :
  chunks !! j = Some chunk →
  DocumentChunker.stamp_chunks i chunks !! j
  = Some {| page_content := page_content chunk;
            metadata :=
              <["chunk_size" := MInt (Z.of_nat (len (page_content chunk)))]>
                (<["chunk_id" := MInt (Z.of_nat (i + j))]> (metadata chunk)) |}.
Proof.
  revert i j; induction chunks as [|c rest IH]; intros i j Hj; [done |].
  destruct j as [|j]; simpl in *.
  - injection Hj as ->. by rewrite Nat.add_0_r.
  - rewrite (IH (S i) j Hj). by rewrite Nat.add_succ_r.
Qed.

Lemma chunk_documents_run (ext : Oracles) (self : DocumentChunker.t)
    (documents : list Document) (tr : list IEvent) :
  DocumentChunker.chunk_documents ext self documents tr =
  let ev := SplitDocuments (DocumentChunker.chunk_size self)
              (DocumentChunker.chunk_overlap self) documents in
  match ext_split_documents ext tr (DocumentChunker.chunk_size self)
          (DocumentChunker.chunk_overlap self) documents with
  | inr chunks =>
      (inr (DocumentChunker.stamp_chunks 0 chunks),
       (tr ++ [ev;
               ILog INFO ("Split " +:+ pretty (length documents)
                          +:+ " documents into "
                          +:+ pretty (length (DocumentChunker.stamp_chunks 0 chunks))
                          +:+ " chunks")])%list)
  | inl e =>
      (inl e,
       (tr ++ [ev; ILog ERROR ("Error chunking documents: " +:+ exc_str e)])%list)
  end.
Proof.
  unfold DocumentChunker.chunk_documents. unfold_io. simpl.
  destruct (ext_split_documents ext _ _ _ _); simpl;
    by rewrite <- app_assoc.
Qed.

(** X15: when the splitter answers, [chunk_documents] returns as many
    chunks as the splitter gave, in the same order and with the same
    content; the chunk at position [i] carries [chunk_id = i] and
    [chunk_size = len(content)], whatever those keys held before, and every
    other metadata key is as the splitter left it. *)
Theorem chunk_documents_stamps (ext : Oracles) (self : DocumentChunker.t)
    (documents chunks : list Document) (tr : list IEvent) :
  ext_split_documents ext tr (DocumentChunker.chunk_size self)
    (DocumentChunker.chunk_overlap self) documents = inr chunks →
  ∃ stamped,
    (DocumentChunker.chunk_documents ext self documents tr).1 = inr stamped
    ∧ length stamped = length chunks
    ∧ ∀ i chunk, chunks !! i = Some chunk →
        ∃ chunk',
          stamped !! i = Some chunk'
          ∧ page_content chunk' = page_content chunk
          ∧ metadata chunk' !! "chunk_id" = Some (MInt (Z.of_nat i))
          ∧ metadata chunk' !! "chunk_size"
            = Some (MInt (Z.of_nat (len (page_content chunk))))
          ∧ ∀ key, key ≠ "chunk_id" → key ≠ "chunk_size" →
              metadata chunk' !! key = metadata chunk !! key.
Proof.
  intros Hsplit. exists (DocumentChunker.stamp_chunks 0 chunks).
  rewrite chunk_documents_run. cbv zeta. rewrite Hsplit.
  split; [done |]. split; [apply stamp_chunks_length |].
  intros i chunk Hi. eexists. split; [by apply stamp_chunks_lookup |].
  simpl. split; [done |].
  split; [by rewrite lookup_insert_ne, lookup_insert_eq |].
  split; [by rewrite lookup_insert_eq |].
  intros key Hid Hsize. by rewrite !lookup_insert_ne.
Qed.

Lemma chunk_documents_stamps_witness :
  ext_split_documents IngestExamples.ext_split []
    (DocumentChunker.chunk_size IngestExamples.chunker)
    (DocumentChunker.chunk_overlap IngestExamples.chunker) []
  = inr IngestExamples.raw_chunks
  ∧ ∃ stamped,
      (DocumentChunker.chunk_documents IngestExamples.ext_split
         IngestExamples.chunker [] []).1 = inr stamped
      ∧ length stamped = 2%nat
      ∧ (metadata <$> stamped !! 0%nat) ≫= (.!! "chunk_id") = Some (MInt 0)
      ∧ (metadata <$> stamped !! 1%nat) ≫= (.!! "chunk_size") = Some (MInt 21).
Proof.
  split; [reflexivity |].
  destruct (chunk_documents_stamps IngestExamples.ext_split IngestExamples.chunker
              [] IngestExamples.raw_chunks [] eq_refl)
    as (stamped & Hrun & Hlen & Hchunks).
  exists stamped. split; [exact Hrun |]. split; [exact Hlen |].
  split.
  - destruct (Hchunks 0%nat _ eq_refl) as (chunk' & -> & _ & Hid & _).
    exact Hid.
  - destruct (Hchunks 1%nat _ eq_refl) as (chunk' & -> & _ & _ & Hsize & _).
    exact Hsize.
Defined.

Lemma source_entry_stamp_chunks (i : nat) (chunks : list Document) :
  RAGChain.source_entry <$> DocumentChunker.stamp_chunks i chunks
  = RAGChain.source_entry <$> chunks.
Proof.
  revert i; induction chunks as [|chunk rest IH]; intros i; [done |].
  simpl. rewrite IH. f_equal.
  unfold RAGChain.source_entry. simpl. by rewrite !lookup_insert_ne.
Qed.

Lemma context_parts_stamp_chunks (i j : nat) (chunks : list Document) :
  RAGChain.context_parts j (DocumentChunker.stamp_chunks i chunks)
  = RAGChain.context_parts j chunks.
Proof.
  revert i j; induction chunks as [|chunk rest IH]; intros i j; [done |].
  simpl. rewrite IH. by rewrite !lookup_insert_ne.
Qed.

(** X16: the ids and sizes that the chunker adds never change what a query
    shows for a chunk: the sources entries and the formatted context of the
    chunks returned by [chunk_documents] are those of the chunks as the
    splitter gave them. *)
Theorem chunk_documents_keeps_attribution (ext : Oracles)
    (self : DocumentChunker.t) (documents chunks : list Document)
    (tr : list IEvent) :
  ext_split_documents ext tr (DocumentChunker.chunk_size self)
    (DocumentChunker.chunk_overlap self) documents = inr chunks →
  ∃ stamped,
    (DocumentChunker.chunk_documents ext self documents tr).1 = inr stamped
    ∧ RAGChain.source_entry <$> stamped = RAGChain.source_entry <$> chunks
    ∧ RAGChain.format_context stamped = RAGChain.format_context chunks.
Proof.
  intros Hsplit. exists (DocumentChunker.stamp_chunks 0 chunks).
  rewrite chunk_documents_run. cbv zeta. rewrite Hsplit.
  split; [done |]. split; [apply source_entry_stamp_chunks |].
  unfold RAGChain.format_context.
  destruct chunks as [|chunk rest]; [done |].
  change (DocumentChunker.stamp_chunks 0 (chunk :: rest))
    with ({| page_content := page_content chunk;
             metadata :=
               <["chunk_size" := MInt (Z.of_nat (len (page_content chunk)))]>
                 (<["chunk_id" := MInt (Z.of_nat 0)]> (metadata chunk)) |}
          :: DocumentChunker.stamp_chunks 1 rest).
  by rewrite <- (context_parts_stamp_chunks 0 1 (chunk :: rest)).
Qed.

Lemma chunk_documents_keeps_attribution_witness :
  ext_split_documents IngestExamples.ext_split []
    (DocumentChunker.chunk_size IngestExamples.chunker)
    (DocumentChunker.chunk_overlap IngestExamples.chunker) []
  = inr IngestExamples.raw_chunks
  ∧ ∃ stamped,
      (DocumentChunker.chunk_documents IngestExamples.ext_split
         IngestExamples.chunker [] []).1 = inr stamped
      ∧ RAGChain.source_entry <$> stamped
        = RAGChain.source_entry <$> IngestExamples.raw_chunks
      ∧ RAGChain.format_context stamped
        = RAGChain.format_context IngestExamples.raw_chunks.
Proof.
  split; [reflexivity |].
  exact (chunk_documents_keeps_attribution IngestExamples.ext_split
           IngestExamples.chunker [] IngestExamples.raw_chunks [] eq_refl).
Defined.

Lemma text_documents_length (i : nat) (given : option (gmap string MetaVal))
    (chunks : list string) :
  length (DocumentChunker.text_documents i given chunks) = length chunks.
Proof.
  revert i; induction chunks as [|chunk rest IH]; intros i; [done |].
  simpl. by rewrite IH.
Qed.

Lemma text_documents_lookup (i j : nat) (given : option (gmap string MetaVal))
    (chunks : list string) (chunk : string) :
  chunks !! j = Some chunk →
  DocumentChunker.text_documents i given chunks !! j
  = Some {| page_content := chunk;
            metadata :=
              <["chunk_size" := MInt (Z.of_nat (len chunk))]>
                (<["chunk_id" := MInt (Z.of_nat (i + j))]> (default ∅ given)) |}.
Proof.
  revert i j; induction chunks as [|c rest IH]; intros i j Hj; [done |].
  destruct j as [|j]; simpl in *.
  - injection Hj as ->. by rewrite Nat.add_0_r.
  - rewrite (IH (S i) j Hj). by rewrite Nat.add_succ_r.
Qed.

(** X17: when the splitter answers, [chunk_text] returns one document per
    piece of text, in order; the document at position [i] holds the piece,
    [chunk_id = i], [chunk_size = len(piece)] and every other key of the
    caller's metadata; called without metadata (or with an empty
    dictionary), its documents carry these two keys and nothing else. *)
Theorem chunk_text_documents (ext : Oracles) (self : DocumentChunker.t)
    (text : string) (given : option (gmap string MetaVal))
    (chunks : list string) (tr : list IEvent) :
  ext_split_text ext tr (DocumentChunker.chunk_size self)
    (DocumentChunker.chunk_overlap self) text = inr chunks →
  ∃ documents,
    (DocumentChunker.chunk_text ext self text given tr).1 = inr documents
    ∧ length documents = length chunks
    ∧ ∀ i chunk, chunks !! i = Some chunk →
        ∃ doc,
          documents !! i = Some doc
          ∧ page_content doc = chunk
          ∧ metadata doc !! "chunk_id" = Some (MInt (Z.of_nat i))
          ∧ metadata doc !! "chunk_size" = Some (MInt (Z.of_nat (len chunk)))
          ∧ (∀ key, key ≠ "chunk_id" → key ≠ "chunk_size" →
               metadata doc !! key = default ∅ given !! key)
          ∧ (given = None ∨ given = Some ∅ →
             dom (metadata doc) = {[ "chunk_id"; "chunk_size" ]}).
Proof.
  intros Hsplit. exists (DocumentChunker.text_documents 0 given chunks).
  split.
  { unfold DocumentChunker.chunk_text. unfold_io. simpl. by rewrite Hsplit. }
  split; [apply text_documents_length |].
  intros i chunk Hi. eexists. split; [by apply text_documents_lookup |].
  simpl. split; [done |].
  split; [by rewrite lookup_insert_ne, lookup_insert_eq |].
  split; [by rewrite lookup_insert_eq |].
  split; [intros key Hid Hsize; by rewrite !lookup_insert_ne |].
  intros [-> | ->]; simpl; rewrite !dom_insert_L, dom_empty_L; set_solver.
Qed.

Lemma chunk_text_documents_witness :
  ext_split_text IngestExamples.ext_split []
    (DocumentChunker.chunk_size IngestExamples.chunker)
    (DocumentChunker.chunk_overlap IngestExamples.chunker) "abcdef"
  = inr ["abc"; "def"]
  ∧ (DocumentChunker.chunk_text IngestExamples.ext_split IngestExamples.chunker
       "abcdef" None []).1
    = inr [ {| page_content := "abc";
               metadata := {[ "chunk_id" := MInt 0; "chunk_size" := MInt 3 ]} |};
            {| page_content := "def";
               metadata := {[ "chunk_id" := MInt 1; "chunk_size" := MInt 3 ]} |} ]
  ∧ ∃ documents,
      (DocumentChunker.chunk_text IngestExamples.ext_split IngestExamples.chunker
         "abcdef" None []).1 = inr documents
      ∧ length documents = 2%nat.
Proof.
  split; [reflexivity |]. split; [by vm_compute |].
  destruct (chunk_text_documents IngestExamples.ext_split IngestExamples.chunker
              "abcdef" None ["abc"; "def"] [] eq_refl)
    as (documents & Hrun & Hlen & _).
  exists documents. split; [exact Hrun | exact Hlen].
Defined.

End Chunker.

(** ** The loader *)

Section Loader.
Import PyStr Ingest.

Lemma io_bind_inr {A B : Type} (m : IO A) (f : A → IO B)
    (tr tr' : list IEvent) (a : A) :
  m tr = (inr a, tr') → (m ≫= f) tr = f a tr'.
Proof. intros Hm. unfold mbind, IO_bind. by rewrite Hm. Qed.

Lemma io_bind_inl {A B : Type} (m : IO A) (f : A → IO B)
    (tr tr' : list IEvent) (e : Exception) :
  m tr = (inl e, tr') → (m ≫= f) tr = (inl e, tr').
Proof. intros Hm. unfold mbind, IO_bind. by rewrite Hm. Qed.

Lemma io_call {A : Type} (ev : IEvent) (oracle : list IEvent → Exception + A)
    (tr : list IEvent) :
  call ev oracle tr = (oracle tr, (tr ++ [ev])%list).
Proof. reflexivity. Qed.

Lemma load_document_run (paths : PathLib) (ext : Oracles)
    (self : DocumentLoader.t) (file_path : string) (tr : list IEvent) :
  DocumentLoader.load_document paths ext self file_path tr =
  let path := path_str paths file_path in
  let extension := lower (path_suffix paths file_path) in
  let tr1 := (tr ++ [PathExists path])%list in
  match ext_exists ext tr path with
  | inl e => (inl e, tr1)
  | inr false => (inl (FileNotFoundError ("File not found: " +:+ path)), tr1)
  | inr true =>
      if bool_decide (extension ∈ DocumentLoader.LOADERS) then
        match ext_load ext tr1 extension path with
        | inr documents =>
            (inr (DocumentLoader.stamp_source path extension documents),
             (tr1 ++ [LoaderLoad extension path;
                      ILog INFO ("Loaded "
                                 +:+ pretty (length (DocumentLoader.stamp_source
                                                       path extension documents))
                                 +:+ " documents from " +:+ path)])%list)
        | inl e =>
            (inl e,
             (tr1 ++ [LoaderLoad extension path;
                      ILog ERROR ("Error loading document " +:+ path +:+ ": "
                                  +:+ exc_str e)])%list)
        end
      else (inl (ValueError ("Unsupported file type: " +:+ extension)), tr1)
  end.
Proof.
  unfold DocumentLoader.load_document. unfold_io. simpl.
  destruct (ext_exists ext _ _) as [e|[|]]; simpl; try done.
  destruct (bool_decide _); simpl; [| done].
  destruct (ext_load ext _ _ _); simpl; rewrite <- ?app_assoc; simpl;
    by rewrite ?string_app_assoc.
Qed.

Lemma stamp_source_length (path extension : string) (documents : list Document) :
  length (DocumentLoader.stamp_source path extension documents) = length documents.
Proof. induction documents as [|doc rest IH]; [done |]. simpl. by rewrite IH. Qed.

Lemma stamp_source_lookup (path extension : string) (documents : list Document)
    (i : nat) (doc : Document) :
  documents !! i = Some doc →
  DocumentLoader.stamp_source path extension documents !! i
  = Some {| page_content := page_content doc;
            metadata := <["file_type" := MStr extension]>
                          (<["source" := MStr path]> (metadata doc)) |}.
Proof.
  revert i; induction documents as [|d rest IH]; intros i Hi; [done |].
  destruct i as [|i]; simpl in *; [by injection Hi as -> | by apply IH].
Qed.

(** X18: [load_document] refuses a file before any loader is run: a path
    that does not exist raises [FileNotFoundError], whatever its
    extension, and an existing file whose lower-cased suffix is not one of
    the four supported extensions raises [ValueError] naming that suffix.
    In both cases the only effect is the existence check. *)
Theorem load_document_refuses (paths : PathLib) (ext : Oracles)
    (self : DocumentLoader.t) (file_path : string) (tr : list IEvent) :
  (ext_exists ext tr (path_str paths file_path) = inr false →
   DocumentLoader.load_document paths ext self file_path tr
   = (inl (FileNotFoundError ("File not found: " +:+ path_str paths file_path)),
      (tr ++ [PathExists (path_str paths file_path)])%list))
  ∧ (ext_exists ext tr (path_str paths file_path) = inr true →
     lower (path_suffix paths file_path) ∉ [".pdf"; ".docx"; ".txt"; ".md"] →
     DocumentLoader.load_document paths ext self file_path tr
     = (inl (ValueError ("Unsupported file type: "
                         +:+ lower (path_suffix paths file_path))),
        (tr ++ [PathExists (path_str paths file_path)])%list)).
Proof.
  split.
  - intros Hmissing. rewrite load_document_run. cbv zeta. by rewrite Hmissing.
  - intros Hfound Hext. rewrite load_document_run. cbv zeta. rewrite Hfound.
    by rewrite bool_decide_false.
Qed.

Lemma load_document_refuses_witness :
  ext_exists IngestExamples.ext_dir [] "missing.pdf" = inr false
  ∧ DocumentLoader.load_document IngestExamples.simple_paths
      IngestExamples.ext_dir IngestExamples.loader "missing.pdf" []
    = (inl (FileNotFoundError "File not found: missing.pdf"),
       [PathExists "missing.pdf"])
  ∧ ext_exists IngestExamples.ext_dir [] "docs/setup.EXE" = inr true
  ∧ (lower (IngestExamples.simple_suffix "docs/setup.EXE")
     ∉ [".pdf"; ".docx"; ".txt"; ".md"])
  ∧ DocumentLoader.load_document IngestExamples.simple_paths
      IngestExamples.ext_dir IngestExamples.loader "docs/setup.EXE" []
    = (inl (ValueError "Unsupported file type: .exe"),
       [PathExists "docs/setup.EXE"]).
Proof.
  assert (lower (IngestExamples.simple_suffix "docs/setup.EXE")
          ∉ [".pdf"; ".docx"; ".txt"; ".md"]) as Hext.
  { vm_compute. intros Hin.
    repeat (apply elem_of_cons in Hin as [Hin|Hin]; [discriminate |]).
    by apply elem_of_nil in Hin. }
  destruct (load_document_refuses IngestExamples.simple_paths
              IngestExamples.ext_dir IngestExamples.loader "missing.pdf" [])
    as [Hmissing _].
  destruct (load_document_refuses IngestExamples.simple_paths
              IngestExamples.ext_dir IngestExamples.loader "docs/setup.EXE" [])
    as [_ Hunsupported].
  split; [reflexivity |]. split; [exact (Hmissing eq_refl) |].
  split; [reflexivity |]. split; [exact Hext |].
  exact (Hunsupported eq_refl Hext).
Defined.

(** X19: when the file exists, its lower-cased suffix is supported and the
    loader answers, [load_document] returns the loader's documents, in
    order and with their content, each with [source] set to the path and
    [file_type] set to the lower-cased suffix (so [A.PDF] is loaded as
    [".pdf"]), whatever these keys held; every other key is untouched. *)
Theorem load_document_stamps (paths : PathLib) (ext : Oracles)
    (self : DocumentLoader.t) (file_path : string) (tr : list IEvent)
    (documents : list Document) :
  let path := path_str paths file_path in
  let extension := lower (path_suffix paths file_path) in
  ext_exists ext tr path = inr true →
  extension ∈ [".pdf"; ".docx"; ".txt"; ".md"] →
  ext_load ext (tr ++ [PathExists path])%list extension path = inr documents →
  ∃ loaded,
    (DocumentLoader.load_document paths ext self file_path tr).1 = inr loaded
    ∧ length loaded = length documents
    ∧ ∀ i doc, documents !! i = Some doc →
        ∃ doc',
          loaded !! i = Some doc'
          ∧ page_content doc' = page_content doc
          ∧ metadata doc' !! "source" = Some (MStr path)
          ∧ metadata doc' !! "file_type" = Some (MStr extension)
          ∧ ∀ key, key ≠ "source" → key ≠ "file_type" →
              metadata doc' !! key = metadata doc !! key.
Proof.
  intros path extension Hfound Hext Hload.
  exists (DocumentLoader.stamp_source path extension documents).
  rewrite load_document_run. cbv zeta. fold path extension.
  rewrite Hfound, bool_decide_true by exact Hext. rewrite Hload.
  split; [done |]. split; [apply stamp_source_length |].
  intros i doc Hi. eexists. split; [by apply stamp_source_lookup |].
  simpl. split; [done |].
  split; [by rewrite lookup_insert_ne, lookup_insert_eq |].
  split; [by rewrite lookup_insert_eq |].
  intros key Hsource Htype. by rewrite !lookup_insert_ne.
Qed.

Lemma load_document_stamps_witness :
  ext_exists IngestExamples.ext_dir [] "docs/A.PDF" = inr true
  ∧ lower (IngestExamples.simple_suffix "docs/A.PDF") = ".pdf"
  ∧ ∃ loaded,
      (DocumentLoader.load_document IngestExamples.simple_paths
         IngestExamples.ext_dir IngestExamples.loader "docs/A.PDF" []).1
      = inr loaded
      ∧ length loaded = 1%nat
      ∧ (metadata <$> loaded !! 0%nat) ≫= (.!! "file_type") = Some (MStr ".pdf")
      ∧ (metadata <$> loaded !! 0%nat) ≫= (.!! "source")
        = Some (MStr "docs/A.PDF").
Proof.
  split; [reflexivity |]. split; [reflexivity |].
  assert (lower (path_suffix IngestExamples.simple_paths "docs/A.PDF")
          ∈ [".pdf"; ".docx"; ".txt"; ".md"]) as Hext
    by (vm_compute; apply list_elem_of_here).
  destruct (load_document_stamps IngestExamples.simple_paths
              IngestExamples.ext_dir IngestExamples.loader "docs/A.PDF" []
              [{| page_content := "notes"; metadata := ∅ |}]
              eq_refl Hext eq_refl)
    as (loaded & Hrun & Hlen & Hdocs).
  exists loaded. split; [exact Hrun |]. split; [exact Hlen |].
  destruct (Hdocs 0%nat _ eq_refl) as (doc' & -> & _ & Hsource & Htype & _).
  split; [exact Htype | exact Hsource].
Defined.

Lemma stamp_source_loaded (path extension : string) (documents : list Document) :
  extension ∈ DocumentLoader.LOADERS →
  Forall IngestSpec.loaded_by_loader
         (DocumentLoader.stamp_source path extension documents).
Proof.
  intros Hext. induction documents as [|doc rest IH]; [constructor |].
  simpl. constructor; [| exact IH].
  exists path, extension. simpl.
  split; [by rewrite lookup_insert_ne, lookup_insert_eq |].
  split; [by rewrite lookup_insert_eq | exact Hext].
Qed.

Lemma load_document_loaded (paths : PathLib) (ext : Oracles)
    (self : DocumentLoader.t) (file_path : string) (tr : list IEvent)
    (documents : list Document) :
  (DocumentLoader.load_document paths ext self file_path tr).1 = inr documents →
  Forall IngestSpec.loaded_by_loader documents.
Proof.
  rewrite load_document_run. cbv zeta.
  destruct (ext_exists ext _ _) as [e|[|]]; simpl; try done.
  destruct (bool_decide_reflect
              (lower (path_suffix paths file_path) ∈ DocumentLoader.LOADERS))
    as [Hext|]; simpl; [| done].
  destruct (ext_load ext _ _ _); simpl; [done |].
  intros [= <-]. by apply stamp_source_loaded.
Qed.

(** The inner loop of [load_directory] always comes to its end. *)
Lemma load_files_total (paths : PathLib) (ext : Oracles)
    (self : DocumentLoader.t) (files : list string)
    (all_documents : list Document) (tr : list IEvent) :
  Forall IngestSpec.loaded_by_loader all_documents →
  ∃ documents,
    (DocumentLoader.load_files paths ext self files all_documents tr).1
      = inr documents
    ∧ Forall IngestSpec.loaded_by_loader documents.
Proof.
  revert all_documents tr.
  induction files as [|file_path rest IH]; intros all_documents tr Hall;
    [by exists all_documents |].
  simpl. unfold mbind at 1, IO_bind at 1. unfold try_except at 1.
  unfold mbind at 1, IO_bind at 1.
  destruct (DocumentLoader.load_document paths ext self file_path tr)
    as [[e|documents] tr1] eqn:Hload.
  - unfold_io. simpl. apply IH, Hall.
  - unfold_io. simpl. apply IH. apply Forall_app. split; [exact Hall |].
    apply (load_document_loaded paths ext self file_path tr).
    by rewrite Hload.
Qed.

Lemma load_extensions_total (paths : PathLib) (ext : Oracles)
    (self : DocumentLoader.t) (directory : string) (extensions : list string)
    (all_documents : list Document) (tr : list IEvent) :
  (∀ h pattern, ∃ files, ext_glob ext h directory pattern = inr files) →
  Forall IngestSpec.loaded_by_loader all_documents →
  ∃ documents,
    (DocumentLoader.load_extensions paths ext self directory extensions
       all_documents tr).1 = inr documents
    ∧ Forall IngestSpec.loaded_by_loader documents.
Proof.
  intros Hglob. revert all_documents tr.
  induction extensions as [|extension rest IH]; intros all_documents tr Hall;
    [by exists all_documents |].
  simpl. unfold mbind at 1, IO_bind at 1. unfold call at 1.
  destruct (Hglob tr ("**/*" +:+ extension)) as [files ->].
  unfold mbind at 1, IO_bind at 1.
  destruct (load_files_total paths ext self files all_documents
              (tr ++ [Glob directory ("**/*" +:+ extension)])%list Hall)
    as (documents & Hfiles & Hdocs).
  destruct (DocumentLoader.load_files _ _ _ _ _ _) as [[e|documents'] tr2];
    simpl in Hfiles; [done |].
  injection Hfiles as ->. by apply IH.
Qed.

(** X20: once the directory exists and its listing can be read,
    [load_directory] returns, whatever the single files do: a file that
    cannot be loaded (missing, unsupported, corrupt) is skipped and never
    makes the call raise.  Every document returned carries a [source] and
    a [file_type] among the supported extensions. *)
Theorem load_directory_skips_failures (paths : PathLib) (ext : Oracles)
    (self : DocumentLoader.t) (directory : option string) (tr : list IEvent) :
  let dir :=
    path_str paths (default (DocumentLoader.documents_dir self) directory) in
  ext_exists ext tr dir = inr true →
  (∀ h pattern, ∃ files, ext_glob ext h dir pattern = inr files) →
  ∃ documents,
    (DocumentLoader.load_directory paths ext self directory tr).1 = inr documents
    ∧ Forall IngestSpec.loaded_by_loader documents.
Proof.
  intros dir Hfound Hglob. unfold DocumentLoader.load_directory.
  assert (match directory with
          | Some d => path_str paths d
          | None => path_str paths (DocumentLoader.documents_dir self)
          end = dir) as -> by (by destruct directory).
  rewrite (io_bind_inr _ _ tr (tr ++ [PathExists dir])%list true)
    by (by rewrite io_call, Hfound).
  cbv beta. change (negb true) with false. cbv iota.
  destruct (load_extensions_total paths ext self dir DocumentLoader.LOADERS []
              (tr ++ [PathExists dir])%list Hglob (Forall_nil_2 _))
    as (documents & Hrun & Hdocs).
  destruct (DocumentLoader.load_extensions paths ext self dir
              DocumentLoader.LOADERS [] (tr ++ [PathExists dir])%list)
    as [[e|documents'] tr2] eqn:Hext; simpl in Hrun; [done |].
  injection Hrun as ->. exists documents.
  rewrite (io_bind_inr _ _ _ _ _ Hext). by unfold_io.
Qed.

Lemma load_directory_skips_failures_witness :
  ext_exists IngestExamples.ext_dir [] "docs" = inr true
  ∧ (DocumentLoader.load_document IngestExamples.simple_paths
       IngestExamples.ext_dir IngestExamples.loader "docs/bad.pdf" []).1
    = inl {| exc_type := "PdfReadError"; exc_str := "EOF marker not found" |}
  ∧ ∃ documents,
      (DocumentLoader.load_directory IngestExamples.simple_paths
         IngestExamples.ext_dir IngestExamples.loader None []).1 = inr documents
      ∧ Forall IngestSpec.loaded_by_loader documents.
Proof.
  split; [reflexivity |]. split; [reflexivity |].
  apply (load_directory_skips_failures IngestExamples.simple_paths
           IngestExamples.ext_dir IngestExamples.loader None []);
    [reflexivity |].
  intros h pattern. simpl.
  destruct (String.eqb pattern "**/*.pdf"); [eauto |].
  destruct (String.eqb pattern "**/*.txt"); eauto.
Defined.

(** The run behind it: three documents, the corrupt file left out. *)
Example load_directory_example :
  page_content <$>
    match (DocumentLoader.load_directory IngestExamples.simple_paths
             IngestExamples.ext_dir IngestExamples.loader None []).1 with
    | inr documents => documents
    | inl _ => []
    end
  = ["first"; "second"; "notes"].
Proof. reflexivity. Qed.

End Loader.

(** ** Writing to the store *)

Section StoreWrites.
Import PyStr Ingest IngestSpec Spec.

Lemma writes_app (tr1 tr2 : list IEvent) :
  writes (tr1 ++ tr2) = (writes tr1 ++ writes tr2)%list.
Proof. apply omap_app. Qed.

Lemma persists_app (tr1 tr2 : list IEvent) :
  persists (tr1 ++ tr2) = (persists tr1 ++ persists tr2)%list.
Proof. apply omap_app. Qed.

Lemma add_documents_run (ext : Oracles) (self : RAGChain.t)
    (documents : list Document) (tr : list IEvent) :
  Writes.RAGChain_add_documents ext self documents tr =
  let vs := store_handle (RAGChain.vector_store self) in
  let tr1 := (tr ++ [AddDocuments vs documents])%list in
  match ext_add_documents ext tr vs documents with
  | inl e =>
      (inl e,
       (tr1 ++ [ILog ERROR
                  (match RAGChain.vector_store self with
                   | Pinecone _ => "Error adding documents to Pinecone: "
                   | Chroma _ => "Error adding documents to Chroma: "
                   end +:+ exc_str e);
                ILog ERROR ("Error adding documents: " +:+ exc_str e)])%list)
  | inr ids =>
      match RAGChain.vector_store self with
      | Pinecone _ =>
          (inr ids,
           (tr1 ++ [ILog INFO ("Added " +:+ pretty (length documents)
                               +:+ " documents to Pinecone");
                    ILog INFO ("Added " +:+ pretty (length documents)
                               +:+ " documents to vector store")])%list)
      | Chroma _ =>
          match ext_persist ext tr1 vs with
          | inl e =>
              (inl e,
               (tr1 ++ [Persist vs;
                        ILog ERROR ("Error adding documents to Chroma: "
                                    +:+ exc_str e);
                        ILog ERROR ("Error adding documents: " +:+ exc_str e)])%list)
          | inr _ =>
              (inr ids,
               (tr1 ++ [Persist vs;
                        ILog INFO ("Added " +:+ pretty (length documents)
                                   +:+ " documents to Chroma");
                        ILog INFO ("Added " +:+ pretty (length documents)
                                   +:+ " documents to vector store")])%list)
          end
      end
  end.
Proof.
  unfold Writes.RAGChain_add_documents.
  destruct (RAGChain.vector_store self) as [store|store]; simpl;
    unfold Writes.PineconeVectorStore_add_documents,
      Writes.ChromaVectorStore_add_documents; unfold_io; simpl;
    destruct (ext_add_documents ext _ _ _); simpl;
    rewrite <- ?app_assoc; simpl; try done.
  destruct (ext_persist ext _ _) as [e|[]]; simpl;
    rewrite <- ?app_assoc; simpl; done.
Qed.

Lemma add_documents_writes (ext : Oracles) (self : RAGChain.t)
    (documents : list Document) (tr : list IEvent) :
  writes (Writes.RAGChain_add_documents ext self documents tr).2
  = (writes tr ++ [(store_handle (RAGChain.vector_store self), documents)])%list.
Proof.
  rewrite add_documents_run. cbv zeta.
  destruct (ext_add_documents ext tr _ documents) as [e|ids].
  - simpl. rewrite !writes_app. simpl. by rewrite !app_nil_r.
  - destruct (RAGChain.vector_store self) as [store|store].
    + simpl. rewrite !writes_app. simpl. by rewrite !app_nil_r.
    + destruct (ext_persist ext _ _) as [e|[]]; simpl;
        rewrite !writes_app; simpl; by rewrite ?app_nil_r.
Qed.

(** X21: [RAGChain.add_documents] hands the documents to the backend once
    and returns the ids the backend gave.  On a Chroma store the
    collection is persisted exactly when the backend accepted the
    documents, and a failure to persist makes the call raise although the
    documents were handed over; on a Pinecone store nothing is persisted.
    When the backend refuses the documents, its exception is raised. *)
Theorem add_documents_outcome (ext : Oracles) (self : RAGChain.t)
    (documents : list Document) (tr : list IEvent) :
  let vs := store_handle (RAGChain.vector_store self) in
  let run := Writes.RAGChain_add_documents ext self documents tr in
  writes run.2 = (writes tr ++ [(vs, documents)])%list
  ∧ match ext_add_documents ext tr vs documents with
    | inl e => run.1 = inl e ∧ persists run.2 = persists tr
    | inr ids =>
        match RAGChain.vector_store self with
        | Pinecone _ => run.1 = inr ids ∧ persists run.2 = persists tr
        | Chroma _ =>
            persists run.2 = (persists tr ++ [vs])%list
            ∧ match ext_persist ext (tr ++ [AddDocuments vs documents])%list vs with
              | inl e => run.1 = inl e
              | inr _ => run.1 = inr ids
              end
        end
    end.
Proof.
  intros vs run. subst run. rewrite add_documents_run. cbv zeta. fold vs.
  destruct (ext_add_documents ext tr vs documents) as [e|ids].
  - simpl. rewrite !writes_app, !persists_app. simpl.
    by rewrite !app_nil_r.
  - destruct (RAGChain.vector_store self) as [store|store].
    + simpl. rewrite !writes_app, !persists_app. simpl.
      by rewrite !app_nil_r.
    + destruct (ext_persist ext _ vs) as [e|[]]; simpl;
        rewrite !writes_app, !persists_app; simpl;
        by rewrite ?app_nil_r.
Qed.

Lemma add_documents_outcome_witness :
  (Writes.RAGChain_add_documents IngestExamples.ext_no_persist Examples.chain
     IngestExamples.raw_chunks []).1
  = inl {| exc_type := "OSError"; exc_str := "disk full" |}
  ∧ writes (Writes.RAGChain_add_documents IngestExamples.ext_no_persist
              Examples.chain IngestExamples.raw_chunks []).2
    = [(LangchainChroma "./data/chroma_db" "course_documents",
        IngestExamples.raw_chunks)]
  ∧ (Writes.RAGChain_add_documents IngestExamples.ext_dir Examples.chain
       IngestExamples.raw_chunks []).1
    = inr ["id-0"; "id-1"].
Proof.
  destruct (add_documents_outcome IngestExamples.ext_no_persist Examples.chain
              IngestExamples.raw_chunks []) as [Hwrites [_ Hfail]].
  destruct (add_documents_outcome IngestExamples.ext_dir Examples.chain
              IngestExamples.raw_chunks []) as [_ [_ Hok]].
  split; [exact Hfail |]. split; [exact Hwrites | exact Hok].
Defined.

End StoreWrites.

(** ** The ingest endpoint *)

Section Quiet.
Import PyStr Ingest IngestSpec Spec.

Lemma quiet_ret {A : Type} (a : A) : quiet (mret a).
Proof. by intros tr. Qed.

Lemma quiet_raise {A : Type} (e : Exception) : quiet (@raise A e).
Proof. by intros tr. Qed.

Lemma quiet_log_info (msg : string) : quiet (log_info msg).
Proof. intros tr. unfold log_info. simpl. by rewrite writes_app, app_nil_r. Qed.

Lemma quiet_log_error (msg : string) : quiet (log_error msg).
Proof. intros tr. unfold log_error. simpl. by rewrite writes_app, app_nil_r. Qed.

Lemma quiet_call {A : Type} (ev : IEvent) (oracle : list IEvent → Exception + A) :
  writes [ev] = [] → quiet (call ev oracle).
Proof.
  intros Hev tr. unfold call. simpl. by rewrite writes_app, Hev, app_nil_r.
Qed.

Lemma quiet_bind {A B : Type} (m : IO A) (f : A → IO B) :
  quiet m → (∀ a, quiet (f a)) → quiet (m ≫= f).
Proof.
  intros Hm Hf tr. unfold mbind, IO_bind. specialize (Hm tr).
  destruct (m tr) as [[e|a] tr1]; simpl in *; [done |].
  by rewrite Hf.
Qed.

Lemma quiet_try_except {A : Type} (m : IO A) (h : Exception → IO A) :
  quiet m → (∀ e, quiet (h e)) → quiet (try_except m h).
Proof.
  intros Hm Hh tr. unfold try_except. specialize (Hm tr).
  destruct (m tr) as [[e|a] tr1]; simpl in *; [| done].
  by rewrite Hh.
Qed.

Lemma quiet_logged {A : Type} (prefix : string) (m : IO A) :
  quiet m → quiet (logged prefix m).
Proof.
  intros Hm. apply quiet_try_except; [done |].
  intros e. apply quiet_bind; [apply quiet_log_error |].
  intros _. apply quiet_raise.
Qed.

(** After a quiet computation, what follows decides. *)
Lemma quiet_then {A B : Type} (m : IO A) (f : A → IO B) (tr : list IEvent)
    (Q : Exception + B → list IEvent → Prop) :
  quiet m →
  (∀ e tr1, writes tr1 = writes tr → Q (inl e) tr1) →
  (∀ a tr1, writes tr1 = writes tr → Q (f a tr1).1 (f a tr1).2) →
  Q ((m ≫= f) tr).1 ((m ≫= f) tr).2.
Proof.
  intros Hm Hfail Hnext. unfold mbind, IO_bind. specialize (Hm tr).
  destruct (m tr) as [[e|a] tr1]; simpl in *; [by apply Hfail | by apply Hnext].
Qed.

End Quiet.

Section IngestEndpoint.
Import PyStr Ingest IngestSpec Spec.
Context (settings : IngestSettings) (paths : PathLib) (ext : Oracles).

Lemma load_document_quiet (self : DocumentLoader.t) (file_path : string) :
  quiet (DocumentLoader.load_document paths ext self file_path).
Proof.
  unfold DocumentLoader.load_document.
  apply quiet_bind; [by apply quiet_call |]. intros found.
  destruct (negb found); [apply quiet_raise |].
  destruct (negb (bool_decide _)); [apply quiet_raise |].
  apply quiet_logged, quiet_bind; [by apply quiet_call |]. intros documents.
  apply quiet_bind; [apply quiet_log_info |]. intros _. apply quiet_ret.
Qed.

Lemma load_files_quiet (self : DocumentLoader.t) (files : list string)
    (all_documents : list Document) :
  quiet (DocumentLoader.load_files paths ext self files all_documents).
Proof.
  revert all_documents.
  induction files as [|file_path rest IH]; intros all_documents;
    [apply quiet_ret |].
  simpl. apply quiet_bind; [| intros all'; apply IH].
  apply quiet_try_except.
  - apply quiet_bind; [apply load_document_quiet |]. intros ?. apply quiet_ret.
  - intros e. apply quiet_bind; [apply quiet_log_error |].
    intros _. apply quiet_ret.
Qed.

Lemma load_extensions_quiet (self : DocumentLoader.t) (directory : string)
    (extensions : list string) (all_documents : list Document) :
  quiet (DocumentLoader.load_extensions paths ext self directory extensions
           all_documents).
Proof.
  revert all_documents.
  induction extensions as [|extension rest IH]; intros all_documents;
    [apply quiet_ret |].
  simpl. apply quiet_bind; [by apply quiet_call |]. intros files.
  apply quiet_bind; [apply load_files_quiet |]. intros all'. apply IH.
Qed.

Lemma load_directory_quiet (self : DocumentLoader.t) (directory : option string) :
  quiet (DocumentLoader.load_directory paths ext self directory).
Proof.
  unfold DocumentLoader.load_directory.
  apply quiet_bind; [by apply quiet_call |]. intros found.
  destruct (negb found); [apply quiet_raise |].
  apply quiet_bind; [apply load_extensions_quiet |]. intros documents.
  apply quiet_bind; [apply quiet_log_info |]. intros _. apply quiet_ret.
Qed.

Lemma loader_init_quiet (documents_dir : string) :
  quiet (DocumentLoader.__init__ paths ext documents_dir).
Proof.
  unfold DocumentLoader.__init__.
  apply quiet_bind; [by apply quiet_call |]. intros _. apply quiet_ret.
Qed.

Lemma chunker_init_quiet (chunk_size chunk_overlap : option Z) :
  quiet (DocumentChunker.__init__ settings ext chunk_size chunk_overlap).
Proof.
  unfold DocumentChunker.__init__.
  apply quiet_bind; [by apply quiet_call |]. intros _.
  apply quiet_bind; [apply quiet_log_info |]. intros _. apply quiet_ret.
Qed.

Lemma chunk_documents_quiet (self : DocumentChunker.t) (documents : list Document) :
  quiet (DocumentChunker.chunk_documents ext self documents).
Proof.
  unfold DocumentChunker.chunk_documents.
  apply quiet_logged, quiet_bind; [by apply quiet_call |]. intros chunks.
  apply quiet_bind; [apply quiet_log_info |]. intros _. apply quiet_ret.
Qed.

(** What the [try] block of the endpoint leaves behind. *)
Lemma ingest_body_cases (rag_chain : RAGChain.t) (tr : list IEvent) :
  let run := IngestApi.ingest_body settings paths ext rag_chain tr in
  let vs := store_handle (RAGChain.vector_store rag_chain) in
  match run.1 with
  | inr response =>
      (IngestApi.documents_processed response = 0%nat
       ∧ IngestApi.chunks_created response = 0%nat
       ∧ IngestApi.message response = "No documents found in documents directory"
       ∧ writes run.2 = writes tr)
      ∨ (IngestApi.documents_processed response ≠ 0%nat
         ∧ IngestApi.message response = "Documents ingested successfully"
         ∧ ∃ chunks,
             writes run.2 = (writes tr ++ [(vs, chunks)])%list
             ∧ IngestApi.chunks_created response = length chunks)
  | inl e =>
      writes run.2 = writes tr
      ∨ ∃ chunks, writes run.2 = (writes tr ++ [(vs, chunks)])%list
  end.
Proof.
  intros run vs. subst run. unfold IngestApi.ingest_body.
  apply (quiet_then _ _ tr
           (λ r tr', match r with
                     | inr response =>
                         (IngestApi.documents_processed response = 0%nat
                          ∧ IngestApi.chunks_created response = 0%nat
                          ∧ IngestApi.message response
                            = "No documents found in documents directory"
                          ∧ writes tr' = writes tr)
                         ∨ (IngestApi.documents_processed response ≠ 0%nat
                            ∧ IngestApi.message response
                              = "Documents ingested successfully"
                            ∧ ∃ chunks,
                                writes tr' = (writes tr ++ [(vs, chunks)])%list
                                ∧ IngestApi.chunks_created response
                                  = length chunks)
                     | inl e =>
                         writes tr' = writes tr
                         ∨ ∃ chunks,
                             writes tr' = (writes tr ++ [(vs, chunks)])%list
                     end)).
  { apply loader_init_quiet. }
  { intros e tr1 Htr1. by left. }
  intros document_loader tr1 Htr1.
  apply quiet_then; [apply chunker_init_quiet | |].
  { intros e tr2 Htr2. left. congruence. }
  intros document_chunker tr2 Htr2.
  apply quiet_then; [apply load_directory_quiet | |].
  { intros e tr3 Htr3. left. congruence. }
  intros [|doc rest] tr3 Htr3.
  { simpl. left. repeat split. congruence. }
  apply quiet_then; [apply chunk_documents_quiet | |].
  { intros e tr4 Htr4. left. congruence. }
  intros chunks tr4 Htr4.
  pose proof (add_documents_writes ext rag_chain chunks tr4) as Hwrites.
  fold vs in Hwrites.
  unfold mbind, IO_bind.
  destruct (Writes.RAGChain_add_documents ext rag_chain chunks tr4)
    as [[e|ids] tr5]; simpl in Hwrites.
  - simpl. right. exists chunks. congruence.
  - unfold log_info, mret, IO_ret. simpl. right. split; [done |].
    split; [done |]. exists chunks. split; [| done].
    rewrite writes_app, Hwrites. simpl. rewrite app_nil_r. congruence.
Qed.

(** X22: the ingest endpoint answers either with a summary or with status
    500, never with another exception.  It hands documents to the store at
    most once.  When no document was loaded it hands over nothing and
    reports zero documents and zero chunks; otherwise the number of chunks
    it reports is the number of chunks handed to the store.  A refusal
    carries the text of the exception, which is also the last line logged. *)
Theorem ingest_documents_outcome (rag_chain : RAGChain.t) (tr : list IEvent) :
  let run := IngestApi.ingest_documents settings paths ext rag_chain tr in
  let vs := store_handle (RAGChain.vector_store rag_chain) in
  match run.1 with
  | inr response =>
      (IngestApi.documents_processed response = 0%nat
       ∧ IngestApi.chunks_created response = 0%nat
       ∧ IngestApi.message response = "No documents found in documents directory"
       ∧ writes run.2 = writes tr)
      ∨ (IngestApi.documents_processed response ≠ 0%nat
         ∧ IngestApi.message response = "Documents ingested successfully"
         ∧ ∃ chunks,
             writes run.2 = (writes tr ++ [(vs, chunks)])%list
             ∧ IngestApi.chunks_created response = length chunks)
  | inl err =>
      status_code err = 500
      ∧ (∃ e, detail err = "Error ingesting documents: " +:+ exc_str e
              ∧ last run.2
                = Some (ILog ERROR ("Error ingesting documents: " +:+ exc_str e)))
      ∧ (writes run.2 = writes tr
         ∨ ∃ chunks, writes run.2 = (writes tr ++ [(vs, chunks)])%list)
  end.
Proof.
  intros run vs. subst run. unfold IngestApi.ingest_documents.
  pose proof (ingest_body_cases rag_chain tr) as Hbody. cbv zeta in Hbody.
  fold vs in Hbody.
  destruct (IngestApi.ingest_body settings paths ext rag_chain tr)
    as [[e|response] tr']; simpl in *; [| exact Hbody].
  split; [done |]. split.
  - exists e. split; [done | apply last_snoc].
  - rewrite writes_app. simpl. rewrite app_nil_r. exact Hbody.
Qed.

End IngestEndpoint.

Example ingest_documents_empty_directory :
  (IngestApi.ingest_documents IngestExamples.ingest_settings
     IngestExamples.simple_paths IngestExamples.ext_nothing Examples.chain []).1
  = inr {| IngestApi.message := "No documents found in documents directory";
           IngestApi.documents_processed := 0;
           IngestApi.chunks_created := 0 |}.
Proof. vm_compute. reflexivity. Qed.

Example ingest_documents_directory :
  let run := IngestApi.ingest_documents IngestExamples.ingest_settings
               IngestExamples.simple_paths IngestExamples.ext_dir
               Examples.chain [] in
  run.1 = inr {| IngestApi.message := "Documents ingested successfully";
                 IngestApi.documents_processed := 3;
                 IngestApi.chunks_created := 3 |}
  ∧ length (IngestSpec.writes run.2) = 1%nat.
Proof. vm_compute. done. Qed.

(** ** The upload endpoint *)

Section Emits.
Import PyStr Ingest IngestSpec UploadSpec Upload Spec.

Lemma emits_keeps {E A X : Type} (obs : IEvent → option X) (P : IEvent → bool)
    (m : list IEvent → (E + A) * list IEvent) (tr : list IEvent) :
  emits P m → blind obs P → omap obs (m tr).2 = omap obs tr.
Proof.
  intros Hm Hblind. destruct (Hm tr) as (evs & -> & Hevs).
  rewrite omap_app. replace (omap obs evs) with (@nil X); [by rewrite app_nil_r |].
  symmetry. induction Hevs as [|ev evs Hev _ IH]; [done |].
  simpl. by rewrite (Hblind ev Hev).
Qed.

Lemma emits_ret {A : Type} (P : IEvent → bool) (a : A) : emits P (mret a : IO A).
Proof. intros tr. exists []. by rewrite app_nil_r. Qed.

Lemma emits_raise {A : Type} (P : IEvent → bool) (e : Exception) :
  emits P (@raise A e).
Proof. intros tr. exists []. by rewrite app_nil_r. Qed.

Lemma emits_call {A : Type} (P : IEvent → bool) (ev : IEvent)
    (oracle : list IEvent → Exception + A) :
  P ev = true → emits P (call ev oracle).
Proof. intros Hev tr. exists [ev]. split; [done | by constructor]. Qed.

Lemma emits_log_info (P : IEvent → bool) (msg : string) :
  P (ILog INFO msg) = true → emits P (log_info msg).
Proof. intros Hev tr. exists [ILog INFO msg]. split; [done | by constructor]. Qed.

Lemma emits_log_error (P : IEvent → bool) (msg : string) :
  P (ILog ERROR msg) = true → emits P (log_error msg).
Proof. intros Hev tr. exists [ILog ERROR msg]. split; [done | by constructor]. Qed.

Lemma emits_bind {A B : Type} (P : IEvent → bool) (m : IO A) (f : A → IO B) :
  emits P m → (∀ a, emits P (f a)) → emits P (m ≫= f).
Proof.
  intros Hm Hf tr. unfold mbind, IO_bind.
  destruct (Hm tr) as (evs & Htr & Hevs).
  destruct (m tr) as [[e|a] tr1]; simpl in Htr; subst tr1; [by exists evs |].
  destruct (Hf a (tr ++ evs)%list) as (evs' & -> & Hevs').
  exists (evs ++ evs')%list. rewrite app_assoc. split; [done |].
  by apply Forall_app.
Qed.

Lemma emits_try_except {A : Type} (P : IEvent → bool) (m : IO A)
    (h : Exception → IO A) :
  emits P m → (∀ e, emits P (h e)) → emits P (try_except m h).
Proof.
  intros Hm Hh tr. unfold try_except.
  destruct (Hm tr) as (evs & Htr & Hevs).
  destruct (m tr) as [[e|a] tr1]; simpl in Htr; subst tr1; [| by exists evs].
  destruct (Hh e (tr ++ evs)%list) as (evs' & -> & Hevs').
  exists (evs ++ evs')%list. rewrite app_assoc. split; [done |].
  by apply Forall_app.
Qed.

Lemma emits_logged {A : Type} (P : IEvent → bool) (prefix : string) (m : IO A) :
  (∀ msg, P (ILog ERROR msg) = true) → emits P m → emits P (logged prefix m).
Proof.
  intros Hlog Hm. apply emits_try_except; [done |].
  intros e. apply emits_bind; [by apply emits_log_error |].
  intros _. apply emits_raise.
Qed.

Lemma emits_lift {A : Type} (P : IEvent → bool) (m : IO A) :
  emits P m → emits P (lift m).
Proof.
  intros Hm tr. unfold lift. destruct (Hm tr) as (evs & Htr & Hevs).
  destruct (m tr) as [[e|a] tr1]; simpl in *; by exists evs.
Qed.

End Emits.

Section UploadStages.
Import PyStr Ingest IngestSpec UploadSpec Upload Spec.
Context (settings : IngestSettings) (upload_settings : UploadSettings)
  (paths : PathLib) (ext : Oracles) (up : UploadOracles).

Lemma loader_init_emits (documents_dir : string) :
  emits setup_event (DocumentLoader.__init__ paths ext documents_dir).
Proof.
  unfold DocumentLoader.__init__.
  apply emits_bind; [by apply emits_call |]. intros _. apply emits_ret.
Qed.

Lemma chunker_init_emits (chunk_size chunk_overlap : option Z) :
  emits setup_event (DocumentChunker.__init__ settings ext chunk_size chunk_overlap).
Proof.
  unfold DocumentChunker.__init__.
  apply emits_bind; [by apply emits_call |]. intros _.
  apply emits_bind; [by apply emits_log_info |]. intros _. apply emits_ret.
Qed.

Lemma load_document_emits (self : DocumentLoader.t) (file_path : string) :
  emits loader_event (DocumentLoader.load_document paths ext self file_path).
Proof.
  unfold DocumentLoader.load_document.
  apply emits_bind; [by apply emits_call |]. intros found.
  destruct (negb found); [apply emits_raise |].
  destruct (negb (bool_decide _)); [apply emits_raise |].
  apply emits_logged; [done |].
  apply emits_bind; [by apply emits_call |]. intros documents.
  apply emits_bind; [by apply emits_log_info |]. intros _. apply emits_ret.
Qed.

Lemma load_uploaded_emits (self : DocumentLoader.t) (uploaded_files : list string)
    (all_documents : list Document) :
  emits loader_event
    (load_uploaded paths ext self uploaded_files all_documents).
Proof.
  revert all_documents.
  induction uploaded_files as [|file_path rest IH]; intros all_documents;
    [apply emits_ret |].
  simpl. apply emits_bind; [apply load_document_emits |].
  intros documents. apply IH.
Qed.

Lemma chunk_documents_emits (self : DocumentChunker.t) (documents : list Document) :
  emits splitter_event (DocumentChunker.chunk_documents ext self documents).
Proof.
  unfold DocumentChunker.chunk_documents.
  apply emits_logged; [done |].
  apply emits_bind; [by apply emits_call |]. intros chunks.
  apply emits_bind; [by apply emits_log_info |]. intros _. apply emits_ret.
Qed.

Lemma add_documents_emits (self : RAGChain.t) (documents : list Document) :
  emits store_event (Writes.RAGChain_add_documents ext self documents).
Proof.
  unfold Writes.RAGChain_add_documents.
  apply emits_logged; [done |].
  apply emits_bind.
  - destruct (RAGChain.vector_store self) as [store|store].
    + unfold Writes.PineconeVectorStore_add_documents.
      apply emits_logged; [done |].
      apply emits_bind; [by apply emits_call |]. intros ids.
      apply emits_bind; [by apply emits_log_info |]. intros _. apply emits_ret.
    + unfold Writes.ChromaVectorStore_add_documents.
      apply emits_logged; [done |].
      apply emits_bind; [by apply emits_call |]. intros ids.
      apply emits_bind; [by apply emits_call |]. intros _.
      apply emits_bind; [by apply emits_log_info |]. intros _. apply emits_ret.
  - intros ids. apply emits_bind; [by apply emits_log_info |].
    intros _. apply emits_ret.
Qed.

Lemma emits_uret {A : Type} (P : IEvent → bool) (a : A) : emits P (mret a : UIO A).
Proof. intros tr. exists []. by rewrite app_nil_r. Qed.

Lemma emits_raise_http {A : Type} (P : IEvent → bool) (err : HTTPException) :
  emits P (@raise_http A err).
Proof. intros tr. exists []. by rewrite app_nil_r. Qed.

Lemma emits_ubind {A B : Type} (P : IEvent → bool) (m : UIO A) (f : A → UIO B) :
  emits P m → (∀ a, emits P (f a)) → emits P (m ≫= f).
Proof.
  intros Hm Hf tr. unfold mbind, UIO_bind.
  destruct (Hm tr) as (evs & Htr & Hevs).
  destruct (m tr) as [[e|a] tr1]; simpl in Htr; subst tr1; [by exists evs |].
  destruct (Hf a (tr ++ evs)%list) as (evs' & -> & Hevs').
  exists (evs ++ evs')%list. rewrite app_assoc. split; [done |].
  by apply Forall_app.
Qed.

Lemma emits_with_open {A : Type} (file_path : string) (body : UIO A) :
  emits file_event body → emits file_event (with_open up file_path body).
Proof.
  intros Hbody tr. unfold with_open.
  destruct (ext_open up tr file_path) as [e|[]]; simpl.
  { exists [OpenWrite file_path]. split; [done | by constructor]. }
  destruct (Hbody (tr ++ [OpenWrite file_path])%list) as (evs & Htr & Hevs).
  destruct (body _) as [r tr1]; simpl in Htr; subst tr1.
  exists ([OpenWrite file_path] ++ evs ++ [CloseFile file_path])%list.
  split.
  - destruct (ext_close up _ file_path) as [e|[]]; simpl;
      by rewrite <- !app_assoc.
  - apply Forall_app. split; [by constructor |].
    apply Forall_app. split; [done | by constructor].
Qed.

Lemma save_file_emits (file : UploadFile) :
  emits file_event (save_file upload_settings paths up file).
Proof.
  unfold save_file.
  destruct (negb (bool_decide _)); [apply emits_raise_http |].
  apply emits_ubind.
  - apply emits_with_open, emits_ubind.
    + by apply emits_lift, emits_call.
    + intros content. destruct (Z.ltb _ _); [apply emits_raise_http |].
      apply emits_ubind; [by apply emits_lift, emits_call |].
      intros _. apply emits_uret.
  - intros file_size. apply emits_ubind; [by apply emits_lift, emits_log_info |].
    intros _. apply emits_uret.
Qed.

Lemma save_files_emits (files : list UploadFile) (uploaded_files : list string) :
  emits file_event (save_files upload_settings paths up files uploaded_files).
Proof.
  revert uploaded_files.
  induction files as [|file rest IH]; intros uploaded_files; [apply emits_uret |].
  simpl. apply emits_ubind; [apply save_file_emits |].
  intros file_path. apply IH.
Qed.

Lemma stored_app (tr1 tr2 : list IEvent) :
  stored (tr1 ++ tr2) = (stored tr1 ++ stored tr2)%list.
Proof. apply omap_app. Qed.

Lemma opened_app (tr1 tr2 : list IEvent) :
  opened (tr1 ++ tr2) = (opened tr1 ++ opened tr2)%list.
Proof. apply omap_app. Qed.

Lemma loads_app (tr1 tr2 : list IEvent) :
  loads (tr1 ++ tr2) = (loads tr1 ++ loads tr2)%list.
Proof. apply omap_app. Qed.

(** How the body of the loop ends for one file. *)
Lemma save_file_cases (file : UploadFile) (tr : list IEvent) :
  let run := save_file upload_settings paths up file tr in
  let extension := lower (path_suffix paths (filename file)) in
  let path := target upload_settings up file in
  match run.1 with
  | inr file_path =>
      file_path = path
      ∧ extension ∈ ALLOWED_EXTENSIONS upload_settings
      ∧ stored run.2 = (stored tr ++ [path])%list
      ∧ opened run.2 = (opened tr ++ [path])%list
  | inl (Http err) =>
      status_code err = 400
      ∧ stored run.2 = stored tr
      ∧ (((extension ∉ ALLOWED_EXTENSIONS upload_settings)
          ∧ detail err = "File type " +:+ extension +:+ " not supported. Allowed: "
                         +:+ list_str up (ALLOWED_EXTENSIONS upload_settings)
          ∧ opened run.2 = opened tr)
         ∨ (extension ∈ ALLOWED_EXTENSIONS upload_settings
            ∧ detail err = "File " +:+ filename file
                           +:+ " exceeds maximum size of "
                           +:+ pretty (MAX_UPLOAD_SIZE upload_settings) +:+ " bytes"
            ∧ opened run.2 = (opened tr ++ [path])%list))
  | inl (Other e) =>
      opened run.2 = (opened tr ++ [path])%list
      ∧ (stored run.2 = stored tr ∨ stored run.2 = (stored tr ++ [path])%list)
  end.
Proof.
  intros run extension path. subst run. unfold save_file.
  fold extension. fold path.
  destruct (bool_decide (extension ∈ ALLOWED_EXTENSIONS upload_settings))
    eqn:Hallowed.
  2:{ apply bool_decide_eq_false in Hallowed. simpl.
      split; [done |]. split; [done |]. left. by repeat split. }
  apply bool_decide_eq_true in Hallowed.
  change (negb true) with false. cbv iota.
  unfold mbind, UIO_bind, with_open, lift, call, log_info, mret, UIO_ret.
  destruct (ext_open up tr path) as [e|[]]; simpl.
  { rewrite stored_app, opened_app. simpl. rewrite app_nil_r. by split; [| left]. }
  destruct (ext_read up _ (filename file)) as [e|content]; simpl.
  { destruct (ext_close up _ path) as [e'|[]]; simpl;
      rewrite !stored_app, !opened_app; simpl; rewrite !app_nil_r;
      by split; [| left]. }
  destruct (Z.ltb _ _); simpl.
  { destruct (ext_close up _ path) as [e'|[]]; simpl;
      rewrite !stored_app, !opened_app; simpl; rewrite !app_nil_r.
    - by split; [| left].
    - split; [done |]. split; [done |]. right. by repeat split. }
  destruct (ext_write up _ path content) as [e|[]]; simpl.
  { destruct (ext_close up _ path) as [e'|[]]; simpl;
      rewrite !stored_app, !opened_app; simpl; rewrite !app_nil_r;
      by split; [| right]. }
  destruct (ext_close up _ path) as [e'|[]]; simpl;
    rewrite !stored_app, !opened_app; simpl; rewrite !app_nil_r.
  - by split; [| right].
  - by repeat split.
Qed.

(** How the loop over the files ends: all files stored, or a refusal at
    the first file that is not accepted, with the files before it stored. *)
Lemma save_files_cases (files : list UploadFile) (uploaded_files : list string)
    (tr : list IEvent) :
  let run := save_files upload_settings paths up files uploaded_files tr in
  let targets := target upload_settings up <$> files in
  match run.1 with
  | inr uploaded =>
      uploaded = (uploaded_files ++ targets)%list
      ∧ stored run.2 = (stored tr ++ targets)%list
  | inl (Http err) =>
      status_code err = 400
      ∧ ∃ k file,
          files !! k = Some file
          ∧ stored run.2 = (stored tr ++ firstn k targets)%list
          ∧ let extension := lower (path_suffix paths (filename file)) in
            ((extension ∉ ALLOWED_EXTENSIONS upload_settings)
             ∧ detail err = "File type " +:+ extension
                            +:+ " not supported. Allowed: "
                            +:+ list_str up (ALLOWED_EXTENSIONS upload_settings)
             ∧ opened run.2 = (opened tr ++ firstn k targets)%list)
            ∨ (extension ∈ ALLOWED_EXTENSIONS upload_settings
               ∧ detail err = "File " +:+ filename file
                              +:+ " exceeds maximum size of "
                              +:+ pretty (MAX_UPLOAD_SIZE upload_settings)
                              +:+ " bytes"
               ∧ opened run.2 = (opened tr ++ firstn (S k) targets)%list)
  | inl (Other e) => True
  end.
Proof.
  revert uploaded_files tr.
  induction files as [|file rest IH]; intros uploaded_files tr; simpl.
  { by rewrite !app_nil_r. }
  unfold mbind, UIO_bind.
  pose proof (save_file_cases file tr) as Hfile. cbv zeta in Hfile.
  destruct (save_file upload_settings paths up file tr) as [[[err|e]|file_path] tr1];
    simpl in Hfile; simpl; [| done |].
  - destruct Hfile as (Hstatus & Hstored & Hcase). split; [done |].
    exists 0%nat, file. simpl. split; [done |]. rewrite app_nil_r.
    split; [done |].
    destruct Hcase as [(? & ? & ?)|(? & ? & ?)]; [left | right];
      by rewrite ?app_nil_r.
  - destruct Hfile as (-> & Hallowed & Hstored & Hopened).
    specialize (IH (uploaded_files ++ [target upload_settings up file])%list tr1).
    cbv zeta in IH.
    destruct (save_files upload_settings paths up rest _ tr1)
      as [[[err|e]|uploaded] tr2]; simpl in IH; simpl; [| done |].
    + destruct IH as (Hstatus & k & file' & Hlookup & Hstored' & Hcase).
      split; [done |]. exists (S k), file'. simpl. split; [done |].
      rewrite Hstored', Hstored, <- app_assoc. split; [done |].
      destruct Hcase as [(? & ? & Ho)|(? & ? & Ho)]; [left | right];
        rewrite Ho, Hopened, <- app_assoc; done.
    + destruct IH as (-> & Hstored'). rewrite Hstored', Hstored.
      by rewrite <- !app_assoc.
Qed.

Lemma load_document_loads (self : DocumentLoader.t) (file_path : string)
    (tr : list IEvent) :
  let run := DocumentLoader.load_document paths ext self file_path tr in
  match run.1 with
  | inr _ => loads run.2 = (loads tr ++ [path_str paths file_path])%list
  | inl _ => True
  end.
Proof.
  cbv zeta. rewrite load_document_run. cbv zeta.
  destruct (ext_exists ext tr _) as [e|[|]]; [done | | done].
  destruct (bool_decide _); [| done].
  destruct (ext_load ext _ _ _) as [e|documents]; [done |].
  simpl. rewrite !loads_app. simpl. by rewrite app_nil_r.
Qed.

Lemma load_uploaded_loads (self : DocumentLoader.t) (uploaded_files : list string)
    (all_documents : list Document) (tr : list IEvent) :
  let run := load_uploaded paths ext self uploaded_files all_documents tr in
  match run.1 with
  | inr _ => loads run.2 = (loads tr ++ (path_str paths <$> uploaded_files))%list
  | inl _ => True
  end.
Proof.
  revert all_documents tr.
  induction uploaded_files as [|file_path rest IH]; intros all_documents tr; simpl.
  { by rewrite app_nil_r. }
  unfold mbind, IO_bind.
  pose proof (load_document_loads self file_path tr) as Hloads.
  cbv zeta in Hloads.
  destruct (DocumentLoader.load_document paths ext self file_path tr)
    as [[e|documents] tr1]; simpl in Hloads; simpl; [done |].
  specialize (IH (all_documents ++ documents)%list tr1). cbv zeta in IH.
  destruct (load_uploaded paths ext self rest _ tr1) as [[e|loaded] tr2];
    simpl in IH; simpl; [done |].
  by rewrite IH, Hloads, <- app_assoc.
Qed.

Lemma emits_prefix {E A : Type} (P : IEvent → bool)
    (m : list IEvent → (E + A) * list IEvent) (tr : list IEvent) :
  emits P m → tr `prefix_of` (m tr).2.
Proof. intros Hm. destruct (Hm tr) as (evs & -> & _). by exists evs. Qed.

(** A call of [load_document] begins with the existence check. *)
Lemma load_document_begins (self : DocumentLoader.t) (file_path : string)
    (tr : list IEvent) :
  (tr ++ [PathExists (path_str paths file_path)])%list
    `prefix_of` (DocumentLoader.load_document paths ext self file_path tr).2.
Proof.
  rewrite load_document_run. cbv zeta.
  destruct (ext_exists ext tr _) as [e|[|]]; [done | | done].
  destruct (bool_decide _); [| done].
  destruct (ext_load ext _ _ _) as [e|documents]; simpl; by eexists.
Qed.

(** When the loop over the uploaded files returns, a call of
    [load_document] has returned for each of them, in the loop. *)
Lemma load_uploaded_answered (self : DocumentLoader.t)
    (uploaded_files : list string) (all_documents : list Document)
    (tr : list IEvent) :
  let run := load_uploaded paths ext self uploaded_files all_documents tr in
  match run.1 with
  | inr _ =>
      Forall
        (λ file_path, ∃ h documents,
           (h ++ [PathExists (path_str paths file_path)])%list `prefix_of` run.2
           ∧ (DocumentLoader.load_document paths ext self file_path h).1
             = inr documents)
        uploaded_files
  | inl _ => True
  end.
Proof.
  revert all_documents tr.
  induction uploaded_files as [|file_path rest IH]; intros all_documents tr; simpl.
  { constructor. }
  unfold mbind, IO_bind.
  pose proof (load_document_begins self file_path tr) as Hfirst.
  destruct (DocumentLoader.load_document paths ext self file_path tr)
    as [[e|documents] tr1] eqn:Hload; simpl in Hfirst; simpl; [done |].
  specialize (IH (all_documents ++ documents)%list tr1). cbv zeta in IH.
  pose proof (emits_prefix _ _ tr1
                (load_uploaded_emits self rest (all_documents ++ documents)%list))
    as Hrest.
  destruct (load_uploaded paths ext self rest _ tr1) as [[e|loaded] tr2];
    simpl in IH, Hrest; simpl; [done |].
  constructor; [| exact IH].
  exists tr, documents. split; [by etrans | by rewrite Hload].
Qed.

Lemma setup_keeps {E A : Type} (m : list IEvent → (E + A) * list IEvent)
    (tr : list IEvent) :
  emits setup_event m →
  writes (m tr).2 = writes tr ∧ stored (m tr).2 = stored tr
  ∧ opened (m tr).2 = opened tr ∧ loads (m tr).2 = loads tr.
Proof.
  intros Hm. repeat split; apply (emits_keeps _ _ _ _ Hm); by intros [].
Qed.

Lemma file_keeps {E A : Type} (m : list IEvent → (E + A) * list IEvent)
    (tr : list IEvent) :
  emits file_event m →
  writes (m tr).2 = writes tr ∧ loads (m tr).2 = loads tr.
Proof.
  intros Hm. repeat split; apply (emits_keeps _ _ _ _ Hm); by intros [].
Qed.

Lemma loader_keeps {E A : Type} (m : list IEvent → (E + A) * list IEvent)
    (tr : list IEvent) :
  emits loader_event m →
  writes (m tr).2 = writes tr ∧ stored (m tr).2 = stored tr
  ∧ opened (m tr).2 = opened tr.
Proof.
  intros Hm. repeat split; apply (emits_keeps _ _ _ _ Hm); by intros [].
Qed.

Lemma splitter_keeps {E A : Type} (m : list IEvent → (E + A) * list IEvent)
    (tr : list IEvent) :
  emits splitter_event m →
  writes (m tr).2 = writes tr ∧ stored (m tr).2 = stored tr
  ∧ opened (m tr).2 = opened tr ∧ loads (m tr).2 = loads tr.
Proof.
  intros Hm. repeat split; apply (emits_keeps _ _ _ _ Hm); by intros [].
Qed.

Lemma store_keeps {E A : Type} (m : list IEvent → (E + A) * list IEvent)
    (tr : list IEvent) :
  emits store_event m →
  stored (m tr).2 = stored tr ∧ opened (m tr).2 = opened tr
  ∧ loads (m tr).2 = loads tr.
Proof.
  intros Hm. repeat split; apply (emits_keeps _ _ _ _ Hm); by intros [].
Qed.

Lemma ubind_run {A B : Type} (m : UIO A) (f : A → UIO B) (tr : list IEvent) :
  (m ≫= f) tr = match m tr with
                | (inr a, tr') => f a tr'
                | (inl r, tr') => (inl r, tr')
                end.
Proof. reflexivity. Qed.

Lemma lift_run {A : Type} (m : IO A) (tr : list IEvent) :
  lift m tr = match m tr with
              | (inr a, tr') => (inr a, tr')
              | (inl e, tr') => (inl (Other e), tr')
              end.
Proof. reflexivity. Qed.

(** How the [try] block of the endpoint ends. *)
Lemma upload_body_cases (files : list UploadFile) (rag_chain : RAGChain.t)
    (tr : list IEvent) :
  let run := upload_body settings upload_settings paths ext up files rag_chain tr in
  let vs := store_handle (RAGChain.vector_store rag_chain) in
  let targets := target upload_settings up <$> files in
  match run.1 with
  | inr response =>
      message response = "Documents uploaded and processed successfully"
      ∧ files_processed response = length files
      ∧ stored run.2 = (stored tr ++ targets)%list
      ∧ loads run.2 = (loads tr ++ (path_str paths <$> targets))%list
      ∧ Forall (loaded_during paths ext run.2) targets
      ∧ ∃ chunks,
          writes run.2 = (writes tr ++ [(vs, chunks)])%list
          ∧ chunks_created response = length chunks
  | inl (Http err) =>
      status_code err = 400
      ∧ writes run.2 = writes tr
      ∧ loads run.2 = loads tr
      ∧ ∃ k file,
          files !! k = Some file
          ∧ stored run.2 = (stored tr ++ firstn k targets)%list
          ∧ let extension := lower (path_suffix paths (filename file)) in
            ((extension ∉ ALLOWED_EXTENSIONS upload_settings)
             ∧ detail err = "File type " +:+ extension
                            +:+ " not supported. Allowed: "
                            +:+ list_str up (ALLOWED_EXTENSIONS upload_settings)
             ∧ opened run.2 = (opened tr ++ firstn k targets)%list)
            ∨ (extension ∈ ALLOWED_EXTENSIONS upload_settings
               ∧ detail err = "File " +:+ filename file
                              +:+ " exceeds maximum size of "
                              +:+ pretty (MAX_UPLOAD_SIZE upload_settings)
                              +:+ " bytes"
               ∧ opened run.2 = (opened tr ++ firstn (S k) targets)%list)
  | inl (Other e) =>
      writes run.2 = writes tr
      ∨ (stored run.2 = (stored tr ++ targets)%list
         ∧ loads run.2 = (loads tr ++ (path_str paths <$> targets))%list
         ∧ Forall (loaded_during paths ext run.2) targets
         ∧ ∃ chunks, writes run.2 = (writes tr ++ [(vs, chunks)])%list)
  end.
Proof.
  intros run vs targets. subst run vs targets. unfold upload_body.
  rewrite ubind_run, lift_run.
  pose proof (setup_keeps _ tr (loader_init_emits (UPLOADS_DIR upload_settings)))
    as (W1 & S1 & O1 & L1).
  destruct (DocumentLoader.__init__ paths ext _ tr) as [[e|document_loader] tr1];
    simpl in W1, S1, O1, L1; cbv beta iota delta [fst snd]; [by left |].
  rewrite ubind_run, lift_run.
  pose proof (setup_keeps _ tr1 (chunker_init_emits None None))
    as (W2 & S2 & O2 & L2).
  destruct (DocumentChunker.__init__ settings ext None None tr1)
    as [[e|document_chunker] tr2];
    simpl in W2, S2, O2, L2; cbv beta iota delta [fst snd]; [left; congruence |].
  rewrite ubind_run.
  pose proof (file_keeps _ tr2 (save_files_emits files [])) as (W3 & L3).
  pose proof (save_files_cases files [] tr2) as Hsaved. cbv zeta in Hsaved.
  destruct (save_files upload_settings paths up files [] tr2)
    as [[[err|e]|uploaded_files] tr3];
    simpl in W3, L3, Hsaved; cbv beta iota delta [fst snd].
  { destruct Hsaved as (Hstatus & k & file & Hlookup & Hstored & Hcase).
    simpl. split; [done |]. split; [congruence |]. split; [congruence |].
    exists k, file. split; [done |]. split; [congruence |].
    destruct Hcase as [(? & ? & Ho)|(? & ? & Ho)]; [left | right];
      repeat split; congruence. }
  { simpl. left. congruence. }
  destruct Hsaved as (-> & S3). simpl app.
  rewrite ubind_run, lift_run.
  pose proof (loader_keeps _ tr3 (load_uploaded_emits document_loader
                (target upload_settings up <$> files) []))
    as (W4 & S4 & O4).
  pose proof (load_uploaded_loads document_loader
                (target upload_settings up <$> files) [] tr3) as L4.
  pose proof (load_uploaded_answered document_loader
                (target upload_settings up <$> files) [] tr3) as A4.
  cbv zeta in L4, A4.
  destruct (load_uploaded paths ext document_loader _ [] tr3)
    as [[e|all_documents] tr4];
    simpl in W4, S4, O4, L4, A4; cbv beta iota delta [fst snd];
    [simpl; left; congruence |].
  rewrite ubind_run, lift_run.
  pose proof (splitter_keeps _ tr4
                (chunk_documents_emits document_chunker all_documents))
    as (W5 & S5 & O5 & L5).
  pose proof (emits_prefix _ _ tr4
                (chunk_documents_emits document_chunker all_documents)) as P5.
  destruct (DocumentChunker.chunk_documents ext document_chunker all_documents tr4)
    as [[e|chunks] tr5];
    simpl in W5, S5, O5, L5, P5; cbv beta iota delta [fst snd];
    [simpl; left; congruence |].
  rewrite ubind_run, lift_run.
  pose proof (store_keeps _ tr5 (add_documents_emits rag_chain chunks))
    as (S6 & O6 & L6).
  pose proof (emits_prefix _ _ tr5 (add_documents_emits rag_chain chunks)) as P6.
  pose proof (add_documents_writes ext rag_chain chunks tr5) as W6.
  destruct (Writes.RAGChain_add_documents ext rag_chain chunks tr5)
    as [[e|ids] tr6];
    simpl in W6, S6, O6, L6, P6; cbv beta iota delta [fst snd].
  { simpl. right. split; [congruence |]. split; [congruence |]. split.
    - eapply Forall_impl; [exact A4 |].
      intros file_path (h & documents & Hbefore & Hanswer).
      exists document_loader, h, documents. split; [| done].
      etrans; [exact Hbefore |]. by etrans.
    - exists chunks. congruence. }
  unfold mbind, UIO_bind, lift, log_info, mret, UIO_ret. simpl.
  rewrite stored_app, loads_app, writes_app. simpl. rewrite !app_nil_r.
  split; [done |]. split; [by rewrite length_fmap |].
  split; [congruence |]. split; [congruence |]. split.
  - eapply Forall_impl; [exact A4 |].
    intros file_path (h & documents & Hbefore & Hanswer).
    exists document_loader, h, documents. split; [| done].
    etrans; [exact Hbefore |]. etrans; [exact P5 |]. etrans; [exact P6 |].
    by apply prefix_app_r.
  - exists chunks. split; [congruence | done].
Qed.

(** X23: the upload endpoint answers with a summary, with status 400 or
    with status 500.  A summary counts every file of the request and
    reports the number of chunks handed to the store in one call.  A
    refusal with 400 hands nothing to the store and gives no file to a
    loader.  Status 500 carries the text of the exception, which is also
    the last line logged, and the store was written at most once. *)
Theorem upload_documents_outcome (files : list UploadFile)
    (rag_chain : RAGChain.t) (tr : list IEvent) :
  let run := upload_documents settings upload_settings paths ext up files
               rag_chain tr in
  let vs := store_handle (RAGChain.vector_store rag_chain) in
  match run.1 with
  | inr response =>
      message response = "Documents uploaded and processed successfully"
      ∧ files_processed response = length files
      ∧ ∃ chunks,
          writes run.2 = (writes tr ++ [(vs, chunks)])%list
          ∧ chunks_created response = length chunks
  | inl err =>
      (status_code err = 400
       ∧ writes run.2 = writes tr
       ∧ loads run.2 = loads tr)
      ∨ (status_code err = 500
         ∧ (∃ e, detail err = "Error uploading documents: " +:+ exc_str e
                 ∧ last run.2
                   = Some (ILog ERROR ("Error uploading documents: "
                                       +:+ exc_str e)))
         ∧ (writes run.2 = writes tr
            ∨ ∃ chunks, writes run.2 = (writes tr ++ [(vs, chunks)])%list))
  end.
Proof.
  intros run vs. subst run vs. unfold upload_documents.
  pose proof (upload_body_cases files rag_chain tr) as Hbody.
  cbv zeta in Hbody.
  destruct (upload_body settings upload_settings paths ext up files rag_chain tr)
    as [[[err|e]|response] tr']; simpl in Hbody; simpl.
  - left. by destruct Hbody as (? & ? & ? & _).
  - right. split; [done |]. split.
    + exists e. split; [done | apply last_snoc].
    + rewrite writes_app. simpl. rewrite app_nil_r.
      destruct Hbody as [Hnone|(_ & _ & _ & chunks & Hone)];
        [by left | right; by exists chunks].
  - by destruct Hbody as (? & ? & _ & _ & _ & ?).
Qed.

(** X24: when the upload is refused with status 400, it is because of the
    first file that is not accepted: the files before it have been
    written to the uploads directory and stay there, and no later file is
    touched.  Either its lower-cased suffix is not allowed, and the file
    was not opened; or its content is larger than [MAX_UPLOAD_SIZE], and
    then its target was opened for writing although nothing is written
    to it. *)
Theorem upload_refusal_keeps_earlier_files (files : list UploadFile)
    (rag_chain : RAGChain.t) (tr : list IEvent) (err : HTTPException) :
  let run := upload_documents settings upload_settings paths ext up files
               rag_chain tr in
  let targets := target upload_settings up <$> files in
  run.1 = inl err →
  status_code err = 400 →
  ∃ k file,
    files !! k = Some file
    ∧ stored run.2 = (stored tr ++ firstn k targets)%list
    ∧ let extension := lower (path_suffix paths (filename file)) in
      ((extension ∉ ALLOWED_EXTENSIONS upload_settings)
       ∧ detail err = "File type " +:+ extension +:+ " not supported. Allowed: "
                      +:+ list_str up (ALLOWED_EXTENSIONS upload_settings)
       ∧ opened run.2 = (opened tr ++ firstn k targets)%list)
      ∨ (extension ∈ ALLOWED_EXTENSIONS upload_settings
         ∧ detail err = "File " +:+ filename file +:+ " exceeds maximum size of "
                        +:+ pretty (MAX_UPLOAD_SIZE upload_settings) +:+ " bytes"
         ∧ opened run.2 = (opened tr ++ firstn (S k) targets)%list).
Proof.
  intros run targets. subst run targets. unfold upload_documents.
  pose proof (upload_body_cases files rag_chain tr) as Hbody.
  cbv zeta in Hbody.
  destruct (upload_body settings upload_settings paths ext up files rag_chain tr)
    as [[[err'|e]|response] tr']; simpl in Hbody; simpl; intros Herr Hstatus.
  - injection Herr as ->. by destruct Hbody as (_ & _ & _ & ?).
  - injection Herr as <-. simpl in Hstatus. done.
  - done.
Qed.

(** X25: the store is written only after everything else went well.
    Whenever the upload hands anything to the store, every file of the
    request has been written to the uploads directory, every one of them
    has been given to its loader, in the order of the request, and a call
    of [load_document] has returned for every one of them.  So a single
    file that fails to load (every call of [load_document] on it in this
    request raises) ends the request: nothing is handed to the store, and
    the answer is an error. *)
Theorem upload_all_or_nothing (files : list UploadFile)
    (rag_chain : RAGChain.t) (tr : list IEvent) :
  let run := upload_documents settings upload_settings paths ext up files
               rag_chain tr in
  let targets := target upload_settings up <$> files in
  (writes run.2 ≠ writes tr →
   stored run.2 = (stored tr ++ targets)%list
   ∧ loads run.2 = (loads tr ++ (path_str paths <$> targets))%list
   ∧ Forall (loaded_during paths ext run.2) targets)
  ∧ (∀ file, file ∈ files →
       fails_during paths ext run.2 (target upload_settings up file) →
       writes run.2 = writes tr
       ∧ ∃ err, run.1 = inl err
                ∧ (status_code err = 400 ∨ status_code err = 500)).
Proof.
  intros run targets. subst run targets. unfold upload_documents.
  pose proof (upload_body_cases files rag_chain tr) as Hbody.
  cbv zeta in Hbody.
  assert (∀ file tr', file ∈ files →
            fails_during paths ext tr' (target upload_settings up file) →
            Forall (loaded_during paths ext tr')
              (target upload_settings up <$> files) → False) as Hclash.
  { intros file tr' Hfile Hfails Hloaded.
    rewrite Forall_forall in Hloaded.
    destruct (Hloaded (target upload_settings up file))
      as (self & h & documents & Hprefix & Hanswer).
    { apply list_elem_of_fmap. by exists file. }
    destruct (Hfails self h Hprefix) as (e & Hraise). congruence. }
  destruct (upload_body settings upload_settings paths ext up files rag_chain tr)
    as [[[err|e]|response] tr']; simpl in Hbody; simpl.
  - destruct Hbody as (Hstatus & Hwrites & _). split; [done |].
    intros file _ _. split; [done |]. exists err. split; [done | by left].
  - rewrite writes_app, stored_app, loads_app. simpl. rewrite !app_nil_r.
    assert (∀ file_path, loaded_during paths ext tr' file_path →
              loaded_during paths ext
                (tr' ++ [ILog ERROR ("Error uploading documents: " +:+ exc_str e)])
                file_path) as Hlonger.
    { intros file_path (self & h & documents & Hprefix & Hanswer).
      exists self, h, documents. split; [by apply prefix_app_r | done]. }
    destruct Hbody as [Hnone|(Hstored & Hloads & Hloaded & chunks & Hone)].
    + split; [done |]. intros file _ _. split; [done |].
      eexists. split; [done | by right].
    + split.
      * intros _. split; [done |]. split; [done |].
        eapply Forall_impl; [exact Hloaded | exact Hlonger].
      * intros file Hfile Hfails.
        destruct (Hclash file _ Hfile Hfails).
        eapply Forall_impl; [exact Hloaded | exact Hlonger].
  - destruct Hbody as (_ & _ & Hstored & Hloads & Hloaded & _). split; [done |].
    intros file Hfile Hfails. destruct (Hclash file _ Hfile Hfails Hloaded).
Qed.

End UploadStages.

Lemma upload_refusal_keeps_earlier_files_witness :
  let run := Upload.upload_documents IngestExamples.ingest_settings
               UploadExamples.small_limit IngestExamples.simple_paths
               IngestExamples.ext_dir UploadExamples.up_ok
               [UploadExamples.notes; UploadExamples.big; UploadExamples.paper]
               Examples.chain [] in
  ∃ k file,
    [UploadExamples.notes; UploadExamples.big; UploadExamples.paper] !! k
    = Some file
    ∧ UploadSpec.stored run.2 = firstn k ["up/notes.txt"; "up/big.txt"; "up/Exam.PDF"]
    ∧ UploadSpec.opened run.2 = ["up/notes.txt"; "up/big.txt"].
Proof.
  cbv zeta.
  destruct (upload_refusal_keeps_earlier_files IngestExamples.ingest_settings
              UploadExamples.small_limit IngestExamples.simple_paths
              IngestExamples.ext_dir UploadExamples.up_ok
              [UploadExamples.notes; UploadExamples.big; UploadExamples.paper]
              Examples.chain []
              {| status_code := 400;
                 detail := "File big.txt exceeds maximum size of 4 bytes" |})
    as (k & file & Hlookup & Hstored & _);
    [vm_compute; reflexivity | reflexivity |].
  exists k, file. split; [exact Hlookup |]. split; [exact Hstored |].
  vm_compute. reflexivity.
Defined.

Lemma upload_all_or_nothing_witness :
  let run := Upload.upload_documents IngestExamples.ingest_settings
               UploadExamples.small_limit IngestExamples.simple_paths
               UploadExamples.ext_bad_pdf UploadExamples.up_ok
               [UploadExamples.notes; UploadExamples.bad] Examples.chain [] in
  UploadExamples.bad ∈ [UploadExamples.notes; UploadExamples.bad]
  ∧ IngestSpec.writes run.2 = []
  ∧ UploadSpec.stored run.2 = ["up/notes.txt"; "up/bad.pdf"]
  ∧ ∃ err, run.1 = inl err ∧ (status_code err = 400 ∨ status_code err = 500).
Proof.
  cbv zeta.
  assert (UploadExamples.bad ∈ [UploadExamples.notes; UploadExamples.bad])
    as Hbad by (right; left).
  split; [exact Hbad |].
  destruct (upload_all_or_nothing IngestExamples.ingest_settings
              UploadExamples.small_limit IngestExamples.simple_paths
              UploadExamples.ext_bad_pdf UploadExamples.up_ok
              [UploadExamples.notes; UploadExamples.bad] Examples.chain [])
    as (_ & Hfails).
  destruct (Hfails UploadExamples.bad Hbad) as (Hwrites & Herr).
  { intros self h _. eexists. rewrite load_document_run. reflexivity. }
  split; [exact Hwrites |]. split; [vm_compute; reflexivity | exact Herr].
Defined.

(** The same request with loaders that can read both files is handed to
    the store. *)
Example upload_all_files_loaded :
  let run := Upload.upload_documents IngestExamples.ingest_settings
               UploadExamples.small_limit IngestExamples.simple_paths
               IngestExamples.ext_dir UploadExamples.up_ok
               [UploadExamples.notes; UploadExamples.bad] Examples.chain [] in
  length (IngestSpec.writes run.2) = 1%nat
  ∧ UploadSpec.stored run.2 = ["up/notes.txt"; "up/bad.pdf"]
  ∧ UploadSpec.loads run.2 = ["up/notes.txt"; "up/bad.pdf"].
Proof. vm_compute. done. Qed.

Example upload_documents_example :
  (Upload.upload_documents IngestExamples.ingest_settings
     UploadExamples.small_limit IngestExamples.simple_paths
     IngestExamples.ext_dir UploadExamples.up_ok
     [UploadExamples.notes; UploadExamples.paper] Examples.chain []).1
  = inr {| Upload.message := "Documents uploaded and processed successfully";
           Upload.files_processed := 2;
           Upload.chunks_created := 2 |}
  ∧ (Upload.upload_documents IngestExamples.ingest_settings
       UploadExamples.small_limit IngestExamples.simple_paths
       IngestExamples.ext_dir UploadExamples.up_ok
       [UploadExamples.notes; UploadExamples.program] Examples.chain []).1
    = inl {| status_code := 400;
             detail := "File type .exe not supported. Allowed: "
                       +:+ "['.pdf', '.docx', '.txt', '.md']" |}.
Proof. vm_compute. done. Qed.
